(** * Task Master (Ollama edition): response ingestion and dependency graph

    A shallow embedding of [ai-services.js] (the AI service interactions of
    the Task Master CLI) and of the dependency manager described by the
    specification, followed by the properties proved of them.

    Layout: module [JS] (strings, numbers and values of the language),
    module [Json] (a reference parser), module [AiServices] (the functions
    of [ai-services.js]), module [DependencyManager], module [Examples]
    (concrete texts and collections), module [Generation] (the subtask
    generators and the analysis prompt), module [CommandHandler] (the
    handler of [command-handler.js]), module [Scenarios]; then the facts,
    component by component, each followed by the claims it settles.

    Conventions of the embedding.
    - JavaScript strings are [string]s over 8-bit code units.  Every
      character the source inspects (backslash, quotes, brackets, braces,
      newline, the letters of [timeout] and [network]) is ASCII.
    - JavaScript numbers: integers are [Z], finite decimals are kept as a
      mantissa and a power of ten, and [NaN] and the infinities are values
      of their own.  What [parseInt] returns is rounded to the nearest
      double as IEEE-754 has it; the number literals of a JSON text are
      kept as written by the reference parser.  The sign of zero is not
      represented.
    - [log(level, ...)], [console.error] and the awaited [setTimeout] are
      recorded as events in the order the source produces them; the
      arguments interpolated into a message are kept as data.  The
      [TypeError] that the conversion of a value to a string raises (an
      object that hides [toString] behind a property of its own) is
      modelled where a value of a reply or of the tasks file is converted:
      in the stream assembler, the subtask parser and the analysis prompt.
      The loading indicator and the progress dots only write to the
      terminal and are left out.
    - [CONFIG.debug] is off: the branches it guards only log and write
      auxiliary files.
    - [JSON.parse], the built-in, is a parameter of the functions that call
      it; so are the string conversion of non-string values, the
      environment variables and the date.  Module [Json] gives a reference
      parser for the JSON grammar; it is the instance used whenever a
      statement is evaluated on a concrete text.
    - The network is a parameter too: what each successive request to
      [/api/chat] meets.  The prompts sent do not influence what this file
      models and are left out. *)

From Stdlib Require Import ZArith List String Ascii Bool Lia Arith.
From Stdlib Require Import DecimalString.
From Stdlib Require Import Recdef FunInd.
Import ListNotations.
Open Scope string_scope.
Open Scope nat_scope.
Set Warnings "-register-all".

(* ===================================================================== *)
(** * JavaScript strings *)
(* ===================================================================== *)

Module JS.

Definition dquote : ascii := ascii_of_nat 34.
Definition squote : ascii := ascii_of_nat 39.
Definition backslash : ascii := ascii_of_nat 92.
Definition newline : ascii := ascii_of_nat 10.

(** [dq s] is [s] with every single quote turned into a double quote; it is
    only a way to write JSON texts legibly. *)
Fixpoint dq (s : string) : string :=
  match s with
  | EmptyString => EmptyString
  | String c r => String (if Ascii.eqb c squote then dquote else c) (dq r)
  end.

Fixpoint mem_char (c : ascii) (s : string) : bool :=
  match s with
  | EmptyString => false
  | String a r => Ascii.eqb a c || mem_char c r
  end.

(** [String.prototype.indexOf] for a one-character needle: the first index,
    or [-1]. *)
Fixpoint indexOf_from (c : ascii) (s : string) (i : Z) : Z :=
  match s with
  | EmptyString => (-1)%Z
  | String a r => if Ascii.eqb a c then i else indexOf_from c r (i + 1)%Z
  end.

Definition indexOf (s : string) (c : ascii) : Z := indexOf_from c s 0%Z.

(** [String.prototype.lastIndexOf]: the last index, or [-1]. *)
Fixpoint lastIndexOf_from (c : ascii) (s : string) (i found : Z) : Z :=
  match s with
  | EmptyString => found
  | String a r =>
      lastIndexOf_from c r (i + 1)%Z (if Ascii.eqb a c then i else found)
  end.

Definition lastIndexOf (s : string) (c : ascii) : Z :=
  lastIndexOf_from c s 0%Z (-1)%Z.

(** [String.prototype.substring(a, b)]: both ends are clamped to
    [0 .. length] and swapped when out of order. *)
Definition substring (s : string) (a b : Z) : string :=
  let len := Z.of_nat (String.length s) in
  let a' := Z.max 0 (Z.min a len) in
  let b' := Z.max 0 (Z.min b len) in
  let lo := Z.min a' b' in
  let hi := Z.max a' b' in
  String.substring (Z.to_nat lo) (Z.to_nat (hi - lo)) s.

(** [s.split(c)] for a one-character separator. *)
Fixpoint split (c : ascii) (s : string) : list string :=
  match s with
  | EmptyString => [EmptyString]
  | String a r =>
      if Ascii.eqb a c then EmptyString :: split c r
      else match split c r with
           | [] => [String a EmptyString]
           | l :: ls => String a l :: ls
           end
  end.

(** White space in the sense of [String.prototype.trim], restricted to
    8-bit code units: TAB, LF, VT, FF, CR, SPACE and NBSP. *)
Definition is_space (c : ascii) : bool :=
  let n := nat_of_ascii c in
  ((9 <=? n) && (n <=? 13)) || (n =? 32) || (n =? 160).

Fixpoint all_space (s : string) : bool :=
  match s with
  | EmptyString => true
  | String a r => is_space a && all_space r
  end.

(** [line.trim()] used as a condition: the trimmed text is truthy exactly
    when the line has a character that is not white space. *)
Definition trim_truthy (s : string) : bool := negb (all_space s).

(** [String.prototype.toLowerCase] on 8-bit code units. *)
Definition lower_char (c : ascii) : ascii :=
  let n := nat_of_ascii c in
  if ((65 <=? n) && (n <=? 90))
     || ((192 <=? n) && (n <=? 222) && negb (n =? 215))
  then ascii_of_nat (n + 32) else c.

Fixpoint toLowerCase (s : string) : string :=
  match s with
  | EmptyString => EmptyString
  | String a r => String (lower_char a) (toLowerCase r)
  end.

(** [s.includes(sub)]. *)
Fixpoint includes (s sub : string) : bool :=
  String.prefix sub s ||
  match s with
  | EmptyString => false
  | String _ r => includes r sub
  end.

(** Decimal rendering of an integer, as a template literal prints it. *)
Definition string_of_Z (z : Z) : string := NilZero.string_of_int (Z.to_int z).

(* --------------------------------------------------------------------- *)
(** ** Numbers and values *)

Inductive number :=
| NInt (z : Z)
| NDec (m : Z) (e : positive)   (* m / 10^e, with m not a multiple of 10 *)
| NaN
| NInf (negative : bool).       (* Infinity and -Infinity *)

(** A value of the language.  An array carries, besides its items, the
    named properties assigned to it. *)
Inductive value :=
| VUndefined
| VNull
| VBool (b : bool)
| VNum (n : number)
| VStr (s : string)
| VObj (props : list (string * value))
| VArr (items : list value) (props : list (string * value)).

Definition props := list (string * value).

Fixpoint lookup (k : string) (ps : props) : option value :=
  match ps with
  | [] => None
  | (k', v) :: r => if String.eqb k' k then Some v else lookup k r
  end.

(** Assignment of an own property: an existing key keeps its position. *)
Fixpoint set_prop (k : string) (v : value) (ps : props) : props :=
  match ps with
  | [] => [(k, v)]
  | (k', v') :: r =>
      if String.eqb k' k then (k, v) :: r else (k', v') :: set_prop k v r
  end.

(** [v.k] for a name [k] that is neither inherited nor an index nor
    [length] ([id], [dependencies], [message] and [content] are the names
    the source reads).  [None] is the [TypeError] raised on [null] and
    [undefined]. *)
Definition get (v : value) (k : string) : option value :=
  match v with
  | VUndefined | VNull => None
  | VObj ps | VArr _ ps =>
      Some (match lookup k ps with Some x => x | None => VUndefined end)
  | VBool _ | VNum _ | VStr _ => Some VUndefined
  end.

(** [v.k = x] in module code, which is strict: assigning to a property of
    a primitive raises a [TypeError] ([None]). *)
Definition set (v : value) (k : string) (x : value) : option value :=
  match v with
  | VObj ps => Some (VObj (set_prop k x ps))
  | VArr items ps => Some (VArr items (set_prop k x ps))
  | _ => None
  end.

Definition truthy (v : value) : bool :=
  match v with
  | VUndefined | VNull => false
  | VBool b => b
  | VNum (NInt z) => negb (z =? 0)%Z
  | VNum (NDec _ _) => true
  | VNum NaN => false
  | VNum (NInf _) => true
  | VStr s => negb (String.eqb s EmptyString)
  | VObj _ | VArr _ _ => true
  end.

Definition isArray (v : value) : bool :=
  match v with VArr _ _ => true | _ => false end.

(** The record has an own property of that name. *)
Definition has_own (k : string) (ps : props) : bool :=
  match lookup k ps with
  | Some _ => true
  | None => false
  end.

(** The conversion of [v] to a string, as a template literal and [+=] on
    a string perform it, succeeds.  No value of the model is callable, so
    an own property [toString] hides the inherited method and the
    conversion raises a [TypeError] (the inherited [valueOf] returns the
    object itself); an array without such a property is joined, which
    converts its elements in turn, unless an own property [join] hides
    that method too, and then the default rendering of objects is used. *)
Fixpoint interpolable (v : value) : bool :=
  match v with
  | VObj ps => negb (has_own "toString" ps)
  | VArr items ps =>
      negb (has_own "toString" ps)
      && (has_own "join" ps || forallb interpolable items)
  | VUndefined | VNull | VBool _ | VNum _ | VStr _ => true
  end.

(** [v !== n] for an integer [n]. *)
Definition strict_neq_int (v : value) (n : Z) : bool :=
  match v with
  | VNum (NInt z) => negb (z =? n)%Z
  | _ => true
  end.

(** [parseInt(s, 10)]: leading white space, an optional sign, then the
    longest run of decimal digits; [NaN] when there is no digit. *)
Definition is_digit (c : ascii) : bool :=
  let n := nat_of_ascii c in (48 <=? n) && (n <=? 57).

Definition digit_val (c : ascii) : Z := Z.of_nat (nat_of_ascii c - 48).

Fixpoint skip_space (s : string) : string :=
  match s with
  | String a r => if is_space a then skip_space r else s
  | EmptyString => EmptyString
  end.

Fixpoint digits_from (acc : Z) (s : string) : Z :=
  match s with
  | String a r =>
      if is_digit a then digits_from (10 * acc + digit_val a)%Z r else acc
  | EmptyString => acc
  end.

Definition starts_with_digit (s : string) : bool :=
  match s with String a _ => is_digit a | EmptyString => false end.

(** The integer that the sign and the digits denote, when there is a
    digit. *)
Definition leading_integer (s : string) : option Z :=
  match skip_space s with
  | String a r =>
      if Ascii.eqb a "-" then
        if starts_with_digit r then Some (- digits_from 0 r)%Z else None
      else if Ascii.eqb a "+" then
        if starts_with_digit r then Some (digits_from 0 r) else None
      else if is_digit a then Some (digits_from 0 (String a r))
      else None
  | EmptyString => None
  end.

(** The Number value of an integer: the integer itself below [2^53] in
    magnitude; beyond, the nearest number with a significand of 53 bits,
    a tie going to the even significand, and an infinity from [2^1024]
    on. *)
Definition nearest_double (z : Z) : number :=
  let a := Z.abs z in
  if (a <? 2 ^ 53)%Z then NInt z
  else
    let shift := (Z.log2 a - 52)%Z in
    let q := Z.shiftr a shift in
    let r := (a - Z.shiftl q shift)%Z in
    let half := Z.shiftl 1 (shift - 1) in
    let q' := if (half <? r)%Z || ((r =? half)%Z && Z.odd q)
              then (q + 1)%Z else q in
    let m := Z.shiftl q' shift in
    if (2 ^ 1024 <=? m)%Z then NInf (z <? 0)%Z
    else NInt (Z.sgn z * m).

(** The result is the Number value of the integer read, as V8 computes it
    (the language lets an implementation replace the digits after the
    twentieth by zeros). *)
Definition parseInt10 (s : string) : number :=
  match leading_integer s with
  | Some z => nearest_double z
  | None => NaN
  end.

Fixpoint all_chars (p : ascii -> bool) (s : string) : bool :=
  match s with
  | EmptyString => true
  | String a r => p a && all_chars p r
  end.

(** The characters of a decimal rendering. *)
Definition plain (c : ascii) : bool := is_digit c || Ascii.eqb c "-".

(** Numeric-looking text: an optional sign and at least one digit, after
    optional white space. *)
Definition numeric_looking (s : string) : bool :=
  match skip_space s with
  | String a r =>
      if Ascii.eqb a "-" || Ascii.eqb a "+" then starts_with_digit r
      else is_digit a
  | EmptyString => false
  end.

Definition is_integer (v : value) : bool :=
  match v with
  | VNum (NInt _) => true
  | _ => false
  end.

End JS.

(* ===================================================================== *)
(** * A reference parser for JSON texts *)
(* ===================================================================== *)

Module Json.
Import JS.

Definition is_ws (c : ascii) : bool :=
  let n := nat_of_ascii c in
  (n =? 32) || (n =? 9) || (n =? 10) || (n =? 13).

Fixpoint skip_ws (s : string) : string :=
  match s with
  | String a r => if is_ws a then skip_ws r else s
  | EmptyString => EmptyString
  end.

Definition hex_val (c : ascii) : option nat :=
  let n := nat_of_ascii c in
  if (48 <=? n) && (n <=? 57) then Some (n - 48)
  else if (65 <=? n) && (n <=? 70) then Some (n - 55)
  else if (97 <=? n) && (n <=? 102) then Some (n - 87)
  else None.

(** The code unit of [\uXXXX]; code units above [00FF] have no 8-bit
    counterpart and are refused. *)
Definition unicode_escape (a b c d : ascii) : option ascii :=
  match hex_val a, hex_val b, hex_val c, hex_val d with
  | Some 0, Some 0, Some x, Some y => Some (ascii_of_nat (16 * x + y))
  | _, _, _, _ => None
  end.

Definition simple_escape (c : ascii) : option ascii :=
  if Ascii.eqb c dquote then Some dquote
  else if Ascii.eqb c backslash then Some backslash
  else if Ascii.eqb c "/" then Some "/"%char
  else if Ascii.eqb c "b" then Some (ascii_of_nat 8)
  else if Ascii.eqb c "f" then Some (ascii_of_nat 12)
  else if Ascii.eqb c "n" then Some (ascii_of_nat 10)
  else if Ascii.eqb c "r" then Some (ascii_of_nat 13)
  else if Ascii.eqb c "t" then Some (ascii_of_nat 9)
  else None.

(** The characters of a string literal, after its opening quote: the
    decoded string and the text after the closing quote. *)
Fixpoint parse_chars (s : string) : option (string * string) :=
  match s with
  | EmptyString => None
  | String c r =>
      if Ascii.eqb c dquote then Some (EmptyString, r)
      else if Ascii.eqb c backslash then
        match r with
        | String e r1 =>
            if Ascii.eqb e "u" then
              match r1 with
              | String h1 (String h2 (String h3 (String h4 r2))) =>
                  match unicode_escape h1 h2 h3 h4, parse_chars r2 with
                  | Some u, Some (t, rest) => Some (String u t, rest)
                  | _, _ => None
                  end
              | _ => None
              end
            else
              match simple_escape e, parse_chars r1 with
              | Some u, Some (t, rest) => Some (String u t, rest)
              | _, _ => None
              end
        | EmptyString => None
        end
      else if nat_of_ascii c <? 32 then None
      else match parse_chars r with
           | Some (t, rest) => Some (String c t, rest)
           | None => None
           end
  end.

(** A run of decimal digits: its value, its length and the text after. *)
Fixpoint take_digits (acc : Z) (n : nat) (s : string) : Z * nat * string :=
  match s with
  | String a r =>
      if is_digit a then take_digits (10 * acc + digit_val a)%Z (S n) r
      else (acc, n, s)
  | EmptyString => (acc, n, s)
  end.

(** [m * 10^(-e)] in lowest decimal terms. *)
Fixpoint reduce_decimal (e : nat) (m : Z) : number :=
  match e with
  | 0 => NInt m
  | S e' =>
      if (m mod 10 =? 0)%Z then reduce_decimal e' (m / 10)%Z
      else NDec m (Pos.of_nat e)
  end.

Definition make_number (neg : bool) (m : Z) (exp10 : Z) : number :=
  let m := if neg then (- m)%Z else m in
  if (0 <=? exp10)%Z then NInt (m * 10 ^ exp10)%Z
  else reduce_decimal (Z.to_nat (- exp10)) m.

(** The exponent part [e|E [+|-] digits], when present. *)
Definition parse_exponent (s : string) : option (Z * string) :=
  match s with
  | String c r =>
      if Ascii.eqb c "e" || Ascii.eqb c "E" then
        let '(neg, r1) :=
          match r with
          | String sg r' =>
              if Ascii.eqb sg "-" then (true, r')
              else if Ascii.eqb sg "+" then (false, r')
              else (false, r)
          | EmptyString => (false, r)
          end in
        match take_digits 0 0 r1 with
        | (_, 0, _) => None
        | (v, _, rest) => Some (if neg then (- v)%Z else v, rest)
        end
      else Some (0%Z, s)
  | EmptyString => Some (0%Z, s)
  end.

(** The fraction part [. digits], when present: the digits read as an
    integer, their count and the text after. *)
Definition parse_fraction (ip : Z) (s : string) : option (Z * nat * string) :=
  match s with
  | String c r =>
      if Ascii.eqb c "." then
        match take_digits ip 0 r with
        | (_, 0, _) => None
        | res => Some res
        end
      else Some (ip, 0, s)
  | EmptyString => Some (ip, 0, s)
  end.

Definition parse_number (s : string) : option (number * string) :=
  let '(neg, s1) :=
    match s with
    | String c r => if Ascii.eqb c "-" then (true, r) else (false, s)
    | EmptyString => (false, s)
    end in
  match s1 with
  | String d r =>
      if is_digit d then
        let '(ip, _, s2) :=
          if Ascii.eqb d "0" then (0%Z, 1, r) else take_digits 0 0 s1 in
        match parse_fraction ip s2 with
        | Some (m, nfrac, s3) =>
            match parse_exponent s3 with
            | Some (ex, s4) =>
                Some (make_number neg m (ex - Z.of_nat nfrac), s4)
            | None => None
            end
        | None => None
        end
      else None
  | EmptyString => None
  end.

Definition expect (lit : string) (v : value) (s : string)
  : option (value * string) :=
  if String.prefix lit s
  then Some (v, String.substring (String.length lit)
                                 (String.length s - String.length lit) s)
  else None.

Inductive mode := AValue | AnElement | AMember.

(** Recursive descent.  In mode [AnElement] the text stands after [[] or
    after a comma of an array whose earlier items are [items]; in mode
    [AMember], likewise for an object whose earlier members are [ps]. *)
Fixpoint parse (fuel : nat) (m : mode) (items : list value) (ps : props)
               (s : string) : option (value * string) :=
  match fuel with
  | 0 => None
  | S f =>
    match m with
    | AValue =>
        match skip_ws s with
        | EmptyString => None
        | String c r =>
            if Ascii.eqb c "{" then
              match skip_ws r with
              | String c' r' =>
                  if Ascii.eqb c' "}" then Some (VObj [], r')
                  else parse f AMember [] [] r
              | EmptyString => None
              end
            else if Ascii.eqb c "[" then
              match skip_ws r with
              | String c' r' =>
                  if Ascii.eqb c' "]" then Some (VArr [] [], r')
                  else parse f AnElement [] [] r
              | EmptyString => None
              end
            else if Ascii.eqb c dquote then
              match parse_chars r with
              | Some (str, rest) => Some (VStr str, rest)
              | None => None
              end
            else if Ascii.eqb c "t" then expect "true" (VBool true) (String c r)
            else if Ascii.eqb c "f" then expect "false" (VBool false) (String c r)
            else if Ascii.eqb c "n" then expect "null" VNull (String c r)
            else
              match parse_number (String c r) with
              | Some (n, rest) => Some (VNum n, rest)
              | None => None
              end
        end
    | AnElement =>
        match parse f AValue [] [] s with
        | Some (v, r) =>
            match skip_ws r with
            | String c r' =>
                if Ascii.eqb c "," then parse f AnElement (items ++ [v]) [] r'
                else if Ascii.eqb c "]" then Some (VArr (items ++ [v]) [], r')
                else None
            | EmptyString => None
            end
        | None => None
        end
    | AMember =>
        match skip_ws s with
        | String q r =>
            if Ascii.eqb q dquote then
              match parse_chars r with
              | Some (k, r1) =>
                  match skip_ws r1 with
                  | String c r2 =>
                      if Ascii.eqb c ":" then
                        match parse f AValue [] [] r2 with
                        | Some (v, r3) =>
                            match skip_ws r3 with
                            | String c' r4 =>
                                if Ascii.eqb c' "," then
                                  parse f AMember [] (set_prop k v ps) r4
                                else if Ascii.eqb c' "}" then
                                  Some (VObj (set_prop k v ps), r4)
                                else None
                            | EmptyString => None
                            end
                        | None => None
                        end
                      else None
                  | EmptyString => None
                  end
              | None => None
              end
            else None
        | EmptyString => None
        end
    end
  end.

(** [JSON.parse(text)]: one value between optional white space; [None] is
    the [SyntaxError]. *)
Definition JSON_parse (text : string) : option value :=
  match parse (2 * String.length text + 4) AValue [] [] text with
  | Some (v, rest) =>
      match skip_ws rest with
      | EmptyString => Some v
      | String _ _ => None
      end
  | None => None
  end.

End Json.

(* ===================================================================== *)
(** * ai-services.js *)
(* ===================================================================== *)

Module AiServices.
Import JS.

(** ** Events and exceptions *)

Inductive level := LDebug | LInfo | LWarn | LError.

(** What is known of a thrown object: the members the handlers probe.
    The message of an [Error] is a string; the object thrown for a status
    that is not a success carries as its message whatever JSON value the
    body gave as [error]; [VUndefined] stands for a message that is
    absent. *)
Record error := mkError {
  code : option string;
  etype : option string;      (* the member [type] *)
  status : option Z;
  message : value
}.

(** What a call of [callClaude] throws: [new Error(userMessage)], or the
    [TypeError] raised when its handler calls [toLowerCase] on a message
    that is neither a string nor absent. *)
Inductive call_error :=
| UserError (userMessage : string)
| MessageTypeError.

(** The exceptions raised inside [parseSubtasksFromText]. *)
Inductive parse_exn :=
| NoJsonArray      (* Error("Could not locate valid JSON array in the response") *)
| NotAnArray       (* Error("Parsed content is not an array") *)
| SyntaxError      (* raised by JSON.parse *)
| TypeError.       (* member access on null, assignment to a primitive,
                      conversion to a string of an object that has none *)

Inductive msg :=
| Text (s : string)
| ExpectedButParsed (expected : Z) (parsed : nat)
| CorrectingId (old : value) (new : Z)
| ErrorParsingSubtasks (e : parse_exn)
| FailedToParseResponse
| JsonIndices (jsonStart jsonEnd : Z)
| ExtractedJson (first500 : string)
| FailedToParseExtracted
| WaitingBeforeRetry (seconds : Z) (attempt : nat).

Inductive event :=
| Log (l : level) (m : msg)
| ConsoleError (text : string)
| Sleep (ms : Z).                (* await of setTimeout(resolve, ms) *)

Inductive result (E A : Type) :=
| Ok (a : A)
| Throw (e : E).
Arguments Ok {E A} a.
Arguments Throw {E A} e.

(** Computations that log and may throw: the events emitted so far are
    kept when an exception is raised. *)
Definition M (E A : Type) : Type := list event * result E A.

Definition ret {E A} (a : A) : M E A := ([], Ok a).
Definition throw {E A} (e : E) : M E A := ([], Throw e).
Definition emit {E} (ev : event) : M E unit := ([ev], Ok tt).

Definition bind {E A B} (c : M E A) (k : A -> M E B) : M E B :=
  match c with
  | (evs, Ok a) => let '(evs', r) := k a in ((evs ++ evs')%list, r)
  | (evs, Throw e) => (evs, Throw e)
  end.

(** [try c catch (e) { h e }]. *)
Definition try_catch {E E' A} (c : M E A) (h : E -> M E' A) : M E' A :=
  match c with
  | (evs, Ok a) => (evs, Ok a)
  | (evs, Throw e) => let '(evs', r) := h e in ((evs ++ evs')%list, r)
  end.

(** [c] run after the events [evs] have been emitted. *)
Definition after {E A} (evs : list event) (c : M E A) : M E A :=
  ((evs ++ fst c)%list, snd c).

Definition lift {E A} (e : E) (o : option A) : M E A :=
  match o with
  | Some a => ret a
  | None => throw e
  end.

Notation "x <- c ;; k" := (bind c (fun x => k))
  (at level 61, c at next level, right associativity).
Notation "c ;;; k" := (bind c (fun _ => k))
  (at level 61, right associativity).

Definition events {E A} (c : M E A) : list event := fst c.
Definition outcome {E A} (c : M E A) : result E A := snd c.

(** ** The normalizer: [processOllamaResponse]

    None of the three replacements can throw, so the handler of the
    enclosing [try] is never entered. *)

(** Step 1: every backslash followed by a single quote is replaced by the
    single quote alone (global replace of the two-character pattern). *)
Fixpoint unescape_single_quotes (s : string) : string :=
  match s with
  | EmptyString => EmptyString
  | String c r =>
      match r with
      | String c' r' =>
          if Ascii.eqb c backslash && Ascii.eqb c' squote
          then String squote (unescape_single_quotes r')
          else String c (unescape_single_quotes r)
      | EmptyString => String c EmptyString
      end
  end.

(** The lookahead of step 2: there is a next character and it is neither
    a double quote nor one of [n t b f r /]. *)
Definition not_escape_char_ahead (r : string) : bool :=
  match r with
  | String c _ =>
      negb (Ascii.eqb c dquote || mem_char c "ntbfr/")
  | EmptyString => false
  end.

(** Step 2: every backslash that the lookahead accepts is replaced by two
    backslashes; the lookahead consumes nothing. *)
Fixpoint escape_backslashes (s : string) : string :=
  match s with
  | EmptyString => EmptyString
  | String c r =>
      if Ascii.eqb c backslash && not_escape_char_ahead r
      then String backslash (String backslash (escape_backslashes r))
      else String c (escape_backslashes r)
  end.

(** Step 3: every backslash followed by a double quote and not preceded
    by a backslash is replaced by a backslash and a double quote; [prev] is
    the character before the current position in the text scanned. *)
Fixpoint fix_quote_escaping (prev : option ascii) (s : string) : string :=
  match s with
  | EmptyString => EmptyString
  | String c r =>
      match r with
      | String c' r' =>
          if Ascii.eqb c backslash && Ascii.eqb c' dquote
             && negb (match prev with
                      | Some p => Ascii.eqb p backslash
                      | None => false
                      end)
          then String backslash (String dquote (fix_quote_escaping (Some c') r'))
          else String c (fix_quote_escaping (Some c) r)
      | EmptyString => String c EmptyString
      end
  end.

Definition processOllamaResponse (text : string) : string :=
  let text := unescape_single_quotes text in
  let text := escape_backslashes text in
  let text := fix_quote_escaping None text in
  text.

(** Texts that the normalizer has nothing to repair in: every backslash
    either ends the text or stands before a double quote or one of
    [n t b f r /]. *)
Fixpoint escapes_recognized (s : string) : bool :=
  match s with
  | EmptyString => true
  | String c r =>
      negb (Ascii.eqb c backslash && not_escape_char_ahead r)
      && escapes_recognized r
  end.

(** The sleeps of a run, in order, and the number of requests issued. *)
Definition sleeps (evs : list event) : list Z :=
  flat_map (fun ev => match ev with Sleep ms => [ms] | _ => [] end) evs.

Definition is_request (ev : event) : bool :=
  match ev with
  | Log LInfo (Text t) => String.eqb t "Calling Ollama..."
  | _ => false
  end.

Definition attempts (evs : list event) : nat :=
  List.length (filter is_request evs).

Section Services.

(** The built-in [JSON.parse]; [None] is a [SyntaxError]. *)
Variable JSON_parse : string -> option value.

(** String conversion of a value that is not a string, as [+=] on a string
    performs it. *)
Variable ToString : value -> string.

(** [process.env] and the clock. *)
Variable OLLAMA_API_URL : string.
Variable OLLAMA_MODEL : string.
Variable PROJECT_NAME : option string.
Variable today : string.         (* new Date().toISOString().split('T')[0] *)

(** ** [handleOllamaError] *)

(** [error.message?.toLowerCase().includes(word)]: the chain stops at a
    message that is [null] or [undefined]; on any other value that is not
    a string, [toLowerCase] is not a function and the call raises a
    [TypeError] ([None]). *)
Definition message_includes (e : error) (word : string) : option bool :=
  match message e with
  | VStr m => Some (includes (toLowerCase m) word)
  | VUndefined | VNull => Some false
  | _ => None
  end.

Definition code_is (e : error) (c : string) : bool :=
  match code e with
  | Some c' => String.eqb c' c
  | None => false
  end.

Definition type_is (e : error) (t : string) : bool :=
  match etype e with
  | Some t' => String.eqb t' t
  | None => false
  end.

(** [error.message || 'Unknown error'], interpolated.  It is evaluated
    only after the probe for [timeout] has gone through, so the message is
    a string or is absent. *)
Definition message_or_unknown (e : error) : string :=
  match message e with
  | VStr m => if String.eqb m EmptyString then "Unknown error" else m
  | _ => "Unknown error"
  end.

(** The last two statements of the function: the probe for [network] and
    the default message. *)
Definition network_or_default (e : error) : option string :=
  match message_includes e "network" with
  | None => None
  | Some true =>
      Some "There was a network error connecting to Ollama. Please check your internet connection and try again."
  | Some false =>
      Some ("Error communicating with Ollama: " ++ message_or_unknown e)
  end.

(** [None] is the [TypeError] of a probe of the message.  The tests are
    made in the order of the source: the codes, then the type and, only
    when the type is another, the message; then the status, which counts
    when it is not zero. *)
Definition handleOllamaError (e : error) : option string :=
  if code_is e "ECONNREFUSED" || code_is e "ENOTFOUND" then
    Some ("Could not connect to Ollama server at " ++ OLLAMA_API_URL
          ++ ". Make sure Ollama is running.")
  else
    match (if type_is e "request-timeout" then Some true
           else message_includes e "timeout") with
    | None => None
    | Some true =>
        Some "The request to Ollama timed out. Your prompt might be too complex or the server is busy."
    | Some false =>
        match status e with
        | Some st =>
            if (st =? 0)%Z then network_or_default e
            else if (st =? 404)%Z then
              Some ("Model " ++ String dquote OLLAMA_MODEL ++ String dquote
                      (" not found. You may need to run: ollama pull "
                       ++ OLLAMA_MODEL))
            else if (st =? 400)%Z then
              Some "Bad request to Ollama API. The prompt might be malformed."
            else if (st =? 500)%Z then
              Some "Ollama server error. Check the Ollama logs for more details."
            else
              Some ("Ollama API error (" ++ string_of_Z st ++ "): "
                    ++ message_or_unknown e)
        | None => network_or_default e
        end
    end.

(** ** The stream assembler (in [handleStreamingRequest]) *)

(** The body of the loop over lines:
    [try { data = JSON.parse(line);
           if (data.message && data.message.content)
             responseText += data.message.content } catch (e) {}].
    A content that cannot be converted to a string raises in the
    assignment, which the handler swallows like a line that is no JSON. *)
Definition append_line_content (responseText line : string) : string :=
  match JSON_parse line with
  | None => responseText
  | Some data =>
      match get data "message" with
      | None => responseText
      | Some m =>
          if truthy m then
            match get m "content" with
            | None => responseText
            | Some c =>
                if truthy c && interpolable c then
                  responseText ++ match c with
                                  | VStr s => s
                                  | other => ToString other
                                  end
                else responseText
            end
          else responseText
      end
  end.

(** [text.split('\n').filter(line => line.trim())]. *)
Definition nonblank_lines (text : string) : list string :=
  filter trim_truthy (split newline text).

Definition append_lines (responseText : string) (lines : list string) : string :=
  fold_left append_line_content lines responseText.

(** A body without [getReader]: the chunks are concatenated, then split. *)
Definition assemble_buffered (responseString : string) : string :=
  append_lines EmptyString (nonblank_lines responseString).

(** A body with [getReader]: every chunk read is split on its own, and
    nothing of a chunk is kept for the next read.  Splitting and filtering
    cannot throw, so the handler that would append the raw chunk is never
    entered. *)
Definition assemble_streamed (chunks : list string) : string :=
  fold_left (fun responseText chunk =>
               append_lines responseText (nonblank_lines chunk))
            chunks EmptyString.

(** What a line contributes according to the interface: the text of
    [message.content] when the line is a JSON value that carries one, and
    nothing when the line is blank or is not a JSON text. *)
Definition content_of_line (line : string) : string :=
  if trim_truthy line then
    match JSON_parse line with
    | Some data =>
        match get data "message" with
        | Some m =>
            match get m "content" with
            | Some (VStr s) => s
            | _ => EmptyString
            end
        | None => EmptyString
        end
    | None => EmptyString
    end
  else EmptyString.

(** The content of the line, when it has one, is a string, as the
    interface has it, or one of the values that count as none ([null],
    [false], zero). *)
Definition text_content (line : string) : bool :=
  match JSON_parse line with
  | Some data =>
      match get data "message" with
      | Some m =>
          match get m "content" with
          | Some (VStr _) | None => true
          | Some c => negb (truthy c)
          end
      | None => true
      end
  | None => true
  end.

(** [Buffer.concat(chunks).toString('utf-8')]. *)
Definition concat_chunks (chunks : list string) : string :=
  fold_right String.append EmptyString chunks.

(** A fragment made of whole lines: it is empty or ends with a newline. *)
Fixpoint complete_lines (chunk : string) : bool :=
  match chunk with
  | EmptyString => true
  | String c EmptyString => Ascii.eqb c newline
  | String _ r => complete_lines r
  end.

(** Every fragment boundary falls on a line boundary: each fragment but
    the last is made of whole lines. *)
Definition line_aligned (chunks : list string) : bool :=
  forallb complete_lines (removelast chunks).

(** ** The fallback ladder (in [handleStreamingRequest]) *)

(** [Array.from({ length: n }, (_, i) => f i)]. *)
Definition Array_from (n : Z) (f : nat -> value) : value :=
  VArr (map f (seq 0 (Z.to_nat n))) [].

Definition int (z : Z) : value := VNum (NInt z).

Definition fallback_task (i : nat) : value :=
  let n := (Z.of_nat i + 1)%Z in
  VObj [ ("id", int n);
         ("title", VStr ("Task " ++ string_of_Z n));
         ("description", VStr ("Auto-generated fallback task " ++ string_of_Z n));
         ("status", VStr "pending");
         ("dependencies", VArr [] []);
         ("priority", VStr "medium");
         ("details", VStr "This task was auto-generated due to parsing issues with the AI response.");
         ("testStrategy", VStr "Manual verification") ].

Definition project_name : string :=
  match PROJECT_NAME with
  | Some n => if String.eqb n EmptyString then "Task Master Project" else n
  | None => "Task Master Project"
  end.

Definition fallback_tasks (numTasks : Z) (prdPath : string) : value :=
  VObj [ ("tasks", Array_from numTasks fallback_task);
         ("metadata",
          VObj [ ("projectName", VStr project_name);
                 ("totalTasks", int numTasks);
                 ("sourceFile", VStr prdPath);
                 ("generatedAt", VStr today);
                 ("note", VStr "Tasks were generated as fallbacks due to AI response parsing issues.") ]) ].

(** A placeholder task at position [i] (counted from 0). *)
Definition is_placeholder_task (i : nat) (v : value) : Prop :=
  let n := (Z.of_nat i + 1)%Z in
  get v "id" = Some (int n)
  /\ get v "title" = Some (VStr ("Task " ++ string_of_Z n))
  /\ get v "description"
     = Some (VStr ("Auto-generated fallback task " ++ string_of_Z n))
  /\ get v "status" = Some (VStr "pending")
  /\ get v "dependencies" = Some (VArr [] [])
  /\ get v "priority" = Some (VStr "medium")
  /\ get v "details"
     = Some (VStr "This task was auto-generated due to parsing issues with the AI response.").

(** The ladder fails at steps 1 and 2 on [text]: it is not a JSON text,
    and either no brace-delimited slice is found or the slice is not a
    JSON text. *)
Definition document_unparsable (text : string) : Prop :=
  JSON_parse text = None
  /\ ((0 <=? indexOf text "{")%Z && (0 <=? lastIndexOf text "}")%Z
      && (indexOf text "{" <? lastIndexOf text "}")%Z = false
      \/ JSON_parse (substring text (indexOf text "{")
                                (lastIndexOf text "}" + 1)) = None).

(** Lines 381-452.  No statement of the inner block raises outside its own
    [try], so the handler of the enclosing [try] (lines 453-477) is never
    entered. *)
Definition parse_response {E} (processedText : string) (numTasks : Z)
                          (prdPath : string) : M E value :=
  match JSON_parse processedText with
  | Some jsonResponse => ret jsonResponse
  | None =>
      emit (Log LDebug FailedToParseResponse) ;;;
      let jsonStart := indexOf processedText "{" in
      let jsonEnd := lastIndexOf processedText "}" in
      emit (Log LDebug (JsonIndices jsonStart jsonEnd)) ;;;
      if (0 <=? jsonStart)%Z && (0 <=? jsonEnd)%Z && (jsonStart <? jsonEnd)%Z then
        let jsonText := substring processedText jsonStart (jsonEnd + 1) in
        emit (Log LDebug (ExtractedJson (substring jsonText 0 500))) ;;;
        match JSON_parse jsonText with
        | Some extractedJson => ret extractedJson
        | None =>
            emit (Log LDebug FailedToParseExtracted) ;;;
            emit (Log LWarn (Text "Creating fallback tasks structure")) ;;;
            ret (fallback_tasks numTasks prdPath)
        end
      else
        emit (Log LWarn (Text "Creating fallback tasks structure due to missing JSON markers")) ;;;
        ret (fallback_tasks numTasks prdPath)
  end.

(** ** [handleStreamingRequest] *)

(** What one [fetch] of [/api/chat] turns out to be.  For a status that
    is not a success the body is read as JSON, [{}] standing in for a body
    that is none: [member] is the value of [error.error] then, any JSON
    value, [VUndefined] when there is no such member; a body that is the
    JSON text [null] makes that access raise instead. *)
Inductive fetch_outcome :=
| FetchRejects (e : error)                       (* fetch itself throws *)
| NotOk (status : Z) (member : value)            (* !response.ok *)
| NullBody (e : error)                           (* !response.ok, body null:
                                                    [e] is the TypeError *)
| Buffered (body : string)                       (* body without getReader *)
| Streamed (chunks : list string)                (* body with getReader *)
| BodyFails (e : error).                         (* the body stream errors *)

(** [{ status: response.status,
       message: error.error || `HTTP error ${response.status}` }]. *)
Definition http_error (st : Z) (member : value) : error :=
  {| code := None;
     etype := None;
     status := Some st;
     message := if truthy member then member
                else VStr ("HTTP error " ++ string_of_Z st) |}.

Definition handleStreamingRequest (numTasks : Z) (prdPath : string)
                                  (response : fetch_outcome) : M error value :=
  responseText <-
    match response with
    | FetchRejects e => throw e
    | NotOk st member => throw (http_error st member)
    | NullBody e => throw e
    | Buffered body => ret (assemble_buffered body)
    | Streamed chunks => ret (assemble_streamed chunks)
    | BodyFails e => throw e
    end ;;
  emit (Log LInfo (Text "Response received, processing...")) ;;;
  let processedText := processOllamaResponse responseText in
  parse_response processedText numTasks prdPath.

(** ** [callClaude] *)

(** The condition under which the handler retries, apart from the
    count: the tests are made from left to right and stop at the first
    that holds; [None] is the [TypeError] of a probe of the message. *)
Definition retryable (e : error) : option bool :=
  if code_is e "ECONNREFUSED" || code_is e "ENOTFOUND" then Some true
  else
    match message_includes e "timeout" with
    | None => None
    | Some true => Some true
    | Some false => message_includes e "network"
    end.

(** The signatures of a transient failure that the condition recognizes:
    one of the two codes, or a message that is a string and holds one of
    the two words. *)
Definition transient_signature (e : error) : Prop :=
  code e = Some "ECONNREFUSED" \/ code e = Some "ENOTFOUND"
  \/ exists m, message e = VStr m
               /\ (includes (toLowerCase m) "timeout" = true
                   \/ includes (toLowerCase m) "network" = true).

(** What the handler does once the user message is logged. *)
Inductive handling :=
| Retry
| GiveUp
| Raise.                         (* a probe of the message raises *)

(** [retryCount < 2 && (...)]: the condition is not evaluated once two
    retries are spent. *)
Definition decide_retry (retryCount : nat) (e : error) : handling :=
  if retryCount <? 2 then
    match retryable e with
    | Some true => Retry
    | Some false => GiveUp
    | None => Raise
    end
  else GiveUp.

(** [net] lists what the successive requests meet, the next one first.
    The [try] block logs and awaits [handleStreamingRequest]; the handler
    computes the user message, logs it and either sleeps and calls itself
    again or prints the message and throws [new Error(userMessage)].  A
    [TypeError] raised by [handleOllamaError] or by the condition leaves
    the handler at once. *)
Function callClaude (numTasks : Z) (prdPath : string)
                    (net : nat -> fetch_outcome) (retryCount : nat)
                    {measure (fun r => 2 - r) retryCount}
  : M call_error value :=
  match after [Log LInfo (Text "Calling Ollama...")]
              (handleStreamingRequest numTasks prdPath (net 0)) with
  | (evs, Ok response) => (evs, Ok response)
  | (evs, Throw error) =>
      match handleOllamaError error with
      | None => (evs, Throw MessageTypeError)
      | Some userMessage =>
          match decide_retry retryCount error with
          | Retry =>
              after (evs ++ [ Log LError (Text userMessage);
                              Log LInfo (WaitingBeforeRetry
                                           ((Z.of_nat retryCount + 1) * 5000 / 1000)
                                           (retryCount + 1));
                              Sleep ((Z.of_nat retryCount + 1) * 5000) ])
                    (callClaude numTasks prdPath (fun n => net (S n))
                                (retryCount + 1))
          | GiveUp =>
              ((evs ++ [ Log LError (Text userMessage);
                         ConsoleError userMessage ])%list,
               Throw (UserError userMessage))
          | Raise =>
              ((evs ++ [Log LError (Text userMessage)])%list,
               Throw MessageTypeError)
          end
      end
  end.
Proof.
  intros.
  match goal with
  | H : decide_retry _ _ = Retry |- _ =>
      unfold decide_retry in H;
      destruct (retryCount <? 2) eqn:Hlt; [|discriminate H]
  end.
  apply Nat.ltb_lt in Hlt. lia.
Defined.

(** ** [parseSubtasksFromText] *)

Definition array_items (v : value) : list value :=
  match v with
  | VArr items _ => items
  | _ => []
  end.

(** [typeof dep === 'string' ? parseInt(dep, 10) : dep]. *)
Definition coerce_dependency (dep : value) : value :=
  match dep with
  | VStr s => VNum (parseInt10 s)
  | other => other
  end.

(** The callback of [subtasks.map]: it updates the record in place and
    returns it.  The message of the correction is built with
    [`${subtask.id}`] before it is logged, which raises when the id has no
    conversion to a string. *)
Definition normalize_subtask (startId : Z) (parentTaskId : value)
                             (index : nat) (subtask : value)
  : M parse_exn value :=
  let expected := (startId + Z.of_nat index)%Z in
  id <- lift TypeError (get subtask "id") ;;
  subtask <- (if strict_neq_int id expected then
                (if interpolable id then ret tt else throw TypeError) ;;;
                emit (Log LWarn (CorrectingId id expected)) ;;;
                lift TypeError (set subtask "id" (int expected))
              else ret subtask) ;;
  deps <- lift TypeError (get subtask "dependencies") ;;
  subtask <- lift TypeError
               (set subtask "dependencies"
                    (if truthy deps && isArray deps
                     then VArr (map coerce_dependency (array_items deps)) []
                     else VArr [] [])) ;;
  subtask <- lift TypeError (set subtask "status" (VStr "pending")) ;;
  subtask <- lift TypeError (set subtask "parentTaskId" parentTaskId) ;;
  ret subtask.

(** [subtasks.map((subtask, index) => ...)], from position [index] on. *)
Fixpoint map_subtasks (startId : Z) (parentTaskId : value) (index : nat)
                      (subtasks : list value) : M parse_exn (list value) :=
  match subtasks with
  | [] => ret []
  | subtask :: rest =>
      s <- normalize_subtask startId parentTaskId index subtask ;;
      ss <- map_subtasks startId parentTaskId (S index) rest ;;
      ret (s :: ss)
  end.

(** The [try] block (lines 873-921). *)
Definition parse_subtasks (text : string) (startId expectedCount : Z)
                          (parentTaskId : value) : M parse_exn (list value) :=
  let jsonStartIndex := indexOf text "[" in
  let jsonEndIndex := lastIndexOf text "]" in
  if (jsonStartIndex =? -1)%Z || (jsonEndIndex =? -1)%Z
     || (jsonEndIndex <? jsonStartIndex)%Z
  then throw NoJsonArray
  else
    let jsonText := substring text jsonStartIndex (jsonEndIndex + 1) in
    subtasks <- lift SyntaxError (JSON_parse jsonText) ;;
    if isArray subtasks then
      (if negb (Z.of_nat (List.length (array_items subtasks)) =? expectedCount)%Z
       then emit (Log LWarn (ExpectedButParsed expectedCount
                               (List.length (array_items subtasks))))
       else ret tt) ;;;
      map_subtasks startId parentTaskId 0 (array_items subtasks)
    else throw NotAnArray.

Definition fallback_subtask (startId : Z) (parentTaskId : value) (i : Z)
  : value :=
  VObj [ ("id", int (startId + i));
         ("title", VStr ("Subtask " ++ string_of_Z (startId + i)));
         ("description", VStr "Auto-generated fallback subtask");
         ("dependencies", VArr [] []);
         ("details", VStr "This is a fallback subtask created because parsing failed. Please update with real details.");
         ("status", VStr "pending");
         ("parentTaskId", parentTaskId) ].

(** [for (let i = 0; i < expectedCount; i++) fallbackSubtasks.push(...)],
    with [remaining] iterations still to run. *)
Fixpoint fallback_loop (startId : Z) (parentTaskId : value)
                       (remaining : nat) (i : Z)
                       (fallbackSubtasks : list value) : list value :=
  match remaining with
  | 0 => fallbackSubtasks
  | S k =>
      fallback_loop startId parentTaskId k (i + 1)%Z
        (fallbackSubtasks ++ [fallback_subtask startId parentTaskId i])
  end.

(** A placeholder subtask at position [i] (counted from 0). *)
Definition is_placeholder_subtask (startId : Z) (parentTaskId : value)
                                  (i : nat) (v : value) : Prop :=
  let n := (startId + Z.of_nat i)%Z in
  get v "id" = Some (int n)
  /\ get v "title" = Some (VStr ("Subtask " ++ string_of_Z n))
  /\ get v "description" = Some (VStr "Auto-generated fallback subtask")
  /\ get v "status" = Some (VStr "pending")
  /\ get v "dependencies" = Some (VArr [] [])
  /\ get v "parentTaskId" = Some parentTaskId
  /\ get v "details"
     = Some (VStr "This is a fallback subtask created because parsing failed. Please update with real details.").

(** No bracket-delimited slice of [text] is a JSON text. *)
Definition subtasks_unparsable (text : string) : Prop :=
  (indexOf text "[" =? -1)%Z || (lastIndexOf text "]" =? -1)%Z
  || (lastIndexOf text "]" <? indexOf text "[")%Z = true
  \/ JSON_parse (substring text (indexOf text "[")
                           (lastIndexOf text "]" + 1)) = None.

(** The bracket-delimited slice of [text] parses to the array [items]. *)
Definition subtasks_parsed (text : string) (items : list value) : Prop :=
  (indexOf text "[" =? -1)%Z || (lastIndexOf text "]" =? -1)%Z
  || (lastIndexOf text "]" <? indexOf text "[")%Z = false
  /\ exists ps,
       JSON_parse (substring text (indexOf text "[")
                             (lastIndexOf text "]" + 1))
       = Some (VArr items ps).

(** Records: the values that can take properties. *)
Definition is_record (v : value) : bool :=
  match v with
  | VObj _ | VArr _ _ => true
  | _ => false
  end.

(** What the normalizer leaves as the dependencies of a record. *)
Definition normalized_dependencies (v : value) : value :=
  match get v "dependencies" with
  | Some (VArr items _) => VArr (map coerce_dependency items) []
  | _ => VArr [] []
  end.

Definition id_of (v : value) : value :=
  match get v "id" with
  | Some x => x
  | None => VUndefined
  end.

(** Every record has an id that converts to a string, so that the
    message of a correction can be built. *)
Definition printable_ids (items : list value) : bool :=
  forallb (fun v => interpolable (id_of v)) items.

(** The warning logged when the count differs from the requested one. *)
Definition count_warning (expectedCount : Z) (items : list value)
  : list event :=
  if negb (Z.of_nat (List.length items) =? expectedCount)%Z
  then [Log LWarn (ExpectedButParsed expectedCount (List.length items))]
  else [].

(** The corrections logged for the records from position [index] on: one
    for every record whose [id] is not the one its position calls for. *)
Fixpoint corrections (startId : Z) (index : nat) (items : list value)
  : list event :=
  match items with
  | [] => []
  | v :: rest =>
      (if strict_neq_int (id_of v) (startId + Z.of_nat index)
       then [Log LWarn (CorrectingId (id_of v) (startId + Z.of_nat index))]
       else [])
      ++ corrections startId (S index) rest
  end.

(** The names the normalizer assigns. *)
Definition stamped (k : string) : bool :=
  String.eqb k "id" || String.eqb k "dependencies"
  || String.eqb k "status" || String.eqb k "parentTaskId".

(** [r] is the record [v] found at position [i], normalized. *)
Definition normalizes (startId : Z) (parentTaskId : value) (i : nat)
                      (v r : value) : Prop :=
  get r "id" = Some (int (startId + Z.of_nat i))
  /\ get r "status" = Some (VStr "pending")
  /\ get r "parentTaskId" = Some parentTaskId
  /\ get r "dependencies" = Some (normalized_dependencies v)
  /\ (forall k, stamped k = false -> get r k = get v k).

Definition parseSubtasksFromText {E} (text : string)
                                 (startId expectedCount : Z)
                                 (parentTaskId : value) : M E (list value) :=
  try_catch
    (parse_subtasks text startId expectedCount parentTaskId)
    (fun error =>
       emit (Log LError (ErrorParsingSubtasks error)) ;;;
       emit (Log LWarn (Text "Creating fallback subtasks")) ;;;
       ret (fallback_loop startId parentTaskId
                          (Z.to_nat expectedCount) 0 [])).

End Services.

(** ** [getPerplexityClient] *)

(** An [OpenAI] client object; [oid] tells the objects apart. *)
Record client := mkClient {
  apiKey : string;
  baseURL : string;
  oid : nat
}.

(** The module-level variable [perplexity] and the number of clients
    constructed so far. *)
Record module_state := mkState {
  perplexity : option client;
  constructed : nat
}.

(** The configuration holds a key: it is set and not empty. *)
Definition key_present (key : option string) : bool :=
  match key with
  | Some k => negb (String.eqb k EmptyString)
  | None => false
  end.

Definition initial_state : module_state :=
  {| perplexity := None; constructed := 0 |}.

(** [key] is [process.env.PERPLEXITY_API_KEY] at the time of the call. *)
Definition getPerplexityClient (key : option string) (st : module_state)
  : result string client * module_state :=
  match perplexity st with
  | Some c => (Ok c, st)
  | None =>
      match key with
      | Some k =>
          if String.eqb k EmptyString then
            (Throw "PERPLEXITY_API_KEY environment variable is missing. Set it to use research-backed features.", st)
          else
            let c := {| apiKey := k;
                        baseURL := "https://api.perplexity.ai";
                        oid := constructed st |} in
            (Ok c, {| perplexity := Some c; constructed := S (constructed st) |})
      | None =>
          (Throw "PERPLEXITY_API_KEY environment variable is missing. Set it to use research-backed features.", st)
      end
  end.

(** A run of the process: successive calls, each under its environment. *)
Fixpoint calls (keys : list (option string)) (st : module_state)
  : list (result string client) * module_state :=
  match keys with
  | [] => ([], st)
  | k :: rest =>
      let '(r, st1) := getPerplexityClient k st in
      let '(rs, st2) := calls rest st1 in
      (r :: rs, st2)
  end.

(** The count of constructions agrees with the store: none while it is
    empty, one once it holds a client. *)
Definition well_counted (st : module_state) : Prop :=
  match perplexity st with
  | None => constructed st = 0
  | Some _ => constructed st = 1
  end.

End AiServices.

(* ===================================================================== *)
(** * The dependency graph manager *)
(* ===================================================================== *)

Module DependencyManager.

(** The module [dependency-manager.js] is not among the sources: every
    definition of this module is written from the specification. *)

(** Modelled from the spec: a reference of section 3, either a bare
    integer that denotes a top-level task or a pair [parent.local] that
    denotes a subtask. *)
Inductive ref :=
| TaskRef (id : Z)
| SubtaskRef (parent local : Z).

(** Modelled from the spec: the subtask of section 3, with the fields the
    dependency graph reads or writes. *)
Record subtask := mkSubtask {
  sub_id : Z;
  sub_title : string;
  sub_dependencies : list ref
}.

(** Modelled from the spec: the task of section 3, with the fields the
    dependency graph reads or writes; it owns its subtasks. *)
Record task := mkTask {
  task_id : Z;
  task_title : string;
  task_dependencies : list ref;
  subtasks : list subtask
}.

(** Modelled from the spec: the state of the manager, the complete
    collection of tasks. *)
Definition collection := list task.

(** Modelled from the spec: identity of references. *)
Definition ref_eqb (a b : ref) : bool :=
  match a, b with
  | TaskRef x, TaskRef y => (x =? y)%Z
  | SubtaskRef p x, SubtaskRef q y => (p =? q)%Z && (x =? y)%Z
  | _, _ => false
  end.

(** Modelled from the spec: membership of a reference in a dependency
    list. *)
Definition mem_ref (r : ref) (l : list ref) : bool := existsb (ref_eqb r) l.

(** Modelled from the spec: lookup of a task by id, and of a subtask by
    its local id within its parent. *)
Definition find_task (c : collection) (id : Z) : option task :=
  find (fun t => (task_id t =? id)%Z) c.

(** Modelled from the spec: lookup of a subtask by its local id. *)
Definition find_subtask (t : task) (local : Z) : option subtask :=
  find (fun s => (sub_id s =? local)%Z) (subtasks t).

(** Modelled from the spec: resolution of a reference against the
    collection, yielding the dependencies of the entity it denotes. *)
Definition resolve (c : collection) (r : ref) : option (list ref) :=
  match r with
  | TaskRef id => option_map task_dependencies (find_task c id)
  | SubtaskRef p local =>
      match find_task c p with
      | Some t => option_map sub_dependencies (find_subtask t local)
      | None => None
      end
  end.

(** Modelled from the spec: the reference resolves (no [NotFoundError]). *)
Definition resolves (c : collection) (r : ref) : bool :=
  match resolve c r with Some _ => true | None => false end.

(** Modelled from the spec: the existing outgoing edges of [r], which the
    search follows. *)
Definition deps_of (c : collection) (r : ref) : list ref :=
  match resolve c r with Some ds => ds | None => [] end.

(** Modelled from the spec: the edge [r -> d] already exists. *)
Definition has_edge (c : collection) (r d : ref) : bool :=
  mem_ref d (deps_of c r).

(** Modelled from the spec: the entities of the collection (tasks and
    subtasks), the targets of all its edges, and both together. *)
Definition entities (c : collection) : list ref :=
  flat_map (fun t => TaskRef (task_id t)
                     :: map (fun s => SubtaskRef (task_id t) (sub_id s))
                            (subtasks t)) c.

(** Modelled from the spec: the targets of all dependency edges. *)
Definition all_edges (c : collection) : list ref :=
  flat_map (fun t => task_dependencies t
                     ++ flat_map sub_dependencies (subtasks t))%list c.

(** Modelled from the spec: everything a search can meet. *)
Definition nodes (c : collection) : list ref :=
  (entities c ++ all_edges c)%list.

(** Modelled from the spec: the depth-first search of [addDependency],
    with an explicit stack and the set of entities already expanded. *)
Fixpoint dfs (fuel : nat) (c : collection) (target : ref)
             (visited stack : list ref) : bool :=
  match fuel with
  | 0 => false
  | S f =>
      match stack with
      | [] => false
      | x :: rest =>
          if ref_eqb x target then true
          else if mem_ref x visited then dfs f c target visited rest
          else dfs f c target (x :: visited) (deps_of c x ++ rest)
      end
  end.

(** Modelled from the spec: the search of [addDependency], started at
    [from] with nothing expanded; [search_budget] is enough steps for any
    search in [c] that starts from one entity. *)
Definition search_budget (c : collection) : nat :=
  2 + (1 + List.length (all_edges c)) * List.length (nodes c).

(** Modelled from the spec: [target] is reachable from [from]. *)
Definition reaches (c : collection) (from target : ref) : bool :=
  dfs (search_budget c) c target [] [from].

(** Modelled from the spec: the errors of section 7 that [addDependency]
    raises, and what a call comes to. *)
Inductive dep_error :=
| NotFoundError (unresolved : ref)
| SelfReferenceError
| CycleError.

(** Modelled from the spec: the three ways a call of [addDependency]
    ends. *)
Inductive add_outcome :=
| EdgeAdded
| AlreadyPresent                 (* no-op success *)
| Rejected (e : dep_error).

(** Modelled from the spec: appending the dependency [d] to a task, and
    to the subtask [local] of a list of subtasks. *)
Definition task_with_edge (t : task) (d : ref) : task :=
  {| task_id := task_id t; task_title := task_title t;
     task_dependencies := task_dependencies t ++ [d];
     subtasks := subtasks t |}.

(** Modelled from the spec: the dependency [d] appended to the subtask
    [local]. *)
Fixpoint subtasks_with_edge (l : list subtask) (local : Z) (d : ref)
  : list subtask :=
  match l with
  | [] => []
  | s :: l' =>
      if (sub_id s =? local)%Z
      then {| sub_id := sub_id s; sub_title := sub_title s;
              sub_dependencies := sub_dependencies s ++ [d] |} :: l'
      else s :: subtasks_with_edge l' local d
  end.

(** Modelled from the spec: the edge [r -> d] appended to the
    dependencies of the entity that [r] resolves to. *)
Fixpoint append_edge (c : collection) (r d : ref) : collection :=
  match c with
  | [] => []
  | t :: rest =>
      match r with
      | TaskRef id =>
          if (task_id t =? id)%Z then task_with_edge t d :: rest
          else t :: append_edge rest r d
      | SubtaskRef p local =>
          if (task_id t =? p)%Z
          then {| task_id := task_id t; task_title := task_title t;
                  task_dependencies := task_dependencies t;
                  subtasks := subtasks_with_edge (subtasks t) local d |}
               :: rest
          else t :: append_edge rest r d
      end
  end.

(** Modelled from the spec: [addDependency(ref, dependsOnRef)] of section
    4.5, the checks in the order the spec lists them.  The result is the
    outcome and the collection after the call. *)
Definition addDependency (c : collection) (r d : ref)
  : add_outcome * collection :=
  if negb (resolves c r) then (Rejected (NotFoundError r), c)
  else if negb (resolves c d) then (Rejected (NotFoundError d), c)
  else if ref_eqb r d then (Rejected SelfReferenceError, c)
  else if has_edge c r d then (AlreadyPresent, c)
  else if reaches c d r then (Rejected CycleError, c)
  else (EdgeAdded, append_edge c r d).

(** Modelled from the spec: reachability along existing edges.
    [path c x p y]: following the edges of [c] from [x] through the
    entities of [p] in turn ends at [y]. *)
Fixpoint path (c : collection) (x : ref) (p : list ref) (y : ref) : bool :=
  match p with
  | [] => ref_eqb x y
  | z :: p' => has_edge c x z && path c z p' y
  end.

(** The state of a search for [target], as the completeness argument
    reads it: an entity of the stack starts a path to the target that
    keeps clear of the entities already expanded; [potential] bounds the
    steps still to come. *)
Definition promising (c : collection) (target : ref)
                     (visited stack : list ref) : Prop :=
  exists w p,
    In w stack /\ path c w p target = true
    /\ forall z, In z (w :: p) -> ~ In z visited.

Definition unvisited (c : collection) (visited : list ref) : nat :=
  List.length (filter (fun u => negb (mem_ref u visited)) (nodes c)).

Definition potential (c : collection) (visited stack : list ref) : nat :=
  List.length stack
  + (1 + List.length (all_edges c)) * unvisited c visited.

(** Modelled from the spec: the invariants of section 3 on the dependency
    relation: no entity depends on itself, every dependency resolves, and no entity reaches
    itself along one or more edges. *)
Definition no_self_reference (c : collection) : bool :=
  forallb (fun x => negb (has_edge c x x)) (entities c).

(** Modelled from the spec: every dependency reference resolves. *)
Definition all_resolve (c : collection) : bool :=
  forallb (resolves c) (all_edges c).

(** Modelled from the spec: the dependency relation has no cycle. *)
Definition acyclic (c : collection) : bool :=
  forallb (fun x => negb (existsb (fun z => reaches c z x) (deps_of c x)))
          (entities c).

(** Modelled from the spec: the three invariants together. *)
Definition graph_invariants (c : collection) : bool :=
  no_self_reference c && all_resolve c && acyclic c.

End DependencyManager.

(* ===================================================================== *)
(** * Concrete texts *)
(* ===================================================================== *)

Module Examples.
Import JS.

(** The text [{"a":"\\"}]: an object whose member is the one-character
    string made of a backslash. *)
Definition escaped_backslash_text : string := dq "{'a':'\\'}".

(** A reply that has no JSON in it. *)
Definition prose_text : string := "I am sorry, I cannot produce that.".

(** A reply with two subtask records, numbered 7 and 9. *)
Definition two_subtasks_text : string :=
  dq "Here you are: [{'id':7,'title':'first','status':'done'},{'id':9,'title':'second','dependencies':['1',2,' 3']}]".

Definition two_subtasks_items : list value :=
  Eval vm_compute in
    match Json.JSON_parse
            (substring two_subtasks_text (indexOf two_subtasks_text "[")
                       (lastIndexOf two_subtasks_text "]" + 1)) with
    | Some v => AiServices.array_items v
    | None => []
    end.

(** A reply whose record depends on a name rather than on a number. *)
Definition named_dependency_text : string :=
  dq "[{'id':1,'dependencies':['abc']}]".

(** A refused connection, as [fetch] reports it, and what the network
    does when the server comes up before the third request. *)
Definition connection_refused : AiServices.error :=
  {| AiServices.code := Some "ECONNREFUSED";
     AiServices.etype := Some "system";
     AiServices.status := None;
     AiServices.message :=
       VStr "request to http://localhost:11434/api/chat failed, reason: connect ECONNREFUSED 127.0.0.1:11434" |}.

Definition up_at_third_request (n : nat) : AiServices.fetch_outcome :=
  match n with
  | 0 | 1 => AiServices.FetchRejects connection_refused
  | _ => AiServices.Buffered
           (String.append (dq "{'message':{'content':'{\'tasks\':[],'}}")
              (String newline (dq "{'message':{'content':'\'metadata\':{}}'}}")))
  end.

(** A connection that times out, as [fetch] reports it, and a server
    that is slow to answer twice. *)
Definition connection_timed_out : AiServices.error :=
  {| AiServices.code := Some "ETIMEDOUT";
     AiServices.etype := Some "system";
     AiServices.status := None;
     AiServices.message :=
       VStr "request to http://localhost:11434/api/chat failed, reason: connect ETIMEDOUT 127.0.0.1:11434" |}.

Definition slow_until_third_request (n : nat) : AiServices.fetch_outcome :=
  match n with
  | 0 | 1 => AiServices.FetchRejects connection_timed_out
  | _ => up_at_third_request n
  end.

(** A server that does not have the model. *)
Definition model_missing (n : nat) : AiServices.fetch_outcome :=
  AiServices.NotOk 404 (VStr (dq "model 'llama3' not found, try pulling it first")).

(** A server that does not have the model and says so with an object:
    the body is [{"error":{"message":"model not found","code":404}}]. *)
Definition model_missing_object (n : nat) : AiServices.fetch_outcome :=
  AiServices.NotOk 404
    (VObj [ ("message", VStr "model not found");
            ("code", VNum (NInt 404)) ]).

(** A task document with two tasks. *)
Definition two_tasks_document : string :=
  dq "{'tasks':[{'id':1,'title':'first'},{'id':2,'title':'second'}],'metadata':{}}".

(** One line of a streamed reply, cut in the middle of the object, and
    the same line in one piece. *)
Definition cut_line_chunks : list string :=
  [ dq "{'message':{'con"; String.append (dq "tent':'ab'}}") (String newline EmptyString) ].

Definition whole_line_chunks : list string :=
  [ String.append (dq "{'message':{'content':'ab'},'done':false}") (String newline EmptyString);
    String.append (dq "{'message':{'content':'cd'},'done':false}") (String newline EmptyString);
    dq "{'done':true}" ].

(** A string conversion for the places where none is needed. *)
Definition no_conversion (v : value) : string := EmptyString.

(** Tasks 1, 2 and 3, where 2 depends on 1 and 3 depends on 1 and 2. *)
Definition three_tasks : DependencyManager.collection :=
  [ DependencyManager.mkTask 1 "one" [] [];
    DependencyManager.mkTask 2 "two" [DependencyManager.TaskRef 1] [];
    DependencyManager.mkTask 3 "three"
      [DependencyManager.TaskRef 1; DependencyManager.TaskRef 2] [] ].

(** Tasks 1 and 2 that depend on each other, as a file edited by hand
    can hold them. *)
Definition two_in_a_cycle : DependencyManager.collection :=
  [ DependencyManager.mkTask 1 "one" [DependencyManager.TaskRef 2] [];
    DependencyManager.mkTask 2 "two" [DependencyManager.TaskRef 1] [] ].

End Examples.

(* ===================================================================== *)
(** * ai-services.js, continued: subtask generation and the analysis prompt *)
(* ===================================================================== *)

Module Generation.
Import JS AiServices.

(** The task handed to the generators, as far as they read it. *)
Record task_info := mkTaskInfo {
  id : value;
  title : value;
  description : value;
  details : value
}.

(** [new Error(msg)] as the handlers see it. *)
Definition Error (msg : string) : error :=
  {| code := None; etype := None; status := None; message := VStr msg |}.

(** [n] applications of the normalizer. *)
Definition normalize_times (n : nat) (text : string) : string :=
  Nat.iter n processOllamaResponse text.

(** The backslashes of [s] that step 2 doubles. *)
Fixpoint doubled (s : string) : nat :=
  match s with
  | EmptyString => 0
  | String c r =>
      (if Ascii.eqb c backslash && not_escape_char_ahead r then 1 else 0)
      + doubled r
  end.

(** What a run prints with [console.error], in order. *)
Definition console_errors (evs : list event) : list string :=
  flat_map (fun ev => match ev with ConsoleError t => [t] | _ => [] end) evs.

(** The error a request fails with before any text is assembled, if it
    does: the rejection of [fetch], the object made of a status that is
    not a success, or the error of the body stream. *)
Definition failure_of (response : fetch_outcome) : option error :=
  match response with
  | FetchRejects e => Some e
  | NotOk st member => Some (http_error st member)
  | NullBody e => Some e
  | BodyFails e => Some e
  | Buffered _ | Streamed _ => None
  end.

(** A dependency entry that is still a string. *)
Definition is_string (v : value) : bool :=
  match v with
  | VStr _ => true
  | _ => false
  end.

(** What a record returned by the subtask parser carries at position [i]
    (counted from 0): the id its position calls for, the status, the
    parent, and an array of dependencies none of which is a string. *)
Definition well_stamped (startId : Z) (parentTaskId : value) (i : nat)
                        (r : value) : Prop :=
  get r "id" = Some (int (startId + Z.of_nat i))
  /\ get r "status" = Some (VStr "pending")
  /\ get r "parentTaskId" = Some parentTaskId
  /\ exists deps, get r "dependencies" = Some (VArr deps [])
                  /\ existsb is_string deps = false.

(** The own properties of a record. *)
Definition own_props (v : value) : props :=
  match v with
  | VObj ps | VArr _ ps => ps
  | _ => []
  end.

(** The own properties of a record the callback has been through. *)
Definition stamped_own (startId : Z) (parentTaskId : value) (i : nat) (r : value) : Prop :=
  is_record r = true
  /\ lookup "id" (own_props r) = Some (int (startId + Z.of_nat i))
  /\ lookup "status" (own_props r) = Some (VStr "pending")
  /\ lookup "parentTaskId" (own_props r) = Some parentTaskId
  /\ exists deps, lookup "dependencies" (own_props r)
                  = Some (VArr (map coerce_dependency deps) []).

Section Generation.

Variable JSON_parse : string -> option value.
Variable ToString : value -> string.

(** The message of the [TypeError] raised by calling [getReader] on a body
    that has none. *)
Variable getReader_TypeError : string.

(** [JSON.stringify], the built-in. *)
Variable JSON_stringify : value -> string.

(** [CONFIG.defaultSubtasks]. *)
Variable defaultSubtasks : Z.

(** Interpolation of a value in a template literal, when the conversion
    goes through. *)
Definition to_text (v : value) : string :=
  match v with
  | VStr s => s
  | other => ToString other
  end.

(** Interpolation of a value in a template literal; [None] is the
    [TypeError] of a value that has no conversion to a string. *)
Definition interpolate (v : value) : option string :=
  if interpolable v then Some (to_text v) else None.

(** [`${error.message}`], the message being a string, absent, or a value
    that converts. *)
Definition message_text (e : error) : string :=
  match message e with
  | VStr m => m
  | VUndefined => "undefined"
  | other => ToString other
  end.

(** ** [generateSubtasks] (lines 493-685)

    The task is an object whose fields convert to strings; the prompts
    made of them and the loading indicator leave no trace in what is
    returned or logged and are not modelled.
    The request is answered as in [handleStreamingRequest]; the handler of
    the inner [try] throws the error again, and the handler of the outer
    one logs it and throws it again. *)

Definition generateSubtasks (task : task_info) (numSubtasks nextSubtaskId : Z)
                            (response : fetch_outcome)
  : M error (list value) :=
  try_catch
    (responseText <-
       match response with
       | FetchRejects e => throw e
       | NotOk st member => throw (http_error st member)
       | NullBody e => throw e
       | Buffered body => ret (assemble_buffered JSON_parse ToString body)
       | Streamed chunks => ret (assemble_streamed JSON_parse ToString chunks)
       | BodyFails e => throw e
       end ;;
     emit (Log LInfo (Text ("Completed generating subtasks for task "
                            ++ to_text (id task)))) ;;;
     let processedText := processOllamaResponse responseText in
     parseSubtasksFromText JSON_parse processedText nextSubtaskId
                           numSubtasks (id task))
    (fun error =>
       emit (Log LError (Text ("Error generating subtasks: "
                               ++ message_text error))) ;;;
       throw error).

(** ** [getPerplexityResearch] (lines 49-59)

    [api] is what [chat.completions.create] comes to, the content of the
    first choice or the error it rejects with; it is consulted only once a
    client is at hand. *)
Definition getPerplexityResearch (key : option string)
                                 (api : result error string)
                                 (st : module_state)
  : result error string * module_state :=
  match getPerplexityClient key st with
  | (Ok perplexityClient, st') => (api, st')
  | (Throw msg, st') => (Throw (Error msg), st')
  end.

(** ** [generateSubtasksWithPerplexity] (lines 695-861)

    The body is read through [getReader] without a test for it, and the
    text assembled is handed to the parser as it is. *)
Definition generateSubtasksWithPerplexity
             (task : task_info) (numSubtasks nextSubtaskId : Z)
             (key : option string) (api : result error string)
             (response : fetch_outcome) (st : module_state)
  : M error (list value) * module_state :=
  let '(research, st') := getPerplexityResearch key api st in
  (try_catch
     (emit (Log LInfo (Text ("Researching context for task "
                             ++ to_text (id task) ++ ": "
                             ++ to_text (title task)))) ;;;
      researchResult <- ([], research) ;;
      emit (Log LInfo (Text "Research completed, now generating subtasks with additional context")) ;;;
      responseText <-
        match response with
        | FetchRejects e => throw e
        | NotOk st member => throw (http_error st member)
        | NullBody e => throw e
        | Buffered body => throw (Error getReader_TypeError)
        | Streamed chunks => ret (assemble_streamed JSON_parse ToString chunks)
        | BodyFails e => throw e
        end ;;
      emit (Log LInfo (Text ("Completed generating research-backed subtasks for task "
                             ++ to_text (id task)))) ;;;
      parseSubtasksFromText JSON_parse responseText nextSubtaskId
                            numSubtasks (id task))
     (fun error =>
        emit (Log LError (Text ("Error generating research-backed subtasks: "
                                ++ message_text error))) ;;;
        throw error),
   st').

(** ** [generateComplexityAnalysisPrompt] (lines 951-978) *)

(** [Math.max(3, CONFIG.defaultSubtasks - 1)] and
    [Math.min(8, CONFIG.defaultSubtasks + 2)]. *)
Definition recommended_min : Z := Z.max 3 (defaultSubtasks - 1).
Definition recommended_max : Z := Z.min 8 (defaultSubtasks + 2).

Definition or_default (v fallback : value) : value :=
  if truthy v then v else fallback.

Definition nl : string := String newline EmptyString.

(** A task that the block can be written for: it is neither [null] nor
    [undefined], and each field interpolated has a conversion to a
    string. *)
Definition printable_task (task : value) : bool :=
  match get task "id", get task "title", get task "description",
        get task "details", get task "priority" with
  | Some i, Some t, Some d, Some dt, Some p =>
      interpolable i && interpolable t && interpolable d && interpolable dt
      && interpolable (or_default p (VStr "medium"))
  | _, _, _, _, _ => false
  end.

(** The block written for one task; [None] is the [TypeError] of reading a
    property of [null] or [undefined], or of interpolating a value that
    has no conversion to a string. *)
Definition task_block (task : value) : option string :=
  match get task "id", get task "title", get task "description",
        get task "details", get task "dependencies", get task "priority" with
  | Some i, Some t, Some d, Some dt, Some deps, Some p =>
      match interpolate i, interpolate t, interpolate d, interpolate dt,
            interpolate (or_default p (VStr "medium")) with
      | Some i', Some t', Some d', Some dt', Some p' =>
          Some (nl ++ "Task ID: " ++ i' ++ nl
                ++ "Title: " ++ t' ++ nl
                ++ "Description: " ++ d' ++ nl
                ++ "Details: " ++ dt' ++ nl
                ++ "Dependencies: "
                ++ JSON_stringify (or_default deps (VArr [] [])) ++ nl
                ++ "Priority: " ++ p' ++ nl)
      | _, _, _, _, _ => None
      end
  | _, _, _, _, _, _ => None
  end.

Fixpoint task_blocks (tasks : list value) : option (list string) :=
  match tasks with
  | [] => Some []
  | t :: rest =>
      match task_block t, task_blocks rest with
      | Some b, Some bs => Some (b :: bs)
      | _, _ => None
      end
  end.

(** [blocks.join(sep)]. *)
Fixpoint join (sep : string) (blocks : list string) : string :=
  match blocks with
  | [] => EmptyString
  | [b] => b
  | b :: rest => b ++ sep ++ join sep rest
  end.

Definition prompt_head : string :=
  "Analyze the complexity of the following tasks and provide recommendations for subtask breakdown:"
  ++ nl ++ nl.

Definition prompt_range : string :=
  "number (" ++ string_of_Z recommended_min ++ "-"
  ++ string_of_Z recommended_max ++ ")".

(** The text after the blocks, up to the range and from it on. *)
Definition prompt_before_range : string :=
  nl ++ nl
  ++ "Analyze each task and return a JSON array with the following structure for each task:" ++ nl
  ++ "[" ++ nl
  ++ "  {" ++ nl
  ++ dq "    'taskId': number," ++ nl
  ++ dq "    'taskTitle': string," ++ nl
  ++ dq "    'complexityScore': number (1-10)," ++ nl
  ++ dq "    'recommendedSubtasks': ".

Definition prompt_after_range : string :=
  "," ++ nl
  ++ dq "    'expansionPrompt': string (a specific prompt for generating good subtasks)," ++ nl
  ++ dq "    'reasoning': string (brief explanation of your assessment)" ++ nl
  ++ "  }," ++ nl
  ++ "  ..." ++ nl
  ++ "]" ++ nl ++ nl
  ++ "IMPORTANT: Make sure to include an analysis for EVERY task listed above, with the correct taskId matching each task's ID."
  ++ nl.

Definition prompt_tail : string :=
  prompt_before_range ++ prompt_range ++ prompt_after_range.

(** [tasksData.tasks] must be an array, and one that has no own property
    [map], or [map] is not there to call. *)
Definition generateComplexityAnalysisPrompt (tasksData : value)
  : option string :=
  match get tasksData "tasks" with
  | Some (VArr tasks ps) =>
      if has_own "map" ps then None
      else
        match task_blocks tasks with
        | Some blocks =>
            Some (prompt_head
                  ++ join (nl ++ "---" ++ nl) blocks
                  ++ prompt_tail)
        | None => None
        end
  | _ => None
  end.

End Generation.
End Generation.

(* ===================================================================== *)
(** * command-handler.js *)
(* ===================================================================== *)

(** The lines printed are modelled without the colours [chalk] gives
    them; [CONFIG.debug] is off. *)

Module CommandHandler.
Import JS AiServices.

(** What the handler prints. *)
Inductive step :=
| StdErr (line : string)            (* console.error *)
| StdOut (line : string).           (* console.log *)

Inductive ending :=
| Exits (exitCode : Z)              (* process.exit *)
| Returns.

Record options := mkOptions {
  input : option string;
  output : option string;
  numTasks : value
}.

(** [process.env], as far as the handler reads it. *)
Record environment := mkEnv {
  OLLAMA_API_URL : option string;
  OLLAMA_MODEL : option string;
  DEFAULT_NUM_TASKS : option string
}.

(** [x || fallback] on a string that may be missing. *)
Definition or_else (x : option string) (fallback : string) : string :=
  match x with
  | Some s => if String.eqb s EmptyString then fallback else s
  | None => fallback
  end.

(** [options.numTasks || parseInt(process.env.DEFAULT_NUM_TASKS || '10', 10)]. *)
Definition chosen_numTasks (opts : options) (env : environment) : value :=
  if truthy (numTasks opts) then numTasks opts
  else VNum (parseInt10 (or_else (DEFAULT_NUM_TASKS env) "10")).

(** The handler of the enclosing [try]: print the message, leave with 1. *)
Definition fails (msg : string) : list step * ending :=
  ([StdErr ("Error: " ++ msg)], Exits 1).

(** The message of the [ReferenceError] that the evaluation of the name
    [parsePRD] raises, as Node words it: the module imports [CONFIG],
    [log], [readJSON], [writeJSON], [findTaskById], [isOllamaAvailable]
    and [isModelAvailable], and neither imports nor defines [parsePRD]. *)
Definition parsePRD_is_not_defined : string := "parsePRD is not defined".

(** [parsePRDHandler] (lines 15-55).  The awaited helpers and
    [existsSync] are parameters: each awaited one either answers or
    rejects with an error of the given message.  The call of line 45
    raises before its arguments are looked at. *)
Definition parsePRDHandler
             (opts : options) (env : environment)
             (isOllamaAvailable : result string bool)
             (isModelAvailable : string -> result string bool)
             (existsSync : string -> bool)
  : list step * ending :=
  match isOllamaAvailable with
  | Throw msg => fails msg
  | Ok false =>
      ([ StdErr "Error: Ollama is not available.";
         StdOut ("Please make sure Ollama is installed and running at "
                 ++ or_else (OLLAMA_API_URL env) "http://localhost:11434");
         StdOut "You can download Ollama from https://ollama.com/" ],
       Exits 1)
  | Ok true =>
      let model := or_else (OLLAMA_MODEL env) "llama3" in
      match isModelAvailable model with
      | Throw msg => fails msg
      | Ok false =>
          ([ StdErr ("Error: The model '" ++ model
                     ++ "' is not available in Ollama.");
             StdOut ("Please pull the model using: ollama pull " ++ model) ],
           Exits 1)
      | Ok true =>
          let prdPath := or_else (input opts) "sample-prd.txt" in
          let tasksPath := or_else (output opts) "tasks/tasks.json" in
          let numTasks := chosen_numTasks opts env in
          if negb (existsSync prdPath) then
            ([StdErr ("Error: PRD file not found: " ++ prdPath)], Exits 1)
          else fails parsePRD_is_not_defined
      end
  end.

End CommandHandler.

(* ===================================================================== *)
(** * More concrete inputs *)
(* ===================================================================== *)

Module Scenarios.
Import JS.

(** A Windows path, written with a lone backslash before a letter that is
    no escape character. *)
Definition lone_backslash_text : string := "C:\Users".

(** A reply that wraps its answer in prose. *)
Definition wrapped_document_text : string :=
  dq "Sure! Here it is: {'tasks':[],'metadata':{}} Hope that helps.".

Definition wrapped_array_text : string :=
  dq "Here you are: [{'id':7,'title':'first'}] and that is all.".

(** An array whose second element is no record. *)
Definition mixed_array_text : string :=
  dq "[{'id':1,'title':'first'}, null]".

(** A time-out that only its type tells. *)
Definition typed_timeout : AiServices.error :=
  {| AiServices.code := None;
     AiServices.etype := Some "request-timeout";
     AiServices.status := None;
     AiServices.message := VStr "deadline exceeded" |}.

(** A task document streamed in two fragments, each a whole line. *)
Definition document_chunks : list string :=
  [ String.append (dq "{'message':{'content':'{\'tasks\':[],'}}")
                  (String newline EmptyString);
    dq "{'message':{'content':'\'metadata\':{}}'}}" ].

(** A subtask array streamed in one fragment, and received in one piece. *)
Definition subtask_chunks : list string :=
  [ String.append
      (dq "{'message':{'content':'[{\'id\':7,\'title\':\'first\'}]'}}")
      (String newline EmptyString) ].

Definition always_refused (n : nat) : AiServices.fetch_outcome :=
  AiServices.FetchRejects Examples.connection_refused.

Definition a_task : Generation.task_info :=
  {| Generation.id := VNum (NInt 5);
     Generation.title := VStr "Build the parser";
     Generation.description := VStr "Parse the input";
     Generation.details := VUndefined |}.

End Scenarios.
(* ===================================================================== *)
(** * Properties of the normalizer *)
(* ===================================================================== *)

Module NormalizerFacts.
Import JS AiServices.

(** Step 3 replaces each match by itself. *)
Lemma fix_quote_escaping_id :
  forall s prev, fix_quote_escaping prev s = s.
Proof.
  assert (H : forall s,
             (forall prev, fix_quote_escaping prev s = s)
             /\ (forall prev c, fix_quote_escaping prev (String c s) = String c s)).
  { induction s as [|c' r [IH1 IH2]].
    - split; intros; reflexivity.
    - split.
      + intros prev. apply IH2.
      + intros prev c. simpl.
        destruct (Ascii.eqb c backslash && Ascii.eqb c' dquote
                  && negb match prev with
                          | Some p => Ascii.eqb p backslash
                          | None => false
                          end) eqn:Hm.
        * apply andb_prop in Hm. destruct Hm as [Hm _].
          apply andb_prop in Hm. destruct Hm as [Hc Hc'].
          apply Ascii.eqb_eq in Hc. apply Ascii.eqb_eq in Hc'.
          subst c c'. rewrite IH1. reflexivity.
        * f_equal. apply (IH2 (Some c) c'). }
  intros s prev. apply (H s).
Qed.

Lemma unescape_single_quotes_clean :
  forall s, escapes_recognized s = true -> unescape_single_quotes s = s.
Proof.
  assert (H : forall s,
             (escapes_recognized s = true -> unescape_single_quotes s = s)
             /\ (forall c, escapes_recognized (String c s) = true ->
                           unescape_single_quotes (String c s) = String c s)).
  { induction s as [|c' r [IH1 IH2]].
    - split; intros; reflexivity.
    - split.
      + apply IH2.
      + intros c Hc.
        change (escapes_recognized (String c (String c' r)))
          with (negb (Ascii.eqb c backslash && not_escape_char_ahead (String c' r))
                && escapes_recognized (String c' r)) in Hc.
        apply andb_prop in Hc. destruct Hc as [Hhead Htail].
        change (unescape_single_quotes (String c (String c' r)))
          with (if Ascii.eqb c backslash && Ascii.eqb c' squote
                then String squote (unescape_single_quotes r)
                else String c (unescape_single_quotes (String c' r))).
        destruct (Ascii.eqb c backslash && Ascii.eqb c' squote) eqn:Hm.
        * apply andb_prop in Hm. destruct Hm as [Hb Hq].
          apply Ascii.eqb_eq in Hq. subst c'.
          rewrite Hb in Hhead. discriminate Hhead.
        * f_equal. apply IH2. exact Htail. }
  intros s. apply (H s).
Qed.

Lemma escape_backslashes_clean :
  forall s, escapes_recognized s = true -> escape_backslashes s = s.
Proof.
  induction s as [|c r IH]; intros Hc.
  - reflexivity.
  - simpl in Hc. apply andb_prop in Hc. destruct Hc as [Hhead Htail].
    simpl. apply negb_true_iff in Hhead. rewrite Hhead.
    f_equal. apply IH. exact Htail.
Qed.

(** Where every backslash already stands before a recognized escape
    character, the normalizer changes nothing, so that a second pass
    changes nothing either. *)
Lemma processOllamaResponse_clean :
  forall x, escapes_recognized x = true ->
            processOllamaResponse x = x
            /\ processOllamaResponse (processOllamaResponse x)
               = processOllamaResponse x.
Proof.
  intros x Hx.
  assert (E : processOllamaResponse x = x).
  { unfold processOllamaResponse.
    rewrite fix_quote_escaping_id, unescape_single_quotes_clean by exact Hx.
    apply escape_backslashes_clean. exact Hx. }
  split; [exact E | rewrite E; exact E].
Qed.

End NormalizerFacts.

(** C1 (as the code behaves).  The JSON text [{"a":"\\"}] is valid, yet
    [processOllamaResponse] does not return it unchanged: the backslash of
    the escape pair is doubled, which leaves a text that is no JSON text
    any more, and a second application doubles backslashes again, so the
    second result differs from the first. *)
Theorem C1_normalizer_alters_valid_json :
  let x := Examples.escaped_backslash_text in
  Json.JSON_parse x = Some (JS.VObj [("a", JS.VStr (String JS.backslash EmptyString))])
  /\ AiServices.processOllamaResponse x = JS.dq "{'a':'\\\'}"
  /\ AiServices.processOllamaResponse x <> x
  /\ Json.JSON_parse (AiServices.processOllamaResponse x) = None
  /\ AiServices.processOllamaResponse (AiServices.processOllamaResponse x)
     = JS.dq "{'a':'\\\\\'}"
  /\ AiServices.processOllamaResponse (AiServices.processOllamaResponse x)
     <> AiServices.processOllamaResponse x.
Proof.
  cbv zeta.
  repeat split; try (vm_compute; reflexivity); vm_compute; discriminate.
Qed.

(* ===================================================================== *)
(** * Properties of the structured extractor *)
(* ===================================================================== *)

Module ExtractorFacts.
Import JS AiServices.

(** The laws of the logging monad used below. *)
Lemma bind_ret_l :
  forall E A B (a : A) (k : A -> M E B), bind (ret a) k = k a.
Proof.
  intros. unfold bind, ret. destruct (k a) as [evs r]. reflexivity.
Qed.

Lemma bind_ok :
  forall E A B evs (a : A) (k : A -> M E B),
    bind (evs, Ok a) k = after evs (k a).
Proof.
  intros. unfold bind, after. destruct (k a) as [evs' r]. reflexivity.
Qed.

Lemma bind_throw :
  forall E A B evs (e : E) (k : A -> M E B),
    bind (evs, Throw e) k = (evs, Throw e).
Proof. reflexivity. Qed.

Lemma after_nil :
  forall E A (c : M E A), after [] c = c.
Proof. intros E A [evs r]. reflexivity. Qed.

Lemma lookup_set_prop_same :
  forall k x ps, lookup k (set_prop k x ps) = Some x.
Proof.
  induction ps as [|[k' v'] r IH]; simpl.
  - rewrite String.eqb_refl. reflexivity.
  - destruct (String.eqb k' k) eqn:Hk; simpl.
    + rewrite String.eqb_refl. reflexivity.
    + rewrite Hk. exact IH.
Qed.

Lemma lookup_set_prop_other :
  forall k k' x ps, String.eqb k k' = false ->
                    lookup k' (set_prop k x ps) = lookup k' ps.
Proof.
  induction ps as [|[k0 v0] r IH]; simpl; intros Hne.
  - rewrite Hne. reflexivity.
  - destruct (String.eqb k0 k) eqn:Hk; simpl.
    + apply String.eqb_eq in Hk. subst k0. rewrite Hne. reflexivity.
    + destruct (String.eqb k0 k'); [reflexivity | apply IH; exact Hne].
Qed.

(** Assigning a property of a record succeeds, is read back, and leaves
    the other properties as they were. *)
Lemma set_record :
  forall v k x, is_record v = true ->
    exists v', set v k x = Some v'
               /\ is_record v' = true
               /\ get v' k = Some x
               /\ (forall k', String.eqb k k' = false -> get v' k' = get v k').
Proof.
  intros v k x Hv.
  destruct v as [ | | | | |ps|items ps]; try discriminate Hv.
  - exists (VObj (set_prop k x ps)). repeat split.
    + simpl. rewrite lookup_set_prop_same. reflexivity.
    + intros k' Hne. simpl. rewrite lookup_set_prop_other by exact Hne.
      reflexivity.
  - exists (VArr items (set_prop k x ps)). repeat split.
    + simpl. rewrite lookup_set_prop_same. reflexivity.
    + intros k' Hne. simpl. rewrite lookup_set_prop_other by exact Hne.
      reflexivity.
Qed.

Lemma get_record :
  forall v k, is_record v = true -> get v k = Some (match get v k with
                                                    | Some x => x
                                                    | None => VUndefined
                                                    end).
Proof.
  intros v k Hv.
  destruct v; try discriminate Hv; reflexivity.
Qed.

Lemma stamped_false :
  forall k, stamped k = false ->
    String.eqb "id" k = false /\ String.eqb "dependencies" k = false
    /\ String.eqb "status" k = false /\ String.eqb "parentTaskId" k = false.
Proof.
  intros k H. unfold stamped in H.
  repeat (apply orb_false_iff in H; destruct H as [H ?]).
  repeat split; rewrite String.eqb_sym; assumption.
Qed.

Lemma normalized_dependencies_eq :
  forall v, is_record v = true ->
    (let deps := match get v "dependencies" with
                 | Some x => x
                 | None => VUndefined
                 end in
     if truthy deps && isArray deps
     then VArr (map coerce_dependency (array_items deps)) []
     else VArr [] [])
    = normalized_dependencies v.
Proof.
  intros v Hv. unfold normalized_dependencies.
  destruct (get v "dependencies") as [[ | |b|n|str| | ] | ];
    cbv zeta; unfold isArray;
    rewrite ?andb_false_r, ?andb_true_r; reflexivity.
Qed.

(** The callback of [map] on a record: it succeeds, logs a correction
    exactly when the [id] disagrees, and returns the record normalized. *)
Lemma normalize_subtask_record :
  forall startId parentTaskId i v,
    is_record v = true ->
    interpolable (id_of v) = true ->
    exists r,
      normalize_subtask startId parentTaskId i v
      = (corrections startId i [v], Ok r)
      /\ normalizes startId parentTaskId i v r.
Proof.
  intros s p i v Hv Hid.
  unfold normalize_subtask.
  rewrite (get_record v "id" Hv). fold (id_of v).
  assert (Hstep1 :
    exists v1,
      (if strict_neq_int (id_of v) (s + Z.of_nat i)
       then ret tt ;;;
            emit (Log LWarn (CorrectingId (id_of v) (s + Z.of_nat i))) ;;;
            lift TypeError (set v "id" (int (s + Z.of_nat i)))
       else ret v)
      = (corrections s i [v], @Ok parse_exn _ v1)
      /\ is_record v1 = true
      /\ get v1 "id" = Some (int (s + Z.of_nat i))
      /\ (forall k, String.eqb "id" k = false -> get v1 k = get v k)).
  { simpl corrections. rewrite app_nil_r.
    destruct (strict_neq_int (id_of v) (s + Z.of_nat i)) eqn:Hneq.
    - destruct (set_record v "id" (int (s + Z.of_nat i)) Hv)
        as [v1 [Hset [Hrec [Hget Hoth]]]].
      exists v1. rewrite Hset, bind_ret_l. repeat split; assumption.
    - exists v. repeat split; try assumption.
      unfold id_of, strict_neq_int in Hneq.
      rewrite (get_record v "id" Hv).
      destruct (get v "id") as [[ | | |[z| | |]| | | ]|]; try discriminate Hneq.
      apply negb_false_iff in Hneq. apply Z.eqb_eq in Hneq. subst z.
      reflexivity. }
  destruct Hstep1 as [v1 [Hrun1 [Hrec1 [Hid1 Hoth1]]]].
  cbv zeta. simpl lift at 1. rewrite bind_ret_l.
  rewrite Hid, Hrun1, bind_ok.
  rewrite (get_record v1 "dependencies" Hrec1).
  rewrite (Hoth1 "dependencies" eq_refl).
  simpl lift at 1. rewrite bind_ret_l.
  pose proof (normalized_dependencies_eq v Hv) as Hnd. cbv zeta in Hnd.
  rewrite Hnd.
  destruct (set_record v1 "dependencies" (normalized_dependencies v) Hrec1)
    as [v2 [Hset2 [Hrec2 [Hget2 Hoth2]]]].
  destruct (set_record v2 "status" (VStr "pending") Hrec2)
    as [v3 [Hset3 [Hrec3 [Hget3 Hoth3]]]].
  destruct (set_record v3 "parentTaskId" p Hrec3)
    as [v4 [Hset4 [Hrec4 [Hget4 Hoth4]]]].
  rewrite Hset2. simpl lift at 1. rewrite bind_ret_l.
  rewrite Hset3. simpl lift at 1. rewrite bind_ret_l.
  rewrite Hset4. simpl lift at 1. rewrite bind_ret_l.
  exists v4. split.
  - unfold after, ret. simpl. rewrite app_nil_r. reflexivity.
  - unfold normalizes. repeat split.
    + rewrite Hoth4, Hoth3, Hoth2 by reflexivity. exact Hid1.
    + rewrite Hoth4 by reflexivity. exact Hget3.
    + exact Hget4.
    + rewrite Hoth4, Hoth3 by reflexivity. exact Hget2.
    + intros k Hk. apply stamped_false in Hk.
      destruct Hk as [K1 [K2 [K3 K4]]].
      rewrite Hoth4, Hoth3, Hoth2, Hoth1 by assumption. reflexivity.
Qed.

(** A record whose id has no conversion to a string is not normalized:
    the id is an object, it differs from the number expected, and the
    message of the correction cannot be built. *)
Lemma normalize_subtask_unprintable :
  forall startId parentTaskId i v,
    is_record v = true ->
    interpolable (id_of v) = false ->
    normalize_subtask startId parentTaskId i v = ([], Throw TypeError).
Proof.
  intros s p i v Hv Hid.
  unfold normalize_subtask.
  rewrite (get_record v "id" Hv). fold (id_of v).
  cbv zeta. simpl lift at 1. rewrite bind_ret_l.
  assert (Hneq : strict_neq_int (id_of v) (s + Z.of_nat i) = true).
  { destruct (id_of v) as [ | | |n| | | ]; try reflexivity;
      discriminate Hid. }
  rewrite Hneq, Hid. reflexivity.
Qed.

Lemma map_subtasks_records :
  forall startId parentTaskId items i,
    forallb is_record items = true ->
    printable_ids items = true ->
    exists l,
      map_subtasks startId parentTaskId i items
      = (corrections startId i items, Ok l)
      /\ List.length l = List.length items
      /\ (forall j v, nth_error items j = Some v ->
            exists r, nth_error l j = Some r
                      /\ normalizes startId parentTaskId (i + j) v r).
Proof.
  intros s p items.
  induction items as [|v rest IH]; intros i Hrec Hids.
  - exists []. repeat split. intros [|j] v Hj; discriminate Hj.
  - simpl in Hrec. apply andb_prop in Hrec. destruct Hrec as [Hv Hrest].
    unfold printable_ids in Hids. cbn [forallb] in Hids.
    apply andb_prop in Hids.
    destruct Hids as [Hid Hids].
    destruct (normalize_subtask_record s p i v Hv Hid) as [r [Hrun Hnorm]].
    destruct (IH (S i) Hrest Hids) as [l [Hruns [Hlen Hnth]]].
    exists (r :: l). split; [|split].
    + simpl map_subtasks. rewrite Hrun, bind_ok, Hruns, bind_ok.
      unfold after, ret. simpl. rewrite !app_nil_r. reflexivity.
    + simpl. rewrite Hlen. reflexivity.
    + intros [|j] w Hj; simpl in Hj.
      * inversion Hj; subst w. exists r. rewrite Nat.add_0_r.
        split; [reflexivity | exact Hnorm].
      * destruct (Hnth j w Hj) as [r' [Hr' Hn']].
        exists r'. split; [exact Hr'|].
        replace (i + S j) with (S i + j) by lia. exact Hn'.
Qed.

(** The corrections logged are those of the records whose [id] is not
    the one their position calls for. *)
Lemma In_corrections :
  forall startId items i ev,
    In ev (corrections startId i items) <->
    exists j v, nth_error items j = Some v
                /\ strict_neq_int (id_of v) (startId + Z.of_nat (i + j)) = true
                /\ ev = Log LWarn (CorrectingId (id_of v)
                                     (startId + Z.of_nat (i + j))).
Proof.
  intros s items. induction items as [|w rest IH]; intros i ev.
  - simpl. split; [tauto|]. intros [[|j] [v [H _]]]; discriminate H.
  - simpl corrections. rewrite in_app_iff, IH. split.
    + intros [Hhead | [j [v [Hj [Hneq Hev]]]]].
      * destruct (strict_neq_int (id_of w) (s + Z.of_nat i)) eqn:Hn;
          [|contradiction].
        destruct Hhead as [Hev | []]. exists 0, w.
        rewrite Nat.add_0_r. repeat split; [exact Hn | symmetry; exact Hev].
      * exists (S j), v. replace (i + S j) with (S i + j) by lia.
        repeat split; assumption.
    + intros [[|j] [v [Hj [Hneq Hev]]]].
      * left. simpl in Hj. inversion Hj; subst w.
        rewrite Nat.add_0_r in Hneq, Hev. rewrite Hneq. left.
        symmetry. exact Hev.
      * right. exists j, v. replace (S i + j) with (i + S j) by lia.
        repeat split; assumption.
Qed.

Lemma corrections_are_warnings :
  forall startId items i,
    Forall (fun ev => exists m, ev = Log LWarn m)
           (corrections startId i items).
Proof.
  intros s items i. apply Forall_forall. intros ev Hev.
  apply In_corrections in Hev. destruct Hev as [j [v [_ [_ Hev]]]].
  eexists. exact Hev.
Qed.

(** [parseInt] on numeric-looking text yields the Number value of the
    integer read, which is that integer when it is below [2^53] in
    magnitude, and [NaN] on any other text. *)
Lemma leading_integer_numeric :
  forall s, numeric_looking s = true -> exists z, leading_integer s = Some z.
Proof.
  intros s H. unfold numeric_looking in H. unfold leading_integer.
  destruct (skip_space s) as [|a r]; [discriminate H|].
  destruct (Ascii.eqb a "-") eqn:Hm.
  - simpl in H. rewrite H. eexists. reflexivity.
  - destruct (Ascii.eqb a "+") eqn:Hp.
    + simpl in H. rewrite H. eexists. reflexivity.
    + simpl in H. rewrite H. eexists. reflexivity.
Qed.

Lemma leading_integer_not_numeric :
  forall s, numeric_looking s = false -> leading_integer s = None.
Proof.
  intros s H. unfold numeric_looking in H. unfold leading_integer.
  destruct (skip_space s) as [|a r]; [reflexivity|].
  destruct (Ascii.eqb a "-") eqn:Hm.
  - simpl in H. rewrite H. reflexivity.
  - destruct (Ascii.eqb a "+") eqn:Hp.
    + simpl in H. rewrite H. reflexivity.
    + simpl in H. rewrite H. reflexivity.
Qed.

Lemma parseInt10_numeric :
  forall s, numeric_looking s = true ->
    exists z, leading_integer s = Some z /\ parseInt10 s = nearest_double z.
Proof.
  intros s H. destruct (leading_integer_numeric s H) as [z Hz].
  exists z. split; [exact Hz|]. unfold parseInt10. rewrite Hz. reflexivity.
Qed.

Lemma parseInt10_not_numeric :
  forall s, numeric_looking s = false -> parseInt10 s = NaN.
Proof.
  intros s H. unfold parseInt10.
  rewrite (leading_integer_not_numeric s H). reflexivity.
Qed.

Lemma nearest_double_exact :
  forall z, (Z.abs z < 2 ^ 53)%Z -> nearest_double z = NInt z.
Proof.
  intros z H. unfold nearest_double.
  apply Z.ltb_lt in H. rewrite H. reflexivity.
Qed.

(** Past [2^53] the value read is the nearest double, ties to the even
    significand; a run of digits too long for a double gives [Infinity]. *)
Lemma parseInt10_rounds :
  parseInt10 "9007199254740993" = NInt 9007199254740992
  /\ parseInt10 "9007199254740995" = NInt 9007199254740996
  /\ parseInt10 "-9007199254740993" = NInt (-9007199254740992)
  /\ parseInt10 "9007199254740992" = NInt 9007199254740992.
Proof. repeat split; vm_compute; reflexivity. Qed.

Lemma nearest_double_overflows :
  nearest_double (2 ^ 1024) = NInf false
  /\ nearest_double (- 2 ^ 1024) = NInf true
  /\ nearest_double (2 ^ 1024 - 2 ^ 970 - 1) = NInt (2 ^ 1024 - 2 ^ 971).
Proof. repeat split; vm_compute; reflexivity. Qed.

Section WithParser.
Variable JSON_parse : string -> option value.

(** Steps 1-2 of the subtask path on a text whose bracketed slice is an
    array of records. *)
Lemma parse_subtasks_records :
  forall text startId expectedCount parentTaskId items,
    subtasks_parsed JSON_parse text items ->
    forallb is_record items = true ->
    printable_ids items = true ->
    exists l,
      parse_subtasks JSON_parse text startId expectedCount parentTaskId
      = ((count_warning expectedCount items
          ++ corrections startId 0 items)%list, Ok l)
      /\ List.length l = List.length items
      /\ (forall j v, nth_error items j = Some v ->
            exists r, nth_error l j = Some r
                      /\ normalizes startId parentTaskId j v r).
Proof.
  intros text s N p items [Hloc [ps Hparse]] Hrec Hids.
  destruct (map_subtasks_records s p items 0 Hrec Hids)
    as [l [Hrun [Hlen Hnth]]].
  exists l. split; [|split; [exact Hlen | exact Hnth]].
  unfold parse_subtasks. rewrite Hloc, Hparse.
  simpl lift. rewrite bind_ret_l.
  simpl isArray. cbv iota. simpl array_items.
  rewrite Hrun. unfold count_warning.
  destruct (negb (Z.of_nat (List.length items) =? N)%Z); reflexivity.
Qed.

Lemma parseSubtasksFromText_records :
  forall E text startId expectedCount parentTaskId items,
    subtasks_parsed JSON_parse text items ->
    forallb is_record items = true ->
    printable_ids items = true ->
    exists l,
      parseSubtasksFromText (E:=E) JSON_parse text startId expectedCount
                            parentTaskId
      = ((count_warning expectedCount items
          ++ corrections startId 0 items)%list, Ok l)
      /\ List.length l = List.length items
      /\ (forall j v, nth_error items j = Some v ->
            exists r, nth_error l j = Some r
                      /\ normalizes startId parentTaskId j v r).
Proof.
  intros E text s N p items Hp Hrec Hids.
  destruct (parse_subtasks_records text s N p items Hp Hrec Hids)
    as [l [Hrun Hrest]].
  exists l. split; [|exact Hrest].
  unfold parseSubtasksFromText. rewrite Hrun. reflexivity.
Qed.

(** Whatever the [try] block raises, the handler answers with the
    placeholders. *)
Lemma parseSubtasksFromText_throw :
  forall E text startId expectedCount parentTaskId evs e,
    parse_subtasks JSON_parse text startId expectedCount parentTaskId
    = (evs, Throw e) ->
    parseSubtasksFromText (E:=E) JSON_parse text startId expectedCount
                          parentTaskId
    = ((evs ++ [ Log LError (ErrorParsingSubtasks e);
                 Log LWarn (Text "Creating fallback subtasks") ])%list,
       Ok (fallback_loop startId parentTaskId (Z.to_nat expectedCount) 0 [])).
Proof.
  intros E text s N p evs e Hrun.
  unfold parseSubtasksFromText. rewrite Hrun. reflexivity.
Qed.

Lemma parse_subtasks_unparsable :
  forall text startId expectedCount parentTaskId,
    subtasks_unparsable JSON_parse text ->
    exists e,
      parse_subtasks JSON_parse text startId expectedCount parentTaskId
      = ([], Throw e).
Proof.
  intros text s N p [Hloc | Hparse]; unfold parse_subtasks.
  - rewrite Hloc. exists NoJsonArray. reflexivity.
  - destruct ((indexOf text "[" =? -1)%Z || (lastIndexOf text "]" =? -1)%Z
              || (lastIndexOf text "]" <? indexOf text "[")%Z).
    + exists NoJsonArray. reflexivity.
    + rewrite Hparse. exists SyntaxError. reflexivity.
Qed.

(** Step 1 of the whole-document ladder hands back what [JSON.parse]
    produced, as it is: it counts nothing, logs nothing, pads nothing. *)
Lemma parse_response_returns_parsed :
  forall E PROJECT_NAME today text numTasks prdPath v,
    JSON_parse text = Some v ->
    parse_response (E:=E) JSON_parse PROJECT_NAME today text numTasks prdPath
    = ([], Ok v).
Proof.
  intros E pn today text N path v H. unfold parse_response. rewrite H.
  reflexivity.
Qed.

End WithParser.

(** The loop that builds the placeholder subtasks. *)
Lemma fallback_loop_spec :
  forall startId parentTaskId n i acc,
    fallback_loop startId parentTaskId n i acc
    = (acc ++ map (fun k => fallback_subtask startId parentTaskId
                              (i + Z.of_nat k))
                  (seq 0 n))%list.
Proof.
  intros s p n. induction n as [|n IH]; intros i acc.
  - simpl. rewrite app_nil_r. reflexivity.
  - simpl fallback_loop. rewrite IH.
    rewrite <- app_assoc. f_equal.
    change (seq 0 (S n)) with (0 :: seq 1 n).
    rewrite <- seq_shift. cbn [map List.app]. rewrite map_map.
    change (Z.of_nat 0) with 0%Z. rewrite Z.add_0_r. f_equal.
    apply map_ext. intros k. f_equal. lia.
Qed.

Lemma nth_error_map_seq :
  forall A (f : nat -> A) n i v,
    nth_error (map f (seq 0 n)) i = Some v -> i < n /\ v = f i.
Proof.
  intros A f n i v H.
  assert (Hi : i < n).
  { assert (Hl : i < List.length (map f (seq 0 n))).
    { apply nth_error_Some. rewrite H. discriminate. }
    rewrite length_map, length_seq in Hl. exact Hl. }
  split; [exact Hi|].
  rewrite (nth_error_nth' _ (f 0)) in H
    by (rewrite length_map, length_seq; exact Hi).
  inversion H. rewrite (map_nth f (seq 0 n) 0 i) at 1.
  rewrite seq_nth by exact Hi. reflexivity.
Qed.

Lemma fallback_subtask_placeholder :
  forall startId parentTaskId i,
    is_placeholder_subtask startId parentTaskId i
      (fallback_subtask startId parentTaskId (Z.of_nat i)).
Proof.
  intros. unfold is_placeholder_subtask. repeat split.
Qed.

Lemma fallback_task_placeholder :
  forall i, is_placeholder_task i (fallback_task i).
Proof.
  intros. unfold is_placeholder_task. repeat split.
Qed.

End ExtractorFacts.

(* ===================================================================== *)
(** * The extractor and the subtask normalizer: claims *)
(* ===================================================================== *)

Section ExtractorClaims.
Import JS AiServices ExtractorFacts.

Variable JSON_parse : string -> option value.
Variable PROJECT_NAME : option string.
Variable today : string.

(** C2.  For every requested count [N >= 1]: when the text handed to the
    whole-document ladder is not a JSON text and has no brace-delimited
    slice that is one, the ladder returns (it does not throw) the fallback
    document whose [tasks] are exactly [N] placeholders; when the text
    handed to the subtask parser has no bracket-delimited slice that is a
    JSON text, the parser returns exactly [N] placeholder subtasks.  The
    placeholder at position [i] is pending, has no dependencies, carries a
    title made from its index and the annotation that it was generated
    because parsing failed. *)
Theorem C2_unparsable_text_yields_placeholders :
  forall (E : Type) (N : Z) (doc prdPath sub : string)
         (startId : Z) (parentTaskId : value),
    (1 <= N)%Z ->
    document_unparsable JSON_parse doc ->
    subtasks_unparsable JSON_parse sub ->
    (exists tasks meta,
        outcome (parse_response (E:=E) JSON_parse PROJECT_NAME today
                                doc N prdPath)
        = Ok (VObj [("tasks", VArr tasks []); ("metadata", meta)])
        /\ Z.of_nat (List.length tasks) = N
        /\ forall i v, nth_error tasks i = Some v -> is_placeholder_task i v)
    /\ (exists subtasks,
        outcome (parseSubtasksFromText (E:=E) JSON_parse sub startId N
                                       parentTaskId)
        = Ok subtasks
        /\ Z.of_nat (List.length subtasks) = N
        /\ forall i v, nth_error subtasks i = Some v ->
                       is_placeholder_subtask startId parentTaskId i v).
Proof.
  intros E N doc prdPath sub s p HN [Hdoc Hslice] Hsub.
  split.
  - exists (map fallback_task (seq 0 (Z.to_nat N))).
    eexists. split; [|split].
    + unfold parse_response. rewrite Hdoc.
      destruct Hslice as [Hloc | Hparse].
      * rewrite Hloc. reflexivity.
      * destruct ((0 <=? indexOf doc "{")%Z && (0 <=? lastIndexOf doc "}")%Z
                  && (indexOf doc "{" <? lastIndexOf doc "}")%Z).
        -- rewrite Hparse. reflexivity.
        -- reflexivity.
    + rewrite length_map, length_seq. lia.
    + intros i v Hi. apply nth_error_map_seq in Hi. destruct Hi as [_ Hv].
      subst v. apply fallback_task_placeholder.
  - destruct (parse_subtasks_unparsable JSON_parse sub s N p Hsub) as [e He].
    exists (fallback_loop s p (Z.to_nat N) 0 []). split; [|split].
    + rewrite (parseSubtasksFromText_throw JSON_parse E _ _ _ _ _ _ He).
      reflexivity.
    + rewrite fallback_loop_spec. simpl List.app.
      rewrite length_map, length_seq. lia.
    + intros i v Hi. rewrite fallback_loop_spec in Hi. simpl List.app in Hi.
      apply nth_error_map_seq in Hi. destruct Hi as [_ Hv].
      subst v. apply fallback_subtask_placeholder.
Qed.

(** C10.  The fallback document for [N] tasks lists placeholders whose ids
    are exactly [1 .. N], each of priority medium and without
    dependencies, and its metadata records [totalTasks = N]; the fallback
    subtasks carry the ids [startId .. startId + N - 1] and every one has
    [parentTaskId] stamped. *)
Theorem C10_fallback_ids_are_contiguous :
  forall (N : Z) (prdPath : string) (startId : Z) (parentTaskId : value),
    (exists tasks meta,
        fallback_tasks PROJECT_NAME today N prdPath
        = VObj [("tasks", VArr tasks []); ("metadata", meta)]
        /\ map (fun t => get t "id") tasks
           = map (fun k => Some (int (Z.of_nat k + 1))) (seq 0 (Z.to_nat N))
        /\ Forall (fun t => get t "priority" = Some (VStr "medium")
                            /\ get t "dependencies" = Some (VArr [] []))
                  tasks
        /\ get meta "totalTasks" = Some (int N))
    /\ (let subtasks := fallback_loop startId parentTaskId (Z.to_nat N) 0 [] in
        map (fun t => get t "id") subtasks
        = map (fun k => Some (int (startId + Z.of_nat k))) (seq 0 (Z.to_nat N))
        /\ Forall (fun t => get t "parentTaskId" = Some parentTaskId) subtasks).
Proof.
  intros N prdPath s p. split.
  - exists (map fallback_task (seq 0 (Z.to_nat N))). eexists.
    split; [reflexivity|]. split; [|split].
    + rewrite map_map. reflexivity.
    + apply Forall_forall. intros t Ht. apply in_map_iff in Ht.
      destruct Ht as [k [Hk _]]. subst t. split; reflexivity.
    + reflexivity.
  - cbv zeta. rewrite fallback_loop_spec. simpl List.app. split.
    + rewrite map_map. apply map_ext. intros k. reflexivity.
    + apply Forall_forall. intros t Ht. apply in_map_iff in Ht.
      destruct Ht as [k [Hk _]]. subst t. reflexivity.
Qed.

(** C4 (as the code behaves).  When the bracketed slice of the text is an
    array of records whose ids convert to strings, the parser returns as
    many records, in the original order; the record at position [j] has
    its id set to [startId + j], its status set to pending and
    [parentTaskId] stamped, and keeps every other property; a correction
    is logged for exactly the records whose id disagreed.  Its
    dependencies become the empty array when the field is absent or is not
    an array; otherwise every entry that is a string is replaced by
    [parseInt(entry, 10)]: the Number value of the integer read when the
    string is numeric-looking, which is that integer itself when it is
    below [2^53] in magnitude, and [NaN] when the string is not
    numeric-looking; the other entries are kept. *)
Theorem C4_parsed_subtasks_are_normalized :
  forall (E : Type) (text : string) (startId N : Z) (parentTaskId : value)
         (items : list value),
    subtasks_parsed JSON_parse text items ->
    forallb is_record items = true ->
    printable_ids items = true ->
    exists l,
      parseSubtasksFromText (E:=E) JSON_parse text startId N parentTaskId
      = ((count_warning N items ++ corrections startId 0 items)%list, Ok l)
      /\ List.length l = List.length items
      /\ (forall j v, nth_error items j = Some v ->
            exists r,
              nth_error l j = Some r
              /\ normalizes startId parentTaskId j v r
              /\ (In (Log LWarn (CorrectingId (id_of v) (startId + Z.of_nat j)))
                     (corrections startId 0 items)
                  <-> strict_neq_int (id_of v) (startId + Z.of_nat j) = true)
              /\ (forall deps ps,
                    get v "dependencies" = Some (VArr deps ps) ->
                    normalized_dependencies v
                    = VArr (map coerce_dependency deps) [])
              /\ ((forall deps ps,
                     get v "dependencies" <> Some (VArr deps ps)) ->
                  normalized_dependencies v = VArr [] []))
      /\ (forall s, numeric_looking s = true ->
                    exists z,
                      leading_integer s = Some z
                      /\ coerce_dependency (VStr s) = VNum (nearest_double z)
                      /\ ((Z.abs z < 2 ^ 53)%Z ->
                          coerce_dependency (VStr s) = int z))
      /\ (forall s, numeric_looking s = false ->
                    coerce_dependency (VStr s) = VNum NaN)
      /\ (forall d, (forall s, d <> VStr s) -> coerce_dependency d = d).
Proof.
  intros E text s N p items Hp Hrec Hids.
  destruct (parseSubtasksFromText_records JSON_parse E text s N p items
              Hp Hrec Hids)
    as [l [Hrun [Hlen Hnth]]].
  exists l. split; [exact Hrun|]. split; [exact Hlen|]. split; [|split; [|split]].
  - intros j v Hj. destruct (Hnth j v Hj) as [r [Hr Hn]].
    exists r. split; [exact Hr|]. split; [exact Hn|]. split; [|split].
    + rewrite In_corrections. split.
      * intros [j' [v' [Hj' [Hneq Hev]]]].
        inversion Hev as [[Hid Hpos]].
        assert (j' = j) by (simpl in Hpos; lia). subst j'.
        rewrite Hj in Hj'. inversion Hj'; subst v'. exact Hneq.
      * intros Hneq. exists j, v. repeat split; assumption.
    + intros deps ps Hd. unfold normalized_dependencies. rewrite Hd.
      reflexivity.
    + intros Hd. unfold normalized_dependencies.
      destruct (get v "dependencies") as [[ | | | | | |deps ps]|];
        try reflexivity.
      exfalso. apply (Hd deps ps). reflexivity.
  - intros str Hs. destruct (parseInt10_numeric str Hs) as [z [Hz Hp10]].
    exists z. split; [exact Hz|]. cbn [coerce_dependency]. rewrite Hp10.
    split; [reflexivity|].
    intros Hsmall. rewrite (nearest_double_exact z Hsmall). reflexivity.
  - intros str Hs. simpl. rewrite (parseInt10_not_numeric str Hs). reflexivity.
  - intros d Hd. destruct d; try reflexivity.
    exfalso. apply (Hd s0). reflexivity.
Qed.


End ExtractorClaims.

(** A reply that is a JSON text without any brace, such as a bare number,
    does not reach step 3: step 1 parses it and the ladder returns it. *)
Lemma bare_number_reply_is_parsed :
  AiServices.parse_response (E:=unit) Json.JSON_parse None "2026-11-01"
    "42" 3 "prd.txt"
  = ([], AiServices.Ok (JS.VNum (JS.NInt 42))).
Proof. vm_compute. reflexivity. Qed.

(** C2 at a reply in prose, three records requested. *)
Lemma C2_witness :
  (1 <= 3)%Z
  /\ AiServices.document_unparsable Json.JSON_parse Examples.prose_text
  /\ AiServices.subtasks_unparsable Json.JSON_parse EmptyString
  /\ exists subtasks,
       AiServices.outcome
         (AiServices.parseSubtasksFromText (E:=unit) Json.JSON_parse
            EmptyString 4 3 (JS.VNum (JS.NInt 2)))
       = AiServices.Ok subtasks
       /\ Z.of_nat (List.length subtasks) = 3%Z.
Proof.
  assert (H1 : (1 <= 3)%Z) by lia.
  assert (H2 : AiServices.document_unparsable Json.JSON_parse
                 Examples.prose_text).
  { split; [vm_compute; reflexivity | left; vm_compute; reflexivity]. }
  assert (H3 : AiServices.subtasks_unparsable Json.JSON_parse EmptyString).
  { left. vm_compute. reflexivity. }
  split; [exact H1|]. split; [exact H2|]. split; [exact H3|].
  destruct (C2_unparsable_text_yields_placeholders
              Json.JSON_parse None "2026-11-01" unit 3
              Examples.prose_text "prd.txt" EmptyString 4
              (JS.VNum (JS.NInt 2)) H1 H2 H3)
    as [_ [subtasks [Hrun [Hlen _]]]].
  exists subtasks. split; [exact Hrun | exact Hlen].
Defined.

(** C4 at the reply with the records numbered 7 and 9. *)
Lemma C4_witness :
  AiServices.subtasks_parsed Json.JSON_parse Examples.two_subtasks_text
                             Examples.two_subtasks_items
  /\ forallb AiServices.is_record Examples.two_subtasks_items = true
  /\ AiServices.printable_ids Examples.two_subtasks_items = true
  /\ exists l,
       AiServices.outcome
         (AiServices.parseSubtasksFromText (E:=unit) Json.JSON_parse
            Examples.two_subtasks_text 4 2 (JS.VNum (JS.NInt 2)))
       = AiServices.Ok l
       /\ List.length l = 2.
Proof.
  assert (H1 : AiServices.subtasks_parsed Json.JSON_parse
                 Examples.two_subtasks_text Examples.two_subtasks_items).
  { split; [vm_compute; reflexivity | exists []; vm_compute; reflexivity]. }
  assert (H2 : forallb AiServices.is_record Examples.two_subtasks_items = true)
    by (vm_compute; reflexivity).
  assert (H3 : AiServices.printable_ids Examples.two_subtasks_items = true)
    by (vm_compute; reflexivity).
  split; [exact H1|]. split; [exact H2|]. split; [exact H3|].
  destruct (C4_parsed_subtasks_are_normalized
              Json.JSON_parse unit Examples.two_subtasks_text 4 2
              (JS.VNum (JS.NInt 2)) Examples.two_subtasks_items H1 H2 H3)
    as [l [Hrun [Hlen _]]].
  exists l. split; [rewrite Hrun; reflexivity | exact Hlen].
Defined.

(** C4, the claim as worded, at a dependency that is a name: the entry
    [abc] is a string, and what the parser leaves in its place is [NaN],
    which is no integer. *)
Lemma C4_counterexample_named_dependency :
  AiServices.outcome
    (AiServices.parseSubtasksFromText (E:=unit) Json.JSON_parse
       Examples.named_dependency_text 1 1 (JS.VNum (JS.NInt 2)))
  = AiServices.Ok
      [ JS.VObj [ ("id", JS.VNum (JS.NInt 1));
                  ("dependencies", JS.VArr [JS.VNum JS.NaN] []);
                  ("status", JS.VStr "pending");
                  ("parentTaskId", JS.VNum (JS.NInt 2)) ] ]
  /\ JS.is_integer (JS.VNum JS.NaN) = false.
Proof.
  split; vm_compute; reflexivity.
Qed.



(* ===================================================================== *)
(** * Properties of the stream assembler *)
(* ===================================================================== *)

Module AssemblerFacts.
Import JS AiServices.

Lemma split_nonempty :
  forall c s, split c s <> [].
Proof.
  intros c s. destruct s as [|a r]; simpl.
  - discriminate.
  - destruct (Ascii.eqb a c); [discriminate|].
    destruct (split c r); discriminate.
Qed.

Lemma split_app_sep :
  forall c s t, split c (s ++ String c t) = (split c s ++ split c t)%list.
Proof.
  intros c s t. induction s as [|a r IH].
  - simpl. rewrite Ascii.eqb_refl. reflexivity.
  - simpl. destruct (Ascii.eqb a c).
    + rewrite IH. reflexivity.
    + rewrite IH. destruct (split c r) as [|l ls] eqn:Hr; [|reflexivity].
      exfalso. exact (split_nonempty c r Hr).
Qed.

Lemma complete_lines_inv :
  forall chunk, complete_lines chunk = true ->
    chunk = EmptyString
    \/ exists s, chunk = s ++ String newline EmptyString.
Proof.
  induction chunk as [|a r IH]; intros H.
  - left. reflexivity.
  - right. destruct r as [|b r'].
    + simpl in H. apply Ascii.eqb_eq in H. subst a.
      exists EmptyString. reflexivity.
    + change (complete_lines (String b r') = true) in H.
      destruct (IH H) as [Hr | [s Hs]]; [discriminate Hr|].
      exists (String a s). simpl. rewrite <- Hs. reflexivity.
Qed.

Lemma append_assoc :
  forall a b c : string, (a ++ b) ++ c = a ++ (b ++ c).
Proof.
  induction a as [|x a IH]; intros; simpl; [reflexivity | rewrite IH; reflexivity].
Qed.

Lemma append_nil_r :
  forall a : string, a ++ EmptyString = a.
Proof.
  induction a as [|x a IH]; simpl; [reflexivity | rewrite IH; reflexivity].
Qed.

(** The lines of a whole-line fragment followed by more text are the
    lines of the fragment, then the lines of the text. *)
Lemma nonblank_lines_app :
  forall chunk rest,
    complete_lines chunk = true ->
    nonblank_lines (chunk ++ rest)
    = (nonblank_lines chunk ++ nonblank_lines rest)%list.
Proof.
  intros chunk rest H. unfold nonblank_lines.
  destruct (complete_lines_inv chunk H) as [Hc | [s Hs]]; subst chunk.
  - reflexivity.
  - rewrite append_assoc. simpl String.append at 2.
    rewrite !split_app_sep, !filter_app. simpl. rewrite app_nil_r.
    reflexivity.
Qed.

Section WithParser.
Variable JSON_parse : string -> option value.
Variable ToString : value -> string.

Lemma append_lines_app :
  forall l1 l2 acc,
    append_lines JSON_parse ToString acc (l1 ++ l2)
    = append_lines JSON_parse ToString
        (append_lines JSON_parse ToString acc l1) l2.
Proof.
  intros. unfold append_lines. apply fold_left_app.
Qed.

Lemma assemble_streamed_lines :
  forall chunks acc,
    fold_left (fun responseText chunk =>
                 append_lines JSON_parse ToString responseText
                              (nonblank_lines chunk))
              chunks acc
    = append_lines JSON_parse ToString acc (flat_map nonblank_lines chunks).
Proof.
  induction chunks as [|c cs IH]; intros acc.
  - reflexivity.
  - simpl fold_left. rewrite IH. simpl flat_map.
    rewrite append_lines_app. reflexivity.
Qed.

Lemma aligned_lines :
  forall chunks,
    line_aligned chunks = true ->
    flat_map nonblank_lines chunks = nonblank_lines (concat_chunks chunks).
Proof.
  induction chunks as [|c cs IH]; intros H.
  - reflexivity.
  - destruct cs as [|c' cs'].
    + simpl. rewrite app_nil_r, append_nil_r. reflexivity.
    + unfold line_aligned in H.
      change (removelast (c :: c' :: cs')) with (c :: removelast (c' :: cs')) in H.
      simpl forallb in H. apply andb_prop in H. destruct H as [Hc Hrest].
      change (flat_map nonblank_lines (c :: c' :: cs'))
        with (nonblank_lines c ++ flat_map nonblank_lines (c' :: cs'))%list.
      rewrite (IH Hrest).
      change (concat_chunks (c :: c' :: cs'))
        with (c ++ concat_chunks (c' :: cs')).
      rewrite nonblank_lines_app by exact Hc. reflexivity.
Qed.

(** A line whose content, if any, is a string adds that content. *)
Lemma append_line_content_text :
  forall acc line,
    trim_truthy line = true -> text_content JSON_parse line = true ->
    append_line_content JSON_parse ToString acc line
    = acc ++ content_of_line JSON_parse line.
Proof.
  intros acc line Hnb Htc.
  unfold append_line_content, content_of_line, text_content in *.
  rewrite Hnb.
  destruct (JSON_parse line) as [data|];
    [|rewrite append_nil_r; reflexivity].
  destruct (get data "message") as [m|];
    [|rewrite append_nil_r; reflexivity].
  destruct (truthy m) eqn:Hm.
  - destruct (get m "content") as [c|];
      [|rewrite append_nil_r; reflexivity].
    destruct c as [ | |b|n|s|ps|its ps];
      try (apply negb_true_iff in Htc; rewrite Htc;
           rewrite append_nil_r; reflexivity).
    simpl truthy. destruct (String.eqb s EmptyString) eqn:Hs; simpl.
    + apply String.eqb_eq in Hs. subst s. rewrite append_nil_r. reflexivity.
    + reflexivity.
  - destruct m as [ | |b|n|s|ps|its ps]; simpl in Hm |- *;
      try discriminate Hm; rewrite append_nil_r; reflexivity.
Qed.

Lemma content_of_blank :
  forall line, trim_truthy line = false ->
               content_of_line JSON_parse line = EmptyString.
Proof.
  intros line H. unfold content_of_line. rewrite H. reflexivity.
Qed.

Lemma append_lines_text :
  forall lines acc,
    forallb (text_content JSON_parse) lines = true ->
    append_lines JSON_parse ToString acc (filter trim_truthy lines)
    = acc ++ concat_chunks (map (content_of_line JSON_parse) lines).
Proof.
  induction lines as [|l ls IH]; intros acc H.
  - simpl. rewrite append_nil_r. reflexivity.
  - simpl in H. apply andb_prop in H. destruct H as [Hl Hls].
    simpl filter. simpl map. simpl concat_chunks.
    destruct (trim_truthy l) eqn:Hnb.
    + unfold append_lines. simpl fold_left.
      fold (append_lines JSON_parse ToString
              (append_line_content JSON_parse ToString acc l)
              (filter trim_truthy ls)).
      rewrite (IH _ Hls), (append_line_content_text acc l Hnb Hl).
      apply append_assoc.
    + rewrite (IH _ Hls), (content_of_blank l Hnb). reflexivity.
Qed.

End WithParser.
End AssemblerFacts.

Section AssemblerAgreement.
Import JS AiServices AssemblerFacts.

Variable JSON_parse : string -> option value.
Variable ToString : value -> string.

(** Where the two ways of reading a body agree.  For a reply made of
    lines, of which those that are JSON texts carry a string as
    [message.content] or none: received as one buffered body, the
    assembled text is the concatenation, line after line, of the contents
    carried, blank lines and lines that are not JSON texts adding nothing;
    received as fragments each of which but the last is made of whole
    lines, the assembled text is the same as for the buffered body. *)
Lemma whole_line_fragments_assemble :
  forall chunks : list string,
    line_aligned chunks = true ->
    forallb (text_content JSON_parse)
            (split newline (concat_chunks chunks)) = true ->
    assemble_buffered JSON_parse ToString (concat_chunks chunks)
    = concat_chunks (map (content_of_line JSON_parse)
                         (split newline (concat_chunks chunks)))
    /\ assemble_streamed JSON_parse ToString chunks
       = assemble_buffered JSON_parse ToString (concat_chunks chunks).
Proof.
  intros chunks Hal Htc. split.
  - unfold assemble_buffered, nonblank_lines.
    rewrite (append_lines_text JSON_parse ToString _ _ Htc). reflexivity.
  - unfold assemble_streamed, assemble_buffered.
    rewrite assemble_streamed_lines, aligned_lines by exact Hal.
    reflexivity.
Qed.

End AssemblerAgreement.

(** A reply of three lines received as three fragments, each a whole
    line. *)
Lemma whole_line_fragments_example :
  AiServices.assemble_streamed Json.JSON_parse Examples.no_conversion
    Examples.whole_line_chunks
  = "abcd"
  /\ AiServices.assemble_buffered Json.JSON_parse Examples.no_conversion
       (AiServices.concat_chunks Examples.whole_line_chunks)
     = "abcd".
Proof. split; vm_compute; reflexivity. Qed.


(* ===================================================================== *)
(** * Properties of the gateway *)
(* ===================================================================== *)

Module GatewayFacts.
Import JS AiServices ExtractorFacts.

Lemma sleeps_app :
  forall a b, sleeps (a ++ b) = (sleeps a ++ sleeps b)%list.
Proof. intros. unfold sleeps. apply flat_map_app. Qed.

Lemma attempts_app :
  forall a b, attempts (a ++ b) = attempts a + attempts b.
Proof.
  intros. unfold attempts. rewrite filter_app, length_app. reflexivity.
Qed.

(** What occurs in a text that includes [sub] includes the characters of
    [sub]. *)
Lemma prefix_mem_char :
  forall sub s c, String.prefix sub s = true ->
                  mem_char c sub = true -> mem_char c s = true.
Proof.
  induction sub as [|a sub IH]; intros s c Hp Hc.
  - discriminate Hc.
  - destruct s as [|b s]; [discriminate Hp|].
    simpl in Hp. destruct (ascii_dec a b) as [Heq|Hne]; [|discriminate Hp].
    subst b. simpl in Hc |- *.
    destruct (Ascii.eqb a c); [reflexivity|].
    simpl in Hc |- *. apply (IH s c Hp Hc).
Qed.

Lemma includes_mem_char :
  forall s sub c, includes s sub = true ->
                  mem_char c sub = true -> mem_char c s = true.
Proof.
  induction s as [|a s IH]; intros sub c Hi Hc.
  - simpl in Hi. rewrite orb_false_r in Hi.
    apply (prefix_mem_char sub EmptyString c Hi Hc).
  - simpl in Hi. apply orb_prop in Hi. destruct Hi as [Hp | Hi].
    + apply (prefix_mem_char sub (String a s) c Hp Hc).
    + simpl. rewrite (IH sub c Hi Hc). apply orb_true_r.
Qed.

Lemma string_of_uint_plain :
  forall d, all_chars plain (NilEmpty.string_of_uint d) = true.
Proof.
  induction d; simpl; try rewrite IHd; reflexivity.
Qed.

Lemma string_of_Z_plain :
  forall z, all_chars plain (string_of_Z z) = true.
Proof.
  intros z. unfold string_of_Z, NilZero.string_of_int, NilZero.string_of_uint.
  destruct (Z.to_int z) as [d|d].
  - destruct d; try reflexivity; apply (string_of_uint_plain (_ d)).
  - change (all_chars plain
              (match d with
               | Decimal.Nil => "0"
               | _ => NilEmpty.string_of_uint d
               end) = true).
    destruct d; try reflexivity; apply (string_of_uint_plain (_ d)).
Qed.

Lemma plain_lower_free :
  forall s c, all_chars plain s = true ->
              plain c = false -> lower_char c = c ->
              mem_char c (toLowerCase s) = false.
Proof.
  induction s as [|a s IH]; intros c Hs Hc Hl.
  - reflexivity.
  - simpl in Hs. apply andb_prop in Hs. destruct Hs as [Ha Hs].
    simpl. rewrite (IH c Hs Hc Hl), orb_false_r.
    destruct (Ascii.eqb (lower_char a) c) eqn:He; [|reflexivity].
    apply Ascii.eqb_eq in He.
    assert (Hla : lower_char a = a).
    { unfold plain, is_digit in Ha. unfold lower_char.
      destruct a as [[] [] [] [] [] [] [] []]; try discriminate Ha; reflexivity. }
    rewrite Hla in He. subst a. rewrite Ha in Hc. discriminate Hc.
Qed.

Lemma toLowerCase_app :
  forall a b, toLowerCase (a ++ b) = toLowerCase a ++ toLowerCase b.
Proof.
  induction a as [|x a IH]; intros b; simpl; [|rewrite IH]; reflexivity.
Qed.

Lemma mem_char_app :
  forall c a b, mem_char c (a ++ b) = mem_char c a || mem_char c b.
Proof.
  induction a as [|x a IH]; intros b; simpl.
  - reflexivity.
  - rewrite IH, orb_assoc. reflexivity.
Qed.

(** The message that stands for a failure whose body names no error,
    [HTTP error N], carries none of the transient signatures. *)
Lemma http_error_default_not_retryable :
  forall st member,
    truthy member = false ->
    retryable (http_error st member) = Some false.
Proof.
  intros st member Hfalsy.
  assert (Hfree : forall c, plain c = false -> lower_char c = c ->
                    mem_char c "http error " = false ->
                    mem_char c (toLowerCase ("HTTP error " ++ string_of_Z st))
                    = false).
  { intros c Hc Hl Hm. rewrite toLowerCase_app, mem_char_app.
    change (toLowerCase "HTTP error ") with "http error ". rewrite Hm.
    apply plain_lower_free; [apply string_of_Z_plain | exact Hc | exact Hl]. }
  assert (Ht : includes (toLowerCase ("HTTP error " ++ string_of_Z st))
                        "timeout" = false).
  { destruct (includes _ "timeout") eqn:Hi; [|reflexivity].
    apply (includes_mem_char _ _ "m"%char) in Hi; [|reflexivity].
    rewrite (Hfree "m"%char) in Hi by reflexivity. discriminate Hi. }
  assert (Hn : includes (toLowerCase ("HTTP error " ++ string_of_Z st))
                        "network" = false).
  { destruct (includes _ "network") eqn:Hi; [|reflexivity].
    apply (includes_mem_char _ _ "w"%char) in Hi; [|reflexivity].
    rewrite (Hfree "w"%char) in Hi by reflexivity. discriminate Hi. }
  unfold retryable, code_is, message_includes, http_error.
  cbn [code message]. rewrite Hfalsy, Ht, Hn. reflexivity.
Qed.

(** The condition holds exactly for the errors that carry one of the
    signatures. *)
Lemma retryable_signature :
  forall e, retryable e = Some true <-> transient_signature e.
Proof.
  intros e. unfold retryable, transient_signature, code_is, message_includes.
  split.
  - intros H.
    destruct (code e) as [c|].
    + destruct (String.eqb c "ECONNREFUSED") eqn:H1.
      { left. apply String.eqb_eq in H1. subst c. reflexivity. }
      destruct (String.eqb c "ENOTFOUND") eqn:H2.
      { right. left. apply String.eqb_eq in H2. subst c. reflexivity. }
      cbn [orb] in H. right. right.
      destruct (message e) as [ | | | |m| | ]; try discriminate H.
      exists m. split; [reflexivity|].
      destruct (includes (toLowerCase m) "timeout");
        [left; reflexivity | right].
      injection H as H'. exact H'.
    + cbn [orb] in H. right. right.
      destruct (message e) as [ | | | |m| | ]; try discriminate H.
      exists m. split; [reflexivity|].
      destruct (includes (toLowerCase m) "timeout");
        [left; reflexivity | right].
      injection H as H'. exact H'.
  - intros [H | [H | [m [Hm Hw]]]].
    + rewrite H. reflexivity.
    + rewrite H. rewrite orb_true_r. reflexivity.
    + rewrite Hm.
      destruct (match code e with
                | Some c' => String.eqb c' "ECONNREFUSED"
                | None => false
                end || match code e with
                       | Some c' => String.eqb c' "ENOTFOUND"
                       | None => false
                       end); [reflexivity|].
      destruct Hw as [Hw | Hw].
      * rewrite Hw. reflexivity.
      * destruct (includes (toLowerCase m) "timeout");
          [reflexivity | rewrite Hw; reflexivity].
Qed.

Section WithEnvironment.
Variable JSON_parse : string -> option value.
Variable ToString : value -> string.
Variable OLLAMA_API_URL OLLAMA_MODEL : string.
Variable PROJECT_NAME : option string.
Variable today : string.

(** When the condition can be evaluated, the user message has been
    computed. *)
Lemma retryable_handled :
  forall e b,
    retryable e = Some b ->
    exists userMessage,
      handleOllamaError OLLAMA_API_URL OLLAMA_MODEL e = Some userMessage.
Proof.
  intros e b H. unfold retryable in H. unfold handleOllamaError.
  destruct (code_is e "ECONNREFUSED" || code_is e "ENOTFOUND");
    [eexists; reflexivity|].
  destruct (type_is e "request-timeout").
  { eexists. reflexivity. }
  unfold network_or_default.
  destruct (message_includes e "timeout") as [[|]|] eqn:Ht;
    [eexists; reflexivity | | discriminate H].
  destruct (message_includes e "network") as [[|]|] eqn:Hn;
    try discriminate H;
    destruct (status e) as [st|]; try (eexists; reflexivity);
    destruct (st =? 0)%Z; try (eexists; reflexivity);
    destruct (st =? 404)%Z; try (eexists; reflexivity);
    destruct (st =? 400)%Z; try (eexists; reflexivity);
    destruct (st =? 500)%Z; eexists; reflexivity.
Qed.

(** The time-out that [fetch] reports reads [network timeout at: URL]. *)
Lemma fetch_timeout_is_retryable :
  forall c t st url,
    retryable {| code := c; etype := t; status := st;
                 message := VStr ("network timeout at: " ++ url) |}
    = Some true.
Proof.
  intros. apply retryable_signature. right. right.
  eexists. split; [reflexivity|]. right.
  cbn [message]. rewrite toLowerCase_app. reflexivity.
Qed.

(** No sleep and no new request happen inside [handleStreamingRequest]. *)
Lemma parse_response_quiet :
  forall E text numTasks prdPath,
    let evs := events (parse_response (E:=E) JSON_parse PROJECT_NAME today
                                      text numTasks prdPath) in
    sleeps evs = [] /\ attempts evs = 0.
Proof.
  intros E text N path. unfold parse_response.
  destruct (JSON_parse text); [split; reflexivity|].
  destruct ((0 <=? indexOf text "{")%Z && (0 <=? lastIndexOf text "}")%Z
            && (indexOf text "{" <? lastIndexOf text "}")%Z);
    [|split; reflexivity].
  destruct (JSON_parse _); split; reflexivity.
Qed.

Lemma handleStreamingRequest_quiet :
  forall numTasks prdPath response,
    let evs := events (handleStreamingRequest JSON_parse ToString
                         PROJECT_NAME today numTasks prdPath response) in
    sleeps evs = [] /\ attempts evs = 0.
Proof.
  intros N path response. unfold handleStreamingRequest.
  assert (Hok : forall text,
            let evs := events
              (bind (E:=error) (ret text) (fun responseText =>
                 emit (Log LInfo (Text "Response received, processing...")) ;;;
                 parse_response JSON_parse PROJECT_NAME today
                   (processOllamaResponse responseText) N path)) in
            sleeps evs = [] /\ attempts evs = 0).
  { intros text. cbv zeta. rewrite bind_ret_l.
    unfold emit. rewrite bind_ok.
    destruct (parse_response_quiet error (processOllamaResponse text) N path)
      as [Hs Ha].
    unfold after, events in *. cbn [fst].
    rewrite sleeps_app, attempts_app, Hs, Ha. split; reflexivity. }
  destruct response; try (split; reflexivity); apply Hok.
Qed.

End WithEnvironment.
End GatewayFacts.
Section GatewayClaims.
Import JS AiServices ExtractorFacts GatewayFacts.

Variable JSON_parse : string -> option value.
Variable ToString : value -> string.
Variable OLLAMA_API_URL OLLAMA_MODEL : string.
Variable PROJECT_NAME : option string.
Variable today : string.

(** One request that succeeds ends the call. *)
Lemma callClaude_ok :
  forall numTasks prdPath net retryCount evs response,
    handleStreamingRequest JSON_parse ToString PROJECT_NAME today
                           numTasks prdPath (net 0) = (evs, Ok response) ->
    callClaude JSON_parse ToString OLLAMA_API_URL OLLAMA_MODEL PROJECT_NAME
               today numTasks prdPath net retryCount
    = (Log LInfo (Text "Calling Ollama...") :: evs, Ok response).
Proof.
  intros N path net r evs v H.
  rewrite callClaude_equation. rewrite H. reflexivity.
Qed.

(** A failure whose message makes [handleOllamaError] raise ends the call
    with that [TypeError]: nothing is logged, nothing is printed. *)
Lemma callClaude_raise :
  forall numTasks prdPath net retryCount evs e,
    handleStreamingRequest JSON_parse ToString PROJECT_NAME today
                           numTasks prdPath (net 0) = (evs, Throw e) ->
    handleOllamaError OLLAMA_API_URL OLLAMA_MODEL e = None ->
    callClaude JSON_parse ToString OLLAMA_API_URL OLLAMA_MODEL PROJECT_NAME
               today numTasks prdPath net retryCount
    = (Log LInfo (Text "Calling Ollama...") :: evs, Throw MessageTypeError).
Proof.
  intros N path net r evs e H Hm.
  rewrite callClaude_equation. rewrite H.
  unfold after. cbn [fst snd List.app]. rewrite Hm. reflexivity.
Qed.

(** A transient failure with budget left: sleep, then call again. *)
Lemma callClaude_retry :
  forall numTasks prdPath net retryCount evs e userMessage,
    handleStreamingRequest JSON_parse ToString PROJECT_NAME today
                           numTasks prdPath (net 0) = (evs, Throw e) ->
    handleOllamaError OLLAMA_API_URL OLLAMA_MODEL e = Some userMessage ->
    decide_retry retryCount e = Retry ->
    callClaude JSON_parse ToString OLLAMA_API_URL OLLAMA_MODEL PROJECT_NAME
               today numTasks prdPath net retryCount
    = after (Log LInfo (Text "Calling Ollama...") :: evs
             ++ [ Log LError (Text userMessage);
                  Log LInfo (WaitingBeforeRetry
                               ((Z.of_nat retryCount + 1) * 5000 / 1000)
                               (retryCount + 1));
                  Sleep ((Z.of_nat retryCount + 1) * 5000) ])
            (callClaude JSON_parse ToString OLLAMA_API_URL OLLAMA_MODEL
                        PROJECT_NAME today numTasks prdPath
                        (fun n => net (S n)) (retryCount + 1)).
Proof.
  intros N path net r evs e m H Hm Hd.
  rewrite callClaude_equation at 1. rewrite H.
  unfold after at 1. cbn [fst snd List.app]. rewrite Hm, Hd. reflexivity.
Qed.

(** A failure that is not retried: print the message and throw it. *)
Lemma callClaude_give_up :
  forall numTasks prdPath net retryCount evs e userMessage,
    handleStreamingRequest JSON_parse ToString PROJECT_NAME today
                           numTasks prdPath (net 0) = (evs, Throw e) ->
    handleOllamaError OLLAMA_API_URL OLLAMA_MODEL e = Some userMessage ->
    decide_retry retryCount e = GiveUp ->
    callClaude JSON_parse ToString OLLAMA_API_URL OLLAMA_MODEL PROJECT_NAME
               today numTasks prdPath net retryCount
    = ((Log LInfo (Text "Calling Ollama...") :: evs
        ++ [ Log LError (Text userMessage); ConsoleError userMessage ])%list,
       Throw (UserError userMessage)).
Proof.
  intros N path net r evs e m H Hm Hd.
  rewrite callClaude_equation. rewrite H.
  unfold after. cbn [fst snd List.app]. rewrite Hm, Hd. reflexivity.
Qed.

(** A failure whose message makes the retry condition raise, the user
    message having been logged. *)
Lemma callClaude_condition_raises :
  forall numTasks prdPath net retryCount evs e userMessage,
    handleStreamingRequest JSON_parse ToString PROJECT_NAME today
                           numTasks prdPath (net 0) = (evs, Throw e) ->
    handleOllamaError OLLAMA_API_URL OLLAMA_MODEL e = Some userMessage ->
    decide_retry retryCount e = Raise ->
    callClaude JSON_parse ToString OLLAMA_API_URL OLLAMA_MODEL PROJECT_NAME
               today numTasks prdPath net retryCount
    = ((Log LInfo (Text "Calling Ollama...") :: evs
        ++ [Log LError (Text userMessage)])%list,
       Throw MessageTypeError).
Proof.
  intros N path net r evs e m H Hm Hd.
  rewrite callClaude_equation. rewrite H.
  unfold after. cbn [fst snd List.app]. rewrite Hm, Hd. reflexivity.
Qed.

Lemma decide_retry_spent :
  forall retryCount e, 2 <= retryCount -> decide_retry retryCount e = GiveUp.
Proof.
  intros r e Hr. unfold decide_retry.
  assert (H : (r <? 2) = false) by (apply Nat.ltb_ge; exact Hr).
  rewrite H. reflexivity.
Qed.

Lemma decide_retry_Retry :
  forall retryCount e,
    decide_retry retryCount e = Retry <->
    retryCount < 2 /\ retryable e = Some true.
Proof.
  intros r e. unfold decide_retry.
  destruct (r <? 2) eqn:Hr.
  - apply Nat.ltb_lt in Hr.
    destruct (retryable e) as [[|]|]; split;
      try (intros H; discriminate H);
      try (intros [_ H]; discriminate H).
    + intros _. split; [exact Hr | reflexivity].
    + intros _. reflexivity.
  - apply Nat.ltb_ge in Hr. split; [intros H; discriminate H|].
    intros [H _]. lia.
Qed.

Lemma request_quiet :
  forall numTasks prdPath response evs r,
    handleStreamingRequest JSON_parse ToString PROJECT_NAME today
                           numTasks prdPath response = (evs, r) ->
    sleeps evs = [] /\ attempts evs = 0.
Proof.
  intros N path response evs r H.
  pose proof (handleStreamingRequest_quiet JSON_parse ToString PROJECT_NAME
                today N path response) as Hq.
  cbv zeta in Hq. rewrite H in Hq. exact Hq.
Qed.

(** Starting with [retryCount] retries already spent, a call sleeps at
    most [2 - retryCount] times and issues at most one request more than
    that. *)
Lemma callClaude_bounded :
  forall budget numTasks prdPath net retryCount,
    2 - retryCount <= budget ->
    let evs := events (callClaude JSON_parse ToString OLLAMA_API_URL
                                  OLLAMA_MODEL PROJECT_NAME today numTasks
                                  prdPath net retryCount) in
    List.length (sleeps evs) <= 2 - retryCount
    /\ attempts evs <= 1 + (2 - retryCount).
Proof.
  induction budget as [|budget IH]; intros N path net r Hb; cbv zeta;
    destruct (handleStreamingRequest JSON_parse ToString PROJECT_NAME today
                N path (net 0)) as [evs [v|e]] eqn:Hreq;
    destruct (request_quiet _ _ _ _ _ Hreq) as [Hs Ha];
    try (rewrite (callClaude_ok _ _ _ _ _ _ Hreq); unfold events; cbn [fst];
         change (Log LInfo (Text "Calling Ollama...") :: evs)
           with ([Log LInfo (Text "Calling Ollama...")] ++ evs)%list;
         rewrite sleeps_app, attempts_app, Hs, Ha;
         cbn -[Nat.sub Z.mul Z.add Z.div]; lia);
    (destruct (handleOllamaError OLLAMA_API_URL OLLAMA_MODEL e)
       as [m|] eqn:Hm;
     [|rewrite (callClaude_raise _ _ _ _ _ _ Hreq Hm); unfold events;
       cbn [fst];
       change (Log LInfo (Text "Calling Ollama...") :: evs)
         with ([Log LInfo (Text "Calling Ollama...")] ++ evs)%list;
       rewrite sleeps_app, attempts_app, Hs, Ha;
       cbn -[Nat.sub Z.mul Z.add Z.div]; lia]);
    destruct (decide_retry r e) eqn:Hd;
    try (rewrite (callClaude_give_up _ _ _ _ _ _ _ Hreq Hm Hd);
         unfold events; cbn [fst];
         change (Log LInfo (Text "Calling Ollama...") :: evs ++ ?l)%list
           with ([Log LInfo (Text "Calling Ollama...")] ++ evs ++ l)%list;
         rewrite !sleeps_app, !attempts_app, Hs, Ha;
         cbn -[Nat.sub Z.mul Z.add Z.div]; lia);
    try (rewrite (callClaude_condition_raises _ _ _ _ _ _ _ Hreq Hm Hd);
         unfold events; cbn [fst];
         change (Log LInfo (Text "Calling Ollama...") :: evs ++ ?l)%list
           with ([Log LInfo (Text "Calling Ollama...")] ++ evs ++ l)%list;
         rewrite !sleeps_app, !attempts_app, Hs, Ha;
         cbn -[Nat.sub Z.mul Z.add Z.div]; lia).
  - apply decide_retry_Retry in Hd. lia.
  - pose proof Hd as Hd'. apply decide_retry_Retry in Hd'.
    destruct Hd' as [Hr _].
    rewrite (callClaude_retry _ _ _ _ _ _ _ Hreq Hm Hd).
    assert (Hb' : 2 - (r + 1) <= budget) by lia.
    specialize (IH N path (fun n => net (S n)) (r + 1) Hb').
    cbv zeta in IH. destruct IH as [IHs IHa].
    unfold after, events in *. cbn [fst].
    change (Log LInfo (Text "Calling Ollama...") :: evs ++ ?l)%list
      with ([Log LInfo (Text "Calling Ollama...")] ++ evs ++ l)%list.
    rewrite !sleeps_app, !attempts_app, Hs, Ha, !length_app.
    cbn -[Nat.sub Z.mul Z.add Z.div]. lia.
Qed.

(** An answer with a status that is not a success and with an error text
    that carries no transient signature: the call fails at once with the
    user message, which the status decides. *)
Lemma http_failure_fails_at_once :
  forall numTasks prdPath net retryCount st member,
    net 0 = NotOk st member ->
    retryable (http_error st member) = Some false ->
    let e := http_error st member in
    let userMessage :=
      if (st =? 0)%Z then
        "Error communicating with Ollama: " ++ message_or_unknown e
      else if (st =? 404)%Z then
        "Model " ++ String dquote OLLAMA_MODEL
        ++ String dquote " not found. You may need to run: ollama pull "
        ++ OLLAMA_MODEL
      else if (st =? 400)%Z then
        "Bad request to Ollama API. The prompt might be malformed."
      else if (st =? 500)%Z then
        "Ollama server error. Check the Ollama logs for more details."
      else
        "Ollama API error (" ++ string_of_Z st ++ "): "
        ++ message_or_unknown e in
    handleOllamaError OLLAMA_API_URL OLLAMA_MODEL e = Some userMessage
    /\ callClaude JSON_parse ToString OLLAMA_API_URL OLLAMA_MODEL
                  PROJECT_NAME today numTasks prdPath net retryCount
       = ([ Log LInfo (Text "Calling Ollama...");
            Log LError (Text userMessage);
            ConsoleError userMessage ],
          Throw (UserError userMessage)).
Proof.
  intros N path net r st member Hnet Hnr e userMessage.
  assert (Hreq : handleStreamingRequest JSON_parse ToString PROJECT_NAME
                   today N path (net 0) = ([], Throw e)).
  { unfold handleStreamingRequest. rewrite Hnet. reflexivity. }
  assert (Hd : decide_retry r e = GiveUp).
  { unfold decide_retry. fold e in Hnr. rewrite Hnr.
    destruct (r <? 2); reflexivity. }
  assert (Hmsg : handleOllamaError OLLAMA_API_URL OLLAMA_MODEL e
                 = Some userMessage).
  { fold e in Hnr. unfold retryable in Hnr. unfold handleOllamaError.
    assert (Hcode : code_is e "ECONNREFUSED" || code_is e "ENOTFOUND" = false)
      by reflexivity.
    rewrite Hcode in Hnr |- *.
    assert (Hty : type_is e "request-timeout" = false) by reflexivity.
    rewrite Hty. unfold network_or_default.
    destruct (message_includes e "timeout") as [[|]|];
      try discriminate Hnr.
    rewrite Hnr.
    change (status e) with (Some st). unfold userMessage.
    destruct (st =? 0)%Z; [reflexivity|].
    destruct (st =? 404)%Z; [reflexivity|].
    destruct (st =? 400)%Z; [reflexivity|].
    destruct (st =? 500)%Z; reflexivity. }
  split; [exact Hmsg|].
  rewrite (callClaude_give_up N path net r [] e userMessage Hreq Hmsg Hd).
  reflexivity.
Qed.

(** C3 (as the code behaves).  When the first two requests of a call fail
    with an error that carries a signature the retry test recognizes (the
    code [ECONNREFUSED] or [ENOTFOUND], or a message that holds [timeout]
    or [network]) and the third request succeeds, the call returns what
    the third request returned, having slept exactly twice, 5000 ms and
    then 10000 ms, and having issued three requests.  Whatever the network
    does, a call sleeps at most twice and issues at most three
    requests. *)
Theorem C3_two_transient_failures_then_success :
  forall (numTasks : Z) (prdPath : string) (net : nat -> fetch_outcome)
         (e1 e2 : error) (response : value),
    outcome (handleStreamingRequest JSON_parse ToString PROJECT_NAME today
               numTasks prdPath (net 0)) = Throw e1 ->
    transient_signature e1 ->
    outcome (handleStreamingRequest JSON_parse ToString PROJECT_NAME today
               numTasks prdPath (net 1)) = Throw e2 ->
    transient_signature e2 ->
    outcome (handleStreamingRequest JSON_parse ToString PROJECT_NAME today
               numTasks prdPath (net 2)) = Ok response ->
    let run := callClaude JSON_parse ToString OLLAMA_API_URL OLLAMA_MODEL
                          PROJECT_NAME today numTasks prdPath net 0 in
    outcome run = Ok response
    /\ sleeps (events run) = [5000; 10000]%Z
    /\ attempts (events run) = 3
    /\ (forall net',
          let run' := callClaude JSON_parse ToString OLLAMA_API_URL
                        OLLAMA_MODEL PROJECT_NAME today numTasks prdPath
                        net' 0 in
          List.length (sleeps (events run')) <= 2
          /\ attempts (events run') <= 3).
Proof.
  intros N path net e1 e2 v H1 He1 H2 He2 H3 run.
  apply retryable_signature in He1, He2.
  destruct (retryable_handled OLLAMA_API_URL OLLAMA_MODEL e1 true He1)
    as [m1 Hm1].
  destruct (retryable_handled OLLAMA_API_URL OLLAMA_MODEL e2 true He2)
    as [m2 Hm2].
  destruct (handleStreamingRequest JSON_parse ToString PROJECT_NAME today
              N path (net 0)) as [evs1 r1] eqn:R1.
  destruct (handleStreamingRequest JSON_parse ToString PROJECT_NAME today
              N path (net 1)) as [evs2 r2] eqn:R2.
  destruct (handleStreamingRequest JSON_parse ToString PROJECT_NAME today
              N path (net 2)) as [evs3 r3] eqn:R3.
  unfold outcome in H1, H2, H3. cbn [snd] in H1, H2, H3. subst r1 r2 r3.
  destruct (request_quiet _ _ _ _ _ R1) as [S1 A1].
  destruct (request_quiet _ _ _ _ _ R2) as [S2 A2].
  destruct (request_quiet _ _ _ _ _ R3) as [S3 A3].
  assert (Hrun : run
    = ((([Log LInfo (Text "Calling Ollama...")] ++ evs1
         ++ [ Log LError (Text m1);
              Log LInfo (WaitingBeforeRetry 5 1); Sleep 5000 ])
        ++ ([Log LInfo (Text "Calling Ollama...")] ++ evs2
            ++ [ Log LError (Text m2);
                 Log LInfo (WaitingBeforeRetry 10 2); Sleep 10000 ])
        ++ [Log LInfo (Text "Calling Ollama...")] ++ evs3)%list,
       Ok v)).
  { unfold run.
    assert (L0 : 0 < 2) by lia. assert (L1 : 0 + 1 < 2) by lia.
    rewrite (callClaude_retry N path net 0 evs1 e1 m1 R1 Hm1
               (proj2 (decide_retry_Retry 0 e1) (conj L0 He1))).
    rewrite (callClaude_retry N path (fun n => net (S n)) (0 + 1) evs2 e2 m2
               R2 Hm2
               (proj2 (decide_retry_Retry (0 + 1) e2) (conj L1 He2))).
    rewrite (callClaude_ok N path (fun n => net (S (S n))) (0 + 1 + 1)
               evs3 v R3).
    reflexivity. }
  split; [rewrite Hrun; reflexivity|].
  split; [|split].
  - rewrite Hrun. unfold events. cbn [fst].
    rewrite !sleeps_app, S1, S2, S3. reflexivity.
  - rewrite Hrun. unfold events. cbn [fst].
    rewrite !attempts_app, A1, A2, A3. reflexivity.
  - intros net'. cbv zeta.
    pose proof (callClaude_bounded 2 N path net' 0 ltac:(lia)) as Hb.
    cbv zeta in Hb. simpl in Hb. exact Hb.
Qed.

End GatewayClaims.

(** C3, the claim as worded, at a connection that times out: the first
    two requests fail with [ETIMEDOUT], an error that carries none of the
    signatures, and the third would succeed; the call fails at the first
    failure, after one request and no wait. *)
Lemma C3_counterexample_connection_timed_out :
  AiServices.outcome
    (AiServices.handleStreamingRequest Json.JSON_parse Examples.no_conversion
       None "2026-11-01" 3 "prd.txt" (Examples.slow_until_third_request 0))
  = AiServices.Throw Examples.connection_timed_out
  /\ AiServices.outcome
       (AiServices.handleStreamingRequest Json.JSON_parse
          Examples.no_conversion None "2026-11-01" 3 "prd.txt"
          (Examples.slow_until_third_request 1))
     = AiServices.Throw Examples.connection_timed_out
  /\ AiServices.outcome
       (AiServices.handleStreamingRequest Json.JSON_parse
          Examples.no_conversion None "2026-11-01" 3 "prd.txt"
          (Examples.slow_until_third_request 2))
     = AiServices.Ok (JS.VObj [("tasks", JS.VArr [] []);
                               ("metadata", JS.VObj [])])
  /\ AiServices.callClaude Json.JSON_parse Examples.no_conversion
       "http://localhost:11434" "llama3" None "2026-11-01"
       3 "prd.txt" Examples.slow_until_third_request 0
     = ([ AiServices.Log AiServices.LInfo
            (AiServices.Text "Calling Ollama...");
          AiServices.Log AiServices.LError
            (AiServices.Text "Error communicating with Ollama: request to http://localhost:11434/api/chat failed, reason: connect ETIMEDOUT 127.0.0.1:11434");
          AiServices.ConsoleError "Error communicating with Ollama: request to http://localhost:11434/api/chat failed, reason: connect ETIMEDOUT 127.0.0.1:11434" ],
        AiServices.Throw
          (AiServices.UserError "Error communicating with Ollama: request to http://localhost:11434/api/chat failed, reason: connect ETIMEDOUT 127.0.0.1:11434")).
Proof.
  split; [reflexivity|]. split; [reflexivity|].
  split; [vm_compute; reflexivity|].
  rewrite (callClaude_give_up Json.JSON_parse Examples.no_conversion
             "http://localhost:11434" "llama3" None "2026-11-01"
             3 "prd.txt" Examples.slow_until_third_request 0 []
             Examples.connection_timed_out
             "Error communicating with Ollama: request to http://localhost:11434/api/chat failed, reason: connect ETIMEDOUT 127.0.0.1:11434");
    reflexivity.
Qed.

(** C6.  The claim fails when the body of the answer gives its error as
    an object.  At the status 404 with the body whose [error] is the
    object of a message and a code: no user message is made, the call
    throws the [TypeError] of [toLowerCase] on a value that is not a
    string, and nothing is logged or printed beside the announcement of
    the call; with the error given as a string the same status yields the
    message that names the model and the command that pulls it. *)
Theorem C6_object_valued_error_hides_the_remedy :
  AiServices.handleOllamaError "http://localhost:11434" "llama3"
    (AiServices.http_error 404
       (JS.VObj [ ("message", JS.VStr "model not found");
                  ("code", JS.VNum (JS.NInt 404)) ]))
  = None
  /\ AiServices.callClaude Json.JSON_parse Examples.no_conversion
       "http://localhost:11434" "llama3" None "2026-11-01"
       3 "prd.txt" Examples.model_missing_object 0
     = ([AiServices.Log AiServices.LInfo
           (AiServices.Text "Calling Ollama...")],
        AiServices.Throw AiServices.MessageTypeError)
  /\ AiServices.outcome
       (AiServices.callClaude Json.JSON_parse Examples.no_conversion
          "http://localhost:11434" "llama3" None "2026-11-01"
          3 "prd.txt" Examples.model_missing 0)
     = AiServices.Throw
         (AiServices.UserError
            (JS.dq "Model 'llama3' not found. You may need to run: ollama pull llama3")).
Proof.
  split; [reflexivity|]. split.
  - rewrite (callClaude_raise Json.JSON_parse Examples.no_conversion
               "http://localhost:11434" "llama3" None "2026-11-01"
               3 "prd.txt" Examples.model_missing_object 0 []
               (AiServices.http_error 404
                  (JS.VObj [ ("message", JS.VStr "model not found");
                             ("code", JS.VNum (JS.NInt 404)) ])));
      reflexivity.
  - destruct (http_failure_fails_at_once Json.JSON_parse
                Examples.no_conversion "http://localhost:11434" "llama3"
                None "2026-11-01" 3 "prd.txt" Examples.model_missing 0
                404 (JS.VStr (JS.dq "model 'llama3' not found, try pulling it first"))
                eq_refl eq_refl) as [_ Hrun].
    rewrite Hrun. reflexivity.
Qed.

(* ===================================================================== *)
(** * Properties of the dependency graph manager *)
(* ===================================================================== *)

Module GraphFacts.
Import DependencyManager.

Lemma ref_eqb_eq : forall a b, ref_eqb a b = true <-> a = b.
Proof.
  intros [x|p x] [y|q y]; simpl; split; intros H; try discriminate H.
  - apply Z.eqb_eq in H. subst. reflexivity.
  - inversion H. apply Z.eqb_refl.
  - apply andb_prop in H. destruct H as [H1 H2].
    apply Z.eqb_eq in H1. apply Z.eqb_eq in H2. subst. reflexivity.
  - inversion H. rewrite !Z.eqb_refl. reflexivity.
Qed.

Lemma ref_eqb_neq : forall a b, ref_eqb a b = false <-> a <> b.
Proof.
  intros a b. split.
  - intros H E. apply ref_eqb_eq in E. rewrite E in H. discriminate H.
  - intros H. destruct (ref_eqb a b) eqn:E; [|reflexivity].
    apply ref_eqb_eq in E. contradiction.
Qed.

Lemma mem_ref_In : forall r l, mem_ref r l = true <-> In r l.
Proof.
  intros r l. unfold mem_ref. rewrite existsb_exists. split.
  - intros [x [Hx He]]. apply ref_eqb_eq in He. subst x. exact Hx.
  - intros H. exists r. split; [exact H | apply ref_eqb_eq; reflexivity].
Qed.

Lemma mem_ref_not_In : forall r l, mem_ref r l = false <-> ~ In r l.
Proof.
  intros r l. rewrite <- mem_ref_In. destruct (mem_ref r l); split;
    intros H; try reflexivity; try discriminate H; try (intros E; discriminate E).
  exfalso. apply H. reflexivity.
Qed.

Lemma filter_length_le :
  forall A (p q : A -> bool) l,
    (forall u, p u = true -> q u = true) ->
    List.length (filter p l) <= List.length (filter q l).
Proof.
  intros A p q l Hpq. induction l as [|u l IH]; [apply le_n|].
  simpl. destruct (p u) eqn:Hp.
  - rewrite (Hpq u Hp). simpl. lia.
  - destruct (q u); simpl; lia.
Qed.

Lemma filter_length_lt :
  forall A (p q : A -> bool) l x,
    (forall u, p u = true -> q u = true) ->
    In x l -> p x = false -> q x = true ->
    S (List.length (filter p l)) <= List.length (filter q l).
Proof.
  intros A p q l x Hpq. induction l as [|u l IH]; intros Hx Hp Hq.
  - destruct Hx.
  - simpl. destruct Hx as [Hx | Hx].
    + subst u. rewrite Hp, Hq. simpl.
      pose proof (filter_length_le A p q l Hpq). lia.
    + specialize (IH Hx Hp Hq). destruct (p u) eqn:Hpu.
      * rewrite (Hpq u Hpu). simpl. lia.
      * destruct (q u); simpl; lia.
Qed.

(** ** Where references and edges live *)

Lemma resolves_entity :
  forall c r, resolves c r = true -> In r (entities c).
Proof.
  intros c r H. unfold resolves, resolve in H. unfold entities.
  apply in_flat_map.
  destruct r as [id | p local].
  - unfold find_task in H.
    destruct (find (fun t => (task_id t =? id)%Z) c) as [t|] eqn:Hf;
      [|discriminate H].
    apply find_some in Hf. destruct Hf as [Ht Hid].
    apply Z.eqb_eq in Hid. exists t. split; [exact Ht|]. left.
    rewrite Hid. reflexivity.
  - unfold find_task in H.
    destruct (find (fun t => (task_id t =? p)%Z) c) as [t|] eqn:Hf;
      [|discriminate H].
    apply find_some in Hf. destruct Hf as [Ht Hid].
    apply Z.eqb_eq in Hid. unfold find_subtask in H.
    destruct (find (fun s => (sub_id s =? local)%Z) (subtasks t)) as [s|] eqn:Hs;
      [|discriminate H].
    apply find_some in Hs. destruct Hs as [Hs Hl]. apply Z.eqb_eq in Hl.
    exists t. split; [exact Ht|]. right. apply in_map_iff.
    exists s. split; [|exact Hs]. rewrite Hid, Hl. reflexivity.
Qed.

Lemma length_flat_map_le :
  forall A B (f : A -> list B) l x,
    In x l -> List.length (f x) <= List.length (flat_map f l).
Proof.
  intros A B f l x. induction l as [|a l IH]; intros H.
  - destruct H.
  - simpl. rewrite length_app. destruct H as [H | H].
    + subst a. lia.
    + specialize (IH H). lia.
Qed.

(** The outgoing edges of any reference are among the edges of the
    collection, in membership and in number. *)
Lemma deps_of_edges :
  forall c x,
    incl (deps_of c x) (all_edges c)
    /\ List.length (deps_of c x) <= List.length (all_edges c).
Proof.
  intros c x. unfold deps_of, resolve.
  assert (Hnil : incl (@nil ref) (all_edges c)
                 /\ List.length (@nil ref) <= List.length (all_edges c)).
  { split; [intros z Hz; destruct Hz | simpl; lia]. }
  destruct x as [id | p local].
  - unfold find_task.
    destruct (find (fun t => (task_id t =? id)%Z) c) as [t|] eqn:Hf;
      [|exact Hnil].
    apply find_some in Hf. destruct Hf as [Ht _]. simpl. split.
    + intros z Hz. unfold all_edges. apply in_flat_map.
      exists t. split; [exact Ht|]. apply in_or_app. left. exact Hz.
    + pose proof (length_flat_map_le _ _
                    (fun t => task_dependencies t
                              ++ flat_map sub_dependencies (subtasks t))%list
                    c t Ht) as Hl.
      cbv beta in Hl. rewrite length_app in Hl. unfold all_edges. lia.
  - unfold find_task.
    destruct (find (fun t => (task_id t =? p)%Z) c) as [t|] eqn:Hf;
      [|exact Hnil].
    apply find_some in Hf. destruct Hf as [Ht _]. unfold find_subtask.
    destruct (find (fun s => (sub_id s =? local)%Z) (subtasks t)) as [s|] eqn:Hs;
      [|exact Hnil].
    apply find_some in Hs. destruct Hs as [Hs _]. simpl. split.
    + intros z Hz. unfold all_edges. apply in_flat_map.
      exists t. split; [exact Ht|]. apply in_or_app. right.
      apply in_flat_map. exists s. split; [exact Hs | exact Hz].
    + pose proof (length_flat_map_le _ _
                    (fun t => task_dependencies t
                              ++ flat_map sub_dependencies (subtasks t))%list
                    c t Ht) as Hl.
      pose proof (length_flat_map_le _ _ sub_dependencies (subtasks t) s Hs)
        as Hl'.
      cbv beta in Hl. rewrite length_app in Hl. unfold all_edges. lia.
Qed.

Lemma has_edge_In :
  forall c x z, has_edge c x z = true <-> In z (deps_of c x).
Proof. intros. unfold has_edge. apply mem_ref_In. Qed.

(** ** Paths *)

(** Every entity on a path is the source or an edge target. *)
Lemma path_nodes :
  forall c p x y, path c x p y = true ->
                  forall z, In z p -> In z (all_edges c).
Proof.
  intros c p. induction p as [|w p IH]; intros x y H z Hz.
  - destruct Hz.
  - simpl in H. apply andb_prop in H. destruct H as [He Hp].
    destruct Hz as [Hz | Hz].
    + subst z. apply has_edge_In in He.
      apply (proj1 (deps_of_edges c x)). exact He.
    + apply (IH w y Hp z Hz).
Qed.

Lemma path_end :
  forall c p x y, path c x p y = true -> p <> [] -> In y p.
Proof.
  intros c p. induction p as [|w p IH]; intros x y H Hne.
  - contradiction.
  - simpl in H. apply andb_prop in H. destruct H as [_ Hp].
    destruct p as [|w' p'].
    + simpl in Hp. apply ref_eqb_eq in Hp. left. exact Hp.
    + right. apply (IH w y Hp). discriminate.
Qed.

(** On a path to [t] through [x], with [x] other than [t], some edge
    leaves [x] for the start of a path to [t] that avoids [x] and stays
    within the entities of the first. *)
Lemma path_after_last_visit :
  forall c t x p w,
    path c w p t = true -> In x (w :: p) -> x <> t ->
    exists y q,
      In y (deps_of c x) /\ path c y q t = true
      /\ ~ In x (y :: q) /\ incl (y :: q) p.
Proof.
  intros c t x p. induction p as [|z p IH]; intros w Hp Hx Hne.
  - simpl in Hp. apply ref_eqb_eq in Hp. subst w.
    destruct Hx as [Hx | []]. exfalso. apply Hne. symmetry. exact Hx.
  - simpl in Hp. apply andb_prop in Hp. destruct Hp as [He Hp].
    destruct (mem_ref x (z :: p)) eqn:Hm.
    + apply mem_ref_In in Hm.
      destruct (IH z Hp Hm Hne) as [y [q [Hy [Hq [Hav Hin]]]]].
      exists y, q. repeat split; try assumption.
      intros u Hu. right. apply Hin. exact Hu.
    + apply mem_ref_not_In in Hm.
      destruct Hx as [Hx | Hx]; [|contradiction].
      subst w. exists z, p. repeat split.
      * apply has_edge_In. exact He.
      * exact Hp.
      * exact Hm.
      * apply incl_refl.
Qed.

(** ** The search finds every path *)

Section Search.
Variable c : collection.
Variable target : ref.

Lemma unvisited_decreases :
  forall visited x,
    In x (nodes c) -> ~ In x visited ->
    S (unvisited c (x :: visited)) <= unvisited c visited.
Proof.
  intros visited x Hx Hv. unfold unvisited.
  apply (filter_length_lt _ _ _ (nodes c) x).
  - intros u Hu. apply negb_true_iff in Hu. apply negb_true_iff.
    apply mem_ref_not_In. apply mem_ref_not_In in Hu.
    intros H. apply Hu. right. exact H.
  - exact Hx.
  - apply negb_false_iff. apply mem_ref_In. left. reflexivity.
  - apply negb_true_iff. apply mem_ref_not_In. exact Hv.
Qed.

Lemma promising_pop :
  forall visited x rest,
    promising c target visited (x :: rest) -> In x visited ->
    promising c target visited rest.
Proof.
  intros visited x rest [w [p [Hw [Hp Hav]]]] Hx.
  exists w, p. repeat split; try assumption.
  destruct Hw as [Hw | Hw]; [|exact Hw].
  subst w. exfalso. apply (Hav x); [left; reflexivity | exact Hx].
Qed.

Lemma promising_expand :
  forall visited x rest,
    promising c target visited (x :: rest) -> x <> target ->
    promising c target (x :: visited) (deps_of c x ++ rest).
Proof.
  intros visited x rest [w [p [Hw [Hp Hav]]]] Hne.
  destruct (mem_ref x (w :: p)) eqn:Hm.
  - apply mem_ref_In in Hm.
    destruct (path_after_last_visit c target x p w Hp Hm Hne)
      as [y [q [Hy [Hq [Hnx Hin]]]]].
    exists y, q. repeat split.
    + apply in_or_app. left. exact Hy.
    + exact Hq.
    + intros z Hz [Hzx | Hzv].
      * subst z. apply Hnx. exact Hz.
      * apply (Hav z); [right; apply Hin; exact Hz | exact Hzv].
  - apply mem_ref_not_In in Hm.
    exists w, p. repeat split.
    + apply in_or_app. right. destruct Hw as [Hw | Hw]; [|exact Hw].
      subst w. exfalso. apply Hm. left. reflexivity.
    + exact Hp.
    + intros z Hz [Hzx | Hzv].
      * subst z. apply Hm. exact Hz.
      * apply (Hav z Hz Hzv).
Qed.

Lemma dfs_complete :
  forall fuel visited stack,
    promising c target visited stack ->
    incl stack (nodes c) ->
    potential c visited stack < fuel ->
    dfs fuel c target visited stack = true.
Proof.
  induction fuel as [|fuel IH]; intros visited stack Hpr Hin Hpot.
  - lia.
  - destruct stack as [|x rest].
    + destruct Hpr as [w [_ [[] _]]].
    + simpl dfs. destruct (ref_eqb x target) eqn:Hxt; [reflexivity|].
      apply ref_eqb_neq in Hxt.
      assert (Hrest : incl rest (nodes c)).
      { intros z Hz. apply Hin. right. exact Hz. }
      destruct (mem_ref x visited) eqn:Hxv.
      * apply mem_ref_In in Hxv. apply IH.
        -- apply (promising_pop visited x rest Hpr Hxv).
        -- exact Hrest.
        -- unfold potential in *. simpl List.length in Hpot. lia.
      * apply mem_ref_not_In in Hxv. apply IH.
        -- apply (promising_expand visited x rest Hpr Hxt).
        -- intros z Hz. apply in_app_or in Hz. destruct Hz as [Hz | Hz].
           ++ unfold nodes. apply in_or_app. right.
              apply (proj1 (deps_of_edges c x)). exact Hz.
           ++ apply Hrest. exact Hz.
        -- pose proof (unvisited_decreases visited x
                         (Hin x (or_introl eq_refl)) Hxv) as Hdec.
           pose proof (proj2 (deps_of_edges c x)) as Hdeg.
           unfold potential in *. rewrite length_app.
           simpl List.length in Hpot.
           assert (Hmul : (1 + List.length (all_edges c))
                          * S (unvisited c (x :: visited))
                          <= (1 + List.length (all_edges c))
                             * unvisited c visited)
             by (apply Nat.mul_le_mono_l; exact Hdec).
           rewrite Nat.mul_succ_r in Hmul. lia.
Qed.

End Search.

Lemma unvisited_start :
  forall c, unvisited c [] = List.length (nodes c).
Proof.
  intros c. unfold unvisited. generalize (nodes c). intros l.
  induction l as [|u l IH]; [reflexivity|].
  simpl. f_equal. exact IH.
Qed.

(** The search of [addDependency] answers yes whenever a path exists. *)
Lemma reaches_complete :
  forall c from p target,
    In from (nodes c) -> path c from p target = true ->
    reaches c from target = true.
Proof.
  intros c from p target Hin Hp. unfold reaches.
  apply dfs_complete.
  - exists from, p. repeat split.
    + left. reflexivity.
    + exact Hp.
    + intros z _ [].
  - intros z [Hz | []]. subst z. exact Hin.
  - unfold potential, search_budget. rewrite unvisited_start.
    simpl List.length. lia.
Qed.

(** ** The search finds only paths *)

Lemma path_snoc :
  forall c p a x z,
    path c a p x = true -> has_edge c x z = true ->
    path c a (p ++ [z]) z = true.
Proof.
  intros c p. induction p as [|w p IH]; intros a x z Hp He.
  - simpl in Hp. apply ref_eqb_eq in Hp. subst x. simpl.
    rewrite He. apply ref_eqb_eq. reflexivity.
  - simpl in Hp. apply andb_prop in Hp. destruct Hp as [Hw Hp].
    simpl. rewrite Hw. apply (IH w x z Hp He).
Qed.

Lemma dfs_sound :
  forall c target from fuel visited stack,
    (forall w, In w stack -> exists p, path c from p w = true) ->
    dfs fuel c target visited stack = true ->
    exists p, path c from p target = true.
Proof.
  intros c target from. induction fuel as [|fuel IH];
    intros visited stack Hst Hd.
  - discriminate Hd.
  - destruct stack as [|x rest]; [discriminate Hd|].
    simpl in Hd. destruct (ref_eqb x target) eqn:Hxt.
    + apply ref_eqb_eq in Hxt. subst x. apply Hst. left. reflexivity.
    + assert (Hrest : forall w, In w rest -> exists p, path c from p w = true).
      { intros w Hw. apply Hst. right. exact Hw. }
      destruct (mem_ref x visited).
      * apply (IH visited rest Hrest Hd).
      * apply (IH (x :: visited) (deps_of c x ++ rest)%list); [|exact Hd].
        intros w Hw. apply in_app_or in Hw. destruct Hw as [Hw | Hw].
        -- destruct (Hst x (or_introl eq_refl)) as [p Hp].
           exists (p ++ [w])%list. apply (path_snoc c p from x w Hp).
           apply has_edge_In. exact Hw.
        -- apply Hrest. exact Hw.
Qed.

Lemma reaches_sound :
  forall c from target,
    reaches c from target = true ->
    exists p, path c from p target = true.
Proof.
  intros c from target H. unfold reaches in H.
  apply (dfs_sound c target from _ _ _) in H; [exact H|].
  intros w [Hw | []]. subst w. exists []. simpl.
  apply ref_eqb_eq. reflexivity.
Qed.

(** With both references resolved, distinct and not yet linked, a path
    from [d] back to [r] makes [addDependency] answer [CycleError] and
    leave the collection as it was. *)
Lemma addDependency_cycle :
  forall c r d p,
    resolves c r = true -> resolves c d = true ->
    r <> d -> has_edge c r d = false ->
    path c d p r = true ->
    addDependency c r d = (Rejected CycleError, c).
Proof.
  intros c r d p Hr Hd Hne He Hp. unfold addDependency.
  rewrite Hr, Hd. cbn [negb].
  apply ref_eqb_neq in Hne. rewrite Hne, He.
  rewrite (reaches_complete c d p r); [reflexivity | | exact Hp].
  unfold nodes. apply in_or_app. left. apply resolves_entity. exact Hd.
Qed.

Lemma deps_resolves :
  forall c x z, In z (deps_of c x) -> resolves c x = true.
Proof.
  intros c x z H. unfold deps_of in H. unfold resolves.
  destruct (resolve c x); [reflexivity | destruct H].
Qed.

(** What the invariants say, edge by edge. *)
Lemma acyclic_no_return :
  forall c x z p,
    acyclic c = true ->
    In z (deps_of c x) -> path c z p x = true -> False.
Proof.
  intros c x z p Hac Hz Hp. unfold acyclic in Hac.
  rewrite forallb_forall in Hac.
  assert (Hx : In x (entities c)).
  { apply resolves_entity. apply (deps_resolves c x z Hz). }
  specialize (Hac x Hx). apply negb_true_iff in Hac.
  assert (Hex : existsb (fun z => reaches c z x) (deps_of c x) = true).
  { apply existsb_exists. exists z. split; [exact Hz|].
    apply (reaches_complete c z p x); [|exact Hp].
    unfold nodes. apply in_or_app. right.
    apply (proj1 (deps_of_edges c x)). exact Hz. }
  rewrite Hex in Hac. discriminate Hac.
Qed.

(** The check [acyclic] says what its name says: no entity is reached
    again from one of its own dependencies. *)
Lemma acyclic_spec :
  forall c,
    acyclic c = true <->
    (forall x z p, In z (deps_of c x) -> path c z p x = true -> False).
Proof.
  intros c. split.
  - intros Hac x z p. apply (acyclic_no_return c x z p Hac).
  - intros H. unfold acyclic. apply forallb_forall. intros x _.
    apply negb_true_iff.
    destruct (existsb (fun z => reaches c z x) (deps_of c x)) eqn:Hex;
      [|reflexivity].
    apply existsb_exists in Hex. destruct Hex as [z [Hz Hr]].
    apply reaches_sound in Hr. destruct Hr as [p Hp].
    exfalso. apply (H x z p Hz Hp).
Qed.

(** When no path leads from [d] back to [r], and the earlier checks pass,
    the edge is appended. *)
Lemma addDependency_adds :
  forall c r d,
    resolves c r = true -> resolves c d = true ->
    r <> d -> has_edge c r d = false ->
    (forall p, path c d p r = false) ->
    addDependency c r d = (EdgeAdded, append_edge c r d).
Proof.
  intros c r d Hr Hd Hne He Hno. unfold addDependency.
  rewrite Hr, Hd. cbn [negb].
  apply ref_eqb_neq in Hne. rewrite Hne, He.
  destruct (reaches c d r) eqn:Hre; [|reflexivity].
  apply reaches_sound in Hre. destruct Hre as [p Hp].
  rewrite Hno in Hp. discriminate Hp.
Qed.

End GraphFacts.




(* ===================================================================== *)
(** * The shared research client *)
(* ===================================================================== *)

Module ClientFacts.
Import AiServices.

(** One call: the stored client, once there, stays; a client returned is
    the stored one; a construction happens only on an empty store. *)
Lemma getPerplexityClient_step :
  forall key st,
    let '(r, st') := getPerplexityClient key st in
    (forall c, perplexity st = Some c -> perplexity st' = Some c /\ st' = st)
    /\ (forall c, r = Ok c -> perplexity st' = Some c)
    /\ (perplexity st = None ->
        (st' = st \/ (constructed st' = S (constructed st)
                      /\ perplexity st' <> None))).
Proof.
  intros key st. unfold getPerplexityClient.
  destruct (perplexity st) as [c0|] eqn:Hp.
  - split; [|split].
    + intros c H. inversion H; subst. split; [exact Hp | reflexivity].
    + intros c H. inversion H; subst. exact Hp.
    + intros H. discriminate H.
  - assert (Hfail : forall msg : string,
              (forall c, @None client = Some c ->
                         perplexity st = Some c /\ st = st)
              /\ (forall c, @Throw string client msg = Ok c ->
                            perplexity st = Some c)
              /\ (@None client = None ->
                  st = st \/ (constructed st = S (constructed st)
                              /\ perplexity st <> None))).
    { intros msg. split; [|split].
      - intros c H. discriminate H.
      - intros c H. discriminate H.
      - intros _. left. reflexivity. }
    destruct key as [k|]; [|apply Hfail].
    destruct (String.eqb k EmptyString); [apply Hfail|].
    split; [|split].
    + intros c H. discriminate H.
    + intros c H. inversion H; subst. reflexivity.
    + intros _. right. split; [reflexivity | discriminate].
Qed.

Lemma calls_invariant :
  forall keys st,
    well_counted st ->
    well_counted (snd (calls keys st))
    /\ (forall c, perplexity st = Some c ->
                  perplexity (snd (calls keys st)) = Some c)
    /\ (forall c, In (Ok c) (fst (calls keys st)) ->
                  perplexity (snd (calls keys st)) = Some c).
Proof.
  induction keys as [|k keys IH]; intros st Hwc.
  - simpl. split; [exact Hwc|]. split; [intros c Hc; exact Hc | intros c []].
  - simpl calls.
    pose proof (getPerplexityClient_step k st) as Hstep.
    destruct (getPerplexityClient k st) as [r st1] eqn:Hcall.
    destruct Hstep as [Hkeep [Hret Hnew]].
    assert (Hwc1 : well_counted st1).
    { unfold well_counted in *.
      destruct (perplexity st) as [c0|] eqn:Hp.
      - destruct (Hkeep c0 eq_refl) as [_ Hst]. subst st1.
        rewrite Hp. exact Hwc.
      - destruct (Hnew eq_refl) as [Hst | [Hcnt Hsome]].
        + subst st1. rewrite Hp. exact Hwc.
        + destruct (perplexity st1); [lia | contradiction]. }
    destruct (IH st1 Hwc1) as [Hwc2 [Hkeep2 Hret2]].
    destruct (calls keys st1) as [rs st2] eqn:Hrest.
    cbn [fst snd] in *. repeat split.
    + exact Hwc2.
    + intros c Hc. apply Hkeep2. apply (Hkeep c Hc).
    + intros c [Hc | Hc].
      * apply Hkeep2. apply Hret. exact Hc.
      * apply Hret2. exact Hc.
Qed.

End ClientFacts.

(** C9.  Over any run of calls from the start of the process, whatever
    the configuration at each call: at most one client is constructed and
    all the calls that return, return the same client object.  The first
    call constructs one client when the key is configured and fails with
    an error when it is not; once a client is stored, a call returns it
    and constructs nothing. *)
Theorem C9_client_is_constructed_at_most_once :
  forall keys : list (option string),
    let run := AiServices.calls keys AiServices.initial_state in
    AiServices.constructed (snd run) <= 1
    /\ (forall c1 c2,
          In (AiServices.Ok c1) (fst run) ->
          In (AiServices.Ok c2) (fst run) -> c1 = c2)
    /\ (forall key,
          AiServices.key_present key = true ->
          exists c,
            AiServices.getPerplexityClient key AiServices.initial_state
            = (AiServices.Ok c,
               {| AiServices.perplexity := Some c;
                  AiServices.constructed := 1 |}))
    /\ (forall key,
          AiServices.key_present key = false ->
          exists msg,
            AiServices.getPerplexityClient key AiServices.initial_state
            = (AiServices.Throw msg, AiServices.initial_state))
    /\ (forall key c n,
          AiServices.getPerplexityClient key
            {| AiServices.perplexity := Some c;
               AiServices.constructed := n |}
          = (AiServices.Ok c,
             {| AiServices.perplexity := Some c;
                AiServices.constructed := n |})).
Proof.
  intros keys run.
  assert (Hwc0 : AiServices.well_counted AiServices.initial_state)
    by reflexivity.
  destruct (ClientFacts.calls_invariant keys AiServices.initial_state Hwc0)
    as [Hwc [_ Hret]].
  fold run in Hwc, Hret.
  split; [|split; [|split; [|split]]].
  - unfold AiServices.well_counted in Hwc.
    destruct (AiServices.perplexity (snd run)); lia.
  - intros c1 c2 H1 H2. apply Hret in H1. apply Hret in H2.
    rewrite H1 in H2. inversion H2. reflexivity.
  - intros [k|] Hk; [|discriminate Hk].
    unfold AiServices.key_present in Hk. apply negb_true_iff in Hk.
    unfold AiServices.getPerplexityClient. simpl. rewrite Hk.
    eexists. reflexivity.
  - intros [k|] Hk.
    + unfold AiServices.key_present in Hk. apply negb_false_iff in Hk.
      unfold AiServices.getPerplexityClient. simpl. rewrite Hk.
      eexists. reflexivity.
    + eexists. reflexivity.
  - intros key c n. reflexivity.
Qed.

(** C3 at a server that comes up before the third request. *)
Lemma C3_witness :
  AiServices.outcome
    (AiServices.handleStreamingRequest Json.JSON_parse Examples.no_conversion
       None "2026-11-01" 3 "prd.txt" (Examples.up_at_third_request 0))
  = AiServices.Throw Examples.connection_refused
  /\ AiServices.transient_signature Examples.connection_refused
  /\ AiServices.outcome
       (AiServices.handleStreamingRequest Json.JSON_parse Examples.no_conversion
          None "2026-11-01" 3 "prd.txt" (Examples.up_at_third_request 2))
     = AiServices.Ok (JS.VObj [("tasks", JS.VArr [] []);
                               ("metadata", JS.VObj [])])
  /\ AiServices.sleeps
       (AiServices.events
          (AiServices.callClaude Json.JSON_parse Examples.no_conversion
             "http://localhost:11434" "llama3" None "2026-11-01"
             3 "prd.txt" Examples.up_at_third_request 0))
     = [5000; 10000]%Z.
Proof.
  assert (H1 : AiServices.outcome
                 (AiServices.handleStreamingRequest Json.JSON_parse
                    Examples.no_conversion None "2026-11-01" 3 "prd.txt"
                    (Examples.up_at_third_request 0))
               = AiServices.Throw Examples.connection_refused)
    by reflexivity.
  assert (H2 : AiServices.transient_signature Examples.connection_refused)
    by (left; reflexivity).
  assert (H3 : AiServices.outcome
                 (AiServices.handleStreamingRequest Json.JSON_parse
                    Examples.no_conversion None "2026-11-01" 3 "prd.txt"
                    (Examples.up_at_third_request 2))
               = AiServices.Ok (JS.VObj [("tasks", JS.VArr [] []);
                                         ("metadata", JS.VObj [])]))
    by (vm_compute; reflexivity).
  split; [exact H1|]. split; [exact H2|]. split; [exact H3|].
  exact (proj1 (proj2
           (C3_two_transient_failures_then_success
              Json.JSON_parse Examples.no_conversion
              "http://localhost:11434" "llama3" None "2026-11-01"
              3 "prd.txt" Examples.up_at_third_request
              Examples.connection_refused Examples.connection_refused
              (JS.VObj [("tasks", JS.VArr [] []); ("metadata", JS.VObj [])])
              H1 H2 H1 H2 H3))).
Defined.

(* ===================================================================== *)
(** * The normalizer, beyond its fixed points *)
(* ===================================================================== *)

Module NormalizerGrowth.
Import JS AiServices Generation.

Lemma unescape_single_quotes_no_quote :
  forall s, mem_char squote s = false -> unescape_single_quotes s = s.
Proof.
  induction s as [|c r IH]; intros Hq; [reflexivity|].
  cbn [mem_char] in Hq. apply orb_false_iff in Hq. destruct Hq as [Hc Hr].
  cbn [unescape_single_quotes]. destruct r as [|c' r']; [reflexivity|].
  assert (Hc' : Ascii.eqb c' squote = false).
  { cbn [mem_char] in Hr. apply orb_false_iff in Hr. apply Hr. }
  rewrite Hc', andb_false_r. f_equal. apply IH, Hr.
Qed.

Lemma ahead_escape_backslashes :
  forall r, not_escape_char_ahead (escape_backslashes r)
            = not_escape_char_ahead r.
Proof.
  destruct r as [|c r]; [reflexivity|].
  cbn [escape_backslashes].
  destruct (Ascii.eqb c backslash && not_escape_char_ahead r) eqn:Hb;
    [|reflexivity].
  apply andb_prop in Hb. destruct Hb as [Hc _].
  apply Ascii.eqb_eq in Hc. subst c. reflexivity.
Qed.

Lemma mem_squote_escape_backslashes :
  forall s, mem_char squote (escape_backslashes s) = mem_char squote s.
Proof.
  induction s as [|c r IH]; [reflexivity|].
  cbn [escape_backslashes].
  destruct (Ascii.eqb c backslash && not_escape_char_ahead r) eqn:Hb.
  - apply andb_prop in Hb. destruct Hb as [Hc _].
    apply Ascii.eqb_eq in Hc. subst c.
    cbn [mem_char]. rewrite IH. reflexivity.
  - cbn [mem_char]. rewrite IH. reflexivity.
Qed.

Lemma length_escape_backslashes :
  forall s, String.length (escape_backslashes s)
            = String.length s + doubled s.
Proof.
  induction s as [|c r IH]; [reflexivity|].
  cbn [escape_backslashes doubled].
  destruct (Ascii.eqb c backslash && not_escape_char_ahead r);
    cbn [String.length]; rewrite IH; lia.
Qed.

Lemma doubled_escape_backslashes :
  forall s, doubled (escape_backslashes s) = 2 * doubled s.
Proof.
  induction s as [|c r IH]; [reflexivity|].
  cbn [escape_backslashes doubled].
  destruct (Ascii.eqb c backslash && not_escape_char_ahead r) eqn:Hb.
  - cbn [doubled]. rewrite ahead_escape_backslashes, IH.
    apply andb_prop in Hb. destruct Hb as [Hc Ha].
    rewrite Ha. replace (Ascii.eqb backslash backslash) with true by reflexivity.
    cbn [andb not_escape_char_ahead]. 
    replace (negb (Ascii.eqb backslash dquote || mem_char backslash "ntbfr/"))
      with true by reflexivity.
    lia.
  - cbn [doubled]. rewrite ahead_escape_backslashes, Hb, IH. lia.
Qed.

Lemma doubled_zero :
  forall s, doubled s = 0 <-> escapes_recognized s = true.
Proof.
  induction s as [|c r IH]; [split; reflexivity|].
  cbn [doubled escapes_recognized].
  destruct (Ascii.eqb c backslash && not_escape_char_ahead r).
  - split; [lia | discriminate].
  - cbn [negb andb]. rewrite <- IH. lia.
Qed.

Lemma processOllamaResponse_steps :
  forall text,
    processOllamaResponse text
    = escape_backslashes (unescape_single_quotes text).
Proof.
  intros text. unfold processOllamaResponse.
  apply NormalizerFacts.fix_quote_escaping_id.
Qed.

Lemma processOllamaResponse_no_quote :
  forall x, mem_char squote x = false ->
            processOllamaResponse x = escape_backslashes x.
Proof.
  intros x Hq. rewrite processOllamaResponse_steps.
  rewrite unescape_single_quotes_no_quote by exact Hq. reflexivity.
Qed.

Lemma normalize_times_S :
  forall n x, normalize_times (S n) x
              = normalize_times n (processOllamaResponse x).
Proof.
  intros n x. unfold normalize_times. apply Nat.iter_succ_r.
Qed.

Lemma normalize_times_growth :
  forall n x, mem_char squote x = false ->
    String.length (normalize_times n x)
    = String.length x + (2 ^ n - 1) * doubled x.
Proof.
  induction n as [|n IH]; intros x Hq.
  - cbn. lia.
  - rewrite normalize_times_S, processOllamaResponse_no_quote by exact Hq.
    rewrite IH by (rewrite mem_squote_escape_backslashes; exact Hq).
    rewrite length_escape_backslashes, doubled_escape_backslashes.
    assert (Hp : 1 <= 2 ^ n) by (apply Nat.neq_0_lt_0, Nat.pow_nonzero; lia).
    rewrite Nat.pow_succ_r'. nia.
Qed.

End NormalizerGrowth.

(** X1.  Step 3 of [processOllamaResponse] never changes the text it is
    given, whatever character is taken to stand before it: the function is
    step 1 (a backslash before a single quote is dropped) followed by
    step 2 (a backslash not followed by a double quote or one of
    [n t b f r /] is doubled), and nothing else. *)
Theorem X1_third_replacement_is_inert :
  forall text : string,
    (forall prev, AiServices.fix_quote_escaping prev text = text)
    /\ AiServices.processOllamaResponse text
       = AiServices.escape_backslashes
           (AiServices.unescape_single_quotes text).
Proof.
  intros text. split.
  - intros prev. apply NormalizerFacts.fix_quote_escaping_id.
  - apply NormalizerGrowth.processOllamaResponse_steps.
Qed.

(** X2.  On a text without single quote, [processOllamaResponse] returns
    the text unchanged exactly when every backslash of it ends the text or
    stands before a double quote or one of [n t b f r /]; a text without
    backslash is always returned unchanged. *)
Theorem X2_fixed_points_of_the_normalizer :
  forall x : string,
    JS.mem_char JS.squote x = false ->
    (AiServices.processOllamaResponse x = x
     <-> AiServices.escapes_recognized x = true)
    /\ (JS.mem_char JS.backslash x = false ->
        AiServices.processOllamaResponse x = x).
Proof.
  intros x Hq.
  assert (Hiff : AiServices.processOllamaResponse x = x
                 <-> AiServices.escapes_recognized x = true).
  { split.
    - intros Hfix. apply NormalizerGrowth.doubled_zero.
      apply (f_equal String.length) in Hfix.
      rewrite NormalizerGrowth.processOllamaResponse_no_quote in Hfix
        by exact Hq.
      rewrite NormalizerGrowth.length_escape_backslashes in Hfix. lia.
    - intros Hrec. apply NormalizerFacts.processOllamaResponse_clean, Hrec. }
  split; [exact Hiff|].
  intros Hb. apply Hiff.
  clear Hq Hiff. induction x as [|c r IH]; [reflexivity|].
  cbn [JS.mem_char] in Hb. apply orb_false_iff in Hb. destruct Hb as [Hc Hr].
  cbn [AiServices.escapes_recognized]. rewrite Hc. cbn [andb negb].
  apply IH, Hr.
Qed.

Lemma X2_witness :
  JS.mem_char JS.squote Examples.two_subtasks_text = false
  /\ AiServices.processOllamaResponse Examples.two_subtasks_text
     = Examples.two_subtasks_text.
Proof.
  split; [reflexivity|].
  apply (X2_fixed_points_of_the_normalizer Examples.two_subtasks_text);
    reflexivity.
Defined.

(** X3.  Applying [processOllamaResponse] again and again to a text
    without single quote never settles unless the first application
    already changed nothing: after [n] applications the text is longer by
    [(2^n - 1)] times the number of backslashes that step 2 doubles in the
    original, since each application doubles that number. *)
Theorem X3_repeated_normalization_grows :
  forall (x : string) (n : nat),
    JS.mem_char JS.squote x = false ->
    String.length (Generation.normalize_times n x)
    = String.length x + (2 ^ n - 1) * Generation.doubled x
    /\ Generation.doubled (AiServices.processOllamaResponse x)
       = 2 * Generation.doubled x
    /\ (Generation.doubled x = 0 <-> AiServices.escapes_recognized x = true).
Proof.
  intros x n Hq. split; [|split].
  - apply NormalizerGrowth.normalize_times_growth, Hq.
  - rewrite NormalizerGrowth.processOllamaResponse_no_quote by exact Hq.
    apply NormalizerGrowth.doubled_escape_backslashes.
  - apply NormalizerGrowth.doubled_zero.
Qed.

Lemma X3_witness :
  JS.mem_char JS.squote Scenarios.lone_backslash_text = false
  /\ String.length (Generation.normalize_times 3 Scenarios.lone_backslash_text)
     = 15.
Proof.
  split; [reflexivity|].
  exact (proj1 (X3_repeated_normalization_grows
                  Scenarios.lone_backslash_text 3 eq_refl)).
Defined.

(* ===================================================================== *)
(** * The extraction ladder on replies wrapped in prose *)
(* ===================================================================== *)

Module SliceFacts.
Import JS.

Lemma indexOf_from_app :
  forall c pre r i,
    mem_char c pre = false ->
    indexOf_from c (pre ++ String c r) i
    = (i + Z.of_nat (String.length pre))%Z.
Proof.
  intros c pre r. induction pre as [|a pre IH]; intros i Hm.
  - cbn. rewrite Ascii.eqb_refl. lia.
  - cbn [mem_char] in Hm. apply orb_false_iff in Hm. destruct Hm as [Ha Hp].
    cbn [String.append indexOf_from String.length]. rewrite Ha.
    rewrite IH by exact Hp. lia.
Qed.

Lemma lastIndexOf_from_absent :
  forall c s i found,
    mem_char c s = false -> lastIndexOf_from c s i found = found.
Proof.
  intros c s. induction s as [|a s IH]; intros i found Hm; [reflexivity|].
  cbn [mem_char] in Hm. apply orb_false_iff in Hm. destruct Hm as [Ha Hs].
  cbn [lastIndexOf_from]. rewrite Ha. apply IH, Hs.
Qed.

Lemma lastIndexOf_from_app :
  forall c s post i found,
    mem_char c post = false ->
    lastIndexOf_from c (s ++ String c post) i found
    = (i + Z.of_nat (String.length s))%Z.
Proof.
  intros c s post. induction s as [|a s IH]; intros i found Hm.
  - cbn [String.append lastIndexOf_from String.length].
    rewrite Ascii.eqb_refl.
    rewrite lastIndexOf_from_absent by exact Hm. cbn. lia.
  - cbn [String.append lastIndexOf_from String.length].
    rewrite IH by exact Hm. lia.
Qed.

Lemma substring_prefix :
  forall body post,
    String.substring 0 (String.length body) (body ++ post) = body.
Proof.
  induction body as [|a body IH]; intros post.
  - cbn. destruct post; reflexivity.
  - cbn [String.append String.length String.substring]. rewrite IH.
    reflexivity.
Qed.

Lemma substring_middle :
  forall pre body post,
    String.substring (String.length pre) (String.length body)
                     (pre ++ body ++ post) = body.
Proof.
  induction pre as [|a pre IH]; intros body post.
  - cbn [String.append String.length]. apply substring_prefix.
  - cbn [String.append String.length String.substring]. apply IH.
Qed.

Lemma length_append :
  forall a b, String.length (a ++ b) = String.length a + String.length b.
Proof.
  induction a as [|c a IH]; intros b; [reflexivity|].
  cbn [String.append String.length]. rewrite IH. reflexivity.
Qed.

(** The slice between the first [o] and the last [c] of a text that wraps
    [o mid c] in text without [o] before and without [c] after. *)
Lemma delimited_slice :
  forall o c pre mid post,
    mem_char o pre = false -> mem_char c post = false ->
    let text := pre ++ String o (mid ++ String c post) in
    indexOf text o = Z.of_nat (String.length pre)
    /\ lastIndexOf text c
       = Z.of_nat (String.length pre + String.length mid + 1)
    /\ substring text (indexOf text o) (lastIndexOf text c + 1)
       = String o (mid ++ String c EmptyString).
Proof.
  intros o c pre mid post Ho Hc text.
  assert (Hi : indexOf text o = Z.of_nat (String.length pre)).
  { unfold indexOf, text. rewrite indexOf_from_app by exact Ho. lia. }
  assert (Hl : lastIndexOf text c
               = Z.of_nat (String.length pre + String.length mid + 1)).
  { unfold lastIndexOf, text.
    replace (pre ++ String o (mid ++ String c post))
      with ((pre ++ String o mid) ++ String c post).
    - rewrite lastIndexOf_from_app by exact Hc.
      rewrite length_append. cbn [String.length]. lia.
    - rewrite AssemblerFacts.append_assoc. reflexivity. }
  split; [exact Hi|]. split; [exact Hl|].
  rewrite Hi, Hl. unfold substring.
  assert (Hlen : String.length text
                 = String.length pre + (String.length mid + 2)
                   + String.length post).
  { unfold text. rewrite length_append. cbn [String.length].
    rewrite length_append. cbn [String.length]. lia. }
  rewrite Hlen. cbv zeta.
  replace (Z.to_nat _) with (String.length pre) by lia.
  replace (Z.to_nat _) with (String.length (String o (mid ++ String c EmptyString)))
    by (cbn [String.length]; rewrite length_append; cbn [String.length]; lia).
  unfold text.
  replace (pre ++ String o (mid ++ String c post))
    with (pre ++ String o (mid ++ String c EmptyString) ++ post).
  - apply substring_middle.
  - cbn [String.append]. rewrite AssemblerFacts.append_assoc. reflexivity.
Qed.

End SliceFacts.

Section LadderExtras.
Import JS AiServices Generation ExtractorFacts.

Variable JSON_parse : string -> option value.
Variable PROJECT_NAME : option string.
Variable today : string.

(** X4.  A task document wrapped in prose is recovered: when the text is
    an object text [{ mid }] preceded by text without opening brace and
    followed by text without closing brace, and that object text parses,
    [handleStreamingRequest]'s ladder returns the parse of the whole text
    if the whole text is itself a JSON text, and the parse of the object
    text otherwise; it never falls back to placeholders. *)
Theorem X4_document_wrapped_in_prose_is_recovered :
  forall (E : Type) (pre mid post : string) (v : value)
         (numTasks : Z) (prdPath : string),
    mem_char "{" pre = false ->
    mem_char "}" post = false ->
    JSON_parse (String "{" (mid ++ "}")) = Some v ->
    let text := pre ++ String "{" (mid ++ String "}" post) in
    outcome (parse_response (E:=E) JSON_parse PROJECT_NAME today
                            text numTasks prdPath)
    = Ok (match JSON_parse text with
          | Some whole => whole
          | None => v
          end)
    /\ (JSON_parse text = None ->
        events (parse_response (E:=E) JSON_parse PROJECT_NAME today
                               text numTasks prdPath)
        = [ Log LDebug FailedToParseResponse;
            Log LDebug (JsonIndices
                          (Z.of_nat (String.length pre))
                          (Z.of_nat (String.length pre
                                     + String.length mid + 1)));
            Log LDebug (ExtractedJson
                          (substring (String "{" (mid ++ "}")) 0 500)) ]).
Proof.
  intros E pre mid post v N prdPath Hpre Hpost Hv text.
  destruct (SliceFacts.delimited_slice "{" "}" pre mid post Hpre Hpost)
    as [Hi [Hl Hs]].
  fold text in Hi, Hl, Hs.
  unfold parse_response.
  destruct (JSON_parse text) as [whole|] eqn:Hwhole.
  - split; [reflexivity | discriminate].
  - rewrite Hs, Hv. rewrite Hi, Hl.
    replace ((0 <=? Z.of_nat (String.length pre))%Z) with true
      by (symmetry; apply Z.leb_le; lia).
    replace ((0 <=? Z.of_nat (String.length pre + String.length mid + 1))%Z)
      with true by (symmetry; apply Z.leb_le; lia).
    replace ((Z.of_nat (String.length pre)
              <? Z.of_nat (String.length pre + String.length mid + 1))%Z)
      with true by (symmetry; apply Z.ltb_lt; lia).
    split; [reflexivity|]. intros _. reflexivity.
Qed.

(** X5.  A subtask array wrapped in prose is recovered: when the text is
    an array text [[ mid ]] preceded by text without opening bracket and
    followed by text without closing bracket, and the array text parses to
    records whose ids convert to strings, [parseSubtasksFromText] returns
    these records normalized, in order, and logs only the count warning
    and the id corrections. *)
Theorem X5_array_wrapped_in_prose_is_recovered :
  forall (E : Type) (pre mid post : string) (items : list value) (ps : props)
         (startId N : Z) (parentTaskId : value),
    mem_char "[" pre = false ->
    mem_char "]" post = false ->
    JSON_parse (String "[" (mid ++ "]")) = Some (VArr items ps) ->
    forallb is_record items = true ->
    printable_ids items = true ->
    let text := pre ++ String "[" (mid ++ String "]" post) in
    exists l,
      parseSubtasksFromText (E:=E) JSON_parse text startId N parentTaskId
      = ((count_warning N items ++ corrections startId 0 items)%list, Ok l)
      /\ List.length l = List.length items
      /\ (forall j v, nth_error items j = Some v ->
            exists r, nth_error l j = Some r
                      /\ normalizes startId parentTaskId j v r).
Proof.
  intros E pre mid post items ps s N p Hpre Hpost Hv Hrec Hids text.
  destruct (SliceFacts.delimited_slice "[" "]" pre mid post Hpre Hpost)
    as [Hi [Hl Hs]].
  fold text in Hi, Hl, Hs.
  apply parseSubtasksFromText_records; [|exact Hrec|exact Hids].
  split.
  - rewrite Hi, Hl.
    apply orb_false_iff. split; [apply orb_false_iff; split|].
    + apply Z.eqb_neq. lia.
    + apply Z.eqb_neq. lia.
    + apply Z.ltb_ge. lia.
  - exists ps. rewrite Hs. exact Hv.
Qed.

End LadderExtras.

Lemma X4_witness :
  JS.mem_char "{" "Sure! Here it is: " = false
  /\ JS.mem_char "}" " Hope that helps." = false
  /\ AiServices.outcome
       (AiServices.parse_response (E:=unit) Json.JSON_parse None "2026-11-01"
          Scenarios.wrapped_document_text 3 "prd.txt")
     = AiServices.Ok (JS.VObj [("tasks", JS.VArr [] []);
                               ("metadata", JS.VObj [])]).
Proof.
  split; [reflexivity|]. split; [reflexivity|].
  exact (proj1 (X4_document_wrapped_in_prose_is_recovered
                  Json.JSON_parse None "2026-11-01" unit
                  "Sure! Here it is: "
                  (JS.dq "'tasks':[],'metadata':{}")
                  " Hope that helps."
                  (JS.VObj [("tasks", JS.VArr [] []);
                            ("metadata", JS.VObj [])])
                  3 "prd.txt" eq_refl eq_refl eq_refl)).
Defined.

Lemma X5_witness :
  JS.mem_char "[" "Here you are: " = false
  /\ JS.mem_char "]" " and that is all." = false
  /\ exists l,
       AiServices.outcome
         (AiServices.parseSubtasksFromText (E:=unit) Json.JSON_parse
            Scenarios.wrapped_array_text 1 1 (JS.VNum (JS.NInt 5)))
       = AiServices.Ok l
       /\ List.length l = 1.
Proof.
  split; [reflexivity|]. split; [reflexivity|].
  destruct (X5_array_wrapped_in_prose_is_recovered
              Json.JSON_parse unit
              "Here you are: "
              (JS.dq "{'id':7,'title':'first'}")
              " and that is all."
              [JS.VObj [("id", JS.VNum (JS.NInt 7));
                        ("title", JS.VStr "first")]]
              [] 1 1 (JS.VNum (JS.NInt 5))
              eq_refl eq_refl eq_refl eq_refl eq_refl)
    as [l [Hrun [Hlen _]]].
  exists l. split; [|exact Hlen].
  unfold AiServices.outcome.
  change Scenarios.wrapped_array_text
    with ("Here you are: "
          ++ String "[" (JS.dq "{'id':7,'title':'first'}"
                         ++ String "]" " and that is all.")).
  rewrite Hrun. reflexivity.
Defined.

(* ===================================================================== *)
(** * What the subtask parser returns, whatever it is given *)
(* ===================================================================== *)

Module StampFacts.
Import JS AiServices Generation ExtractorFacts.

Lemma coerce_dependency_not_string :
  forall deps, existsb is_string (map coerce_dependency deps) = false.
Proof.
  induction deps as [|d deps IH]; [reflexivity|].
  cbn [map existsb]. rewrite IH. destruct d; reflexivity.
Qed.

Lemma coerce_dependency_idem :
  forall d, coerce_dependency (coerce_dependency d) = coerce_dependency d.
Proof. destruct d; reflexivity. Qed.

Lemma normalized_dependencies_array :
  forall v, exists deps,
    normalized_dependencies v = VArr deps []
    /\ existsb is_string deps = false.
Proof.
  intros v. unfold normalized_dependencies.
  destruct (get v "dependencies") as [[ | | | | | |items ps]|];
    try (exists []; split; reflexivity).
  exists (map coerce_dependency items). split; [reflexivity|].
  apply coerce_dependency_not_string.
Qed.

Lemma normalizes_well_stamped :
  forall s p i v r, normalizes s p i v r -> well_stamped s p i r.
Proof.
  intros s p i v r [Hid [Hst [Hp [Hd _]]]].
  destruct (normalized_dependencies_array v) as [deps [Hnd Hns]].
  unfold well_stamped. repeat split; try assumption.
  exists deps. rewrite Hd, Hnd. split; [reflexivity | exact Hns].
Qed.

(** On a value that cannot take properties the callback raises. *)
Lemma normalize_subtask_not_record :
  forall s p i v,
    is_record v = false ->
    exists evs, normalize_subtask s p i v = (evs, Throw TypeError).
Proof.
  intros s p i v Hv.
  destruct v; try discriminate Hv; eexists; reflexivity.
Qed.

Lemma map_subtasks_stamped :
  forall s p items i evs l,
    map_subtasks s p i items = (evs, Ok l) ->
    forall j r, nth_error l j = Some r -> well_stamped s p (i + j) r.
Proof.
  intros s p items.
  induction items as [|v rest IH]; intros i evs l Hrun j r Hj.
  - cbn in Hrun. inversion Hrun; subst. destruct j; discriminate Hj.
  - cbn [map_subtasks] in Hrun.
    destruct (is_record v) eqn:Hv.
    + destruct (interpolable (id_of v)) eqn:Hid;
        [|rewrite (normalize_subtask_unprintable s p i v Hv Hid),
                  bind_throw in Hrun; discriminate Hrun].
      destruct (normalize_subtask_record s p i v Hv Hid) as [r0 [Hr0 Hn0]].
      rewrite Hr0, bind_ok in Hrun.
      destruct (map_subtasks s p (S i) rest) as [evs1 [l1|e1]] eqn:Hrest.
      * rewrite bind_ok in Hrun. cbn in Hrun. inversion Hrun; subst l.
        destruct j as [|j]; cbn in Hj.
        -- inversion Hj; subst r. rewrite Nat.add_0_r.
           eapply normalizes_well_stamped, Hn0.
        -- replace (i + S j) with (S i + j) by lia.
           eapply IH; [exact Hrest | exact Hj].
      * rewrite bind_throw in Hrun. cbn in Hrun. discriminate Hrun.
    + destruct (normalize_subtask_not_record s p i v Hv) as [evs0 Hthrow].
      rewrite Hthrow, bind_throw in Hrun. discriminate Hrun.
Qed.

Lemma map_subtasks_not_record :
  forall s p items i,
    forallb is_record items = false ->
    exists evs, map_subtasks s p i items = (evs, Throw TypeError).
Proof.
  intros s p items.
  induction items as [|v rest IH]; intros i Hex; [discriminate Hex|].
  cbn [forallb] in Hex. cbn [map_subtasks].
  destruct (is_record v) eqn:Hv.
  - cbn [andb] in Hex.
    destruct (interpolable (id_of v)) eqn:Hid;
      [|rewrite (normalize_subtask_unprintable s p i v Hv Hid), bind_throw;
        eexists; reflexivity].
    destruct (normalize_subtask_record s p i v Hv Hid) as [r0 [Hr0 _]].
    destruct (IH (S i) Hex) as [evs1 Hrest].
    rewrite Hr0, bind_ok, Hrest, bind_throw.
    eexists. reflexivity.
  - destruct (normalize_subtask_not_record s p i v Hv) as [evs0 Hthrow].
    rewrite Hthrow, bind_throw. eexists. reflexivity.
Qed.

Lemma fallback_well_stamped :
  forall s p n j r,
    nth_error (fallback_loop s p n 0 []) j = Some r ->
    well_stamped s p j r.
Proof.
  intros s p n j r Hj.
  rewrite fallback_loop_spec in Hj. cbn [List.app] in Hj.
  apply nth_error_map_seq in Hj. destruct Hj as [_ Hr]. subst r.
  unfold well_stamped. cbn. repeat split.
  exists []. split; reflexivity.
Qed.

Section WithParser.
Variable JSON_parse : string -> option value.

Lemma parse_subtasks_stamped :
  forall text s N p evs l,
    parse_subtasks JSON_parse text s N p = (evs, Ok l) ->
    forall j r, nth_error l j = Some r -> well_stamped s p j r.
Proof.
  intros text s N p evs l Hrun j r Hj.
  unfold parse_subtasks in Hrun.
  destruct ((indexOf text "[" =? -1)%Z || (lastIndexOf text "]" =? -1)%Z
            || (lastIndexOf text "]" <? indexOf text "[")%Z);
    [discriminate Hrun|].
  destruct (JSON_parse _) as [subtasks|]; [|discriminate Hrun].
  cbn [lift] in Hrun. rewrite bind_ret_l in Hrun.
  destruct (isArray subtasks); [|discriminate Hrun].
  destruct (map_subtasks s p 0 (array_items subtasks))
    as [evs1 [l1|e1]] eqn:Hmap.
  - assert (l = l1).
    { destruct (negb _) in Hrun; cbn in Hrun; inversion Hrun; reflexivity. }
    subst l1.
    exact (map_subtasks_stamped s p _ 0 evs1 l Hmap j r Hj).
  - destruct (negb _) in Hrun; cbn in Hrun; discriminate Hrun.
Qed.

Lemma parseSubtasksFromText_stamped :
  forall E text s N p,
    exists l,
      outcome (parseSubtasksFromText (E:=E) JSON_parse text s N p) = Ok l
      /\ forall j r, nth_error l j = Some r -> well_stamped s p j r.
Proof.
  intros E text s N p.
  destruct (parse_subtasks JSON_parse text s N p) as [evs [l|e]] eqn:Hrun.
  - exists l. split.
    + unfold parseSubtasksFromText. rewrite Hrun. reflexivity.
    + exact (parse_subtasks_stamped text s N p evs l Hrun).
  - exists (fallback_loop s p (Z.to_nat N) 0 []). split.
    + rewrite (parseSubtasksFromText_throw JSON_parse E text s N p evs e Hrun).
      reflexivity.
    + apply fallback_well_stamped.
Qed.

Lemma parse_subtasks_not_record :
  forall text s N p items,
    subtasks_parsed JSON_parse text items ->
    forallb is_record items = false ->
    exists evs,
      parse_subtasks JSON_parse text s N p = (evs, Throw TypeError).
Proof.
  intros text s N p items [Hloc [ps Hparse]] Hex.
  destruct (map_subtasks_not_record s p items 0 Hex) as [evs1 Hmap].
  unfold parse_subtasks. rewrite Hloc, Hparse.
  cbn [lift]. rewrite bind_ret_l.
  cbn [isArray array_items]. rewrite Hmap.
  destruct (negb _); eexists; reflexivity.
Qed.

End WithParser.

(** Assigning the value a property already has leaves the record as it
    is. *)
Lemma set_prop_same :
  forall k x ps, lookup k ps = Some x -> set_prop k x ps = ps.
Proof.
  intros k x ps. induction ps as [|[k' v'] ps IH]; intros Hl;
    [discriminate Hl|].
  cbn [lookup] in Hl. cbn [set_prop].
  destruct (String.eqb k' k) eqn:Hk.
  - apply String.eqb_eq in Hk. inversion Hl; subst. reflexivity.
  - rewrite IH by exact Hl. reflexivity.
Qed.

Lemma get_own :
  forall v k x, is_record v = true ->
                lookup k (own_props v) = Some x -> get v k = Some x.
Proof.
  intros v k x Hv Hl.
  destruct v; try discriminate Hv; cbn in *; rewrite Hl; reflexivity.
Qed.

Lemma set_own_same :
  forall v k x, is_record v = true ->
                lookup k (own_props v) = Some x -> set v k x = Some v.
Proof.
  intros v k x Hv Hl.
  destruct v; try discriminate Hv; cbn in *;
    rewrite set_prop_same by exact Hl; reflexivity.
Qed.

Lemma set_own :
  forall v k x, is_record v = true ->
    exists v', set v k x = Some v'
               /\ is_record v' = true
               /\ lookup k (own_props v') = Some x
               /\ (forall k', String.eqb k k' = false ->
                     lookup k' (own_props v') = lookup k' (own_props v)).
Proof.
  intros v k x Hv.
  destruct v; try discriminate Hv; cbn [set own_props is_record];
    eexists; (split; [reflexivity|]); (split; [reflexivity|]);
    (split; [apply lookup_set_prop_same|]);
    intros k' Hk; apply lookup_set_prop_other, Hk.
Qed.

End StampFacts.

Module RenormalizeFacts.
Import JS AiServices Generation ExtractorFacts StampFacts.

Lemma normalize_subtask_own :
  forall s p i v,
    is_record v = true ->
    interpolable (id_of v) = true ->
    exists r,
      normalize_subtask s p i v = (corrections s i [v], Ok r)
      /\ stamped_own s p i r.
Proof.
  intros s p i v Hv Hid.
  unfold normalize_subtask.
  rewrite (get_record v "id" Hv). fold (id_of v).
  assert (Hstep1 :
    exists v1,
      (if strict_neq_int (id_of v) (s + Z.of_nat i)
       then ret tt ;;;
            emit (Log LWarn (CorrectingId (id_of v) (s + Z.of_nat i))) ;;;
            lift TypeError (set v "id" (int (s + Z.of_nat i)))
       else ret v)
      = (corrections s i [v], @Ok parse_exn _ v1)
      /\ is_record v1 = true
      /\ get v1 "dependencies" = get v "dependencies"
      /\ lookup "id" (own_props v1) = Some (int (s + Z.of_nat i))).
  { cbn [corrections]. rewrite app_nil_r.
    destruct (strict_neq_int (id_of v) (s + Z.of_nat i)) eqn:Hneq.
    - destruct (set_own v "id" (int (s + Z.of_nat i)) Hv)
        as [v1 [Hset [Hrec [Hown Hoth]]]].
      exists v1. rewrite Hset, bind_ret_l. repeat split; try assumption.
      destruct (set_record v "id" (int (s + Z.of_nat i)) Hv)
        as [v1' [Hset' [_ [_ Hoth']]]].
      rewrite Hset in Hset'. inversion Hset'; subst v1'.
      apply Hoth'. reflexivity.
    - exists v. repeat split; try assumption.
      unfold id_of, strict_neq_int in Hneq.
      destruct v; try discriminate Hv; cbn [get own_props] in *;
        (destruct (lookup "id" _) as [[ | | |[z| | |]| | | ]|];
         try discriminate Hneq;
         apply negb_false_iff in Hneq; apply Z.eqb_eq in Hneq; subst z;
         reflexivity). }
  destruct Hstep1 as [v1 [Hrun1 [Hrec1 [Hdep1 Hid1]]]].
  cbv zeta. simpl lift at 1. rewrite bind_ret_l.
  rewrite Hid, Hrun1, bind_ok.
  rewrite (get_record v1 "dependencies" Hrec1).
  rewrite Hdep1.
  simpl lift at 1. rewrite bind_ret_l.
  pose proof (normalized_dependencies_eq v Hv) as Hnd. cbv zeta in Hnd.
  rewrite Hnd.
  destruct (set_own v1 "dependencies" (normalized_dependencies v) Hrec1)
    as [v2 [Hset2 [Hrec2 [Hget2 Hoth2]]]].
  destruct (set_own v2 "status" (VStr "pending") Hrec2)
    as [v3 [Hset3 [Hrec3 [Hget3 Hoth3]]]].
  destruct (set_own v3 "parentTaskId" p Hrec3)
    as [v4 [Hset4 [Hrec4 [Hget4 Hoth4]]]].
  rewrite Hset2. simpl lift at 1. rewrite bind_ret_l.
  rewrite Hset3. simpl lift at 1. rewrite bind_ret_l.
  rewrite Hset4. simpl lift at 1. rewrite bind_ret_l.
  exists v4. split.
  - unfold after, ret. simpl. rewrite app_nil_r. reflexivity.
  - unfold stamped_own. split; [exact Hrec4|]. split; [|split; [|split]].
    + rewrite Hoth4, Hoth3, Hoth2 by reflexivity. exact Hid1.
    + rewrite Hoth4 by reflexivity. exact Hget3.
    + exact Hget4.
    + rewrite Hoth4, Hoth3 by reflexivity. rewrite Hget2.
      unfold normalized_dependencies.
      destruct (get v "dependencies") as [[ | | | | | |items ps]|];
        try (exists []; reflexivity).
      exists items. reflexivity.
Qed.

Lemma normalize_subtask_stamped_own :
  forall s p i r,
    stamped_own s p i r -> normalize_subtask s p i r = ([], Ok r).
Proof.
  intros s p i r [Hrec [Hid [Hst [Hp [deps Hd]]]]].
  unfold normalize_subtask.
  rewrite (get_own r "id" _ Hrec Hid).
  cbn [lift]. rewrite bind_ret_l.
  cbn [strict_neq_int int]. rewrite Z.eqb_refl. cbn [negb].
  rewrite bind_ret_l.
  rewrite (get_own r "dependencies" _ Hrec Hd).
  cbn [lift]. rewrite bind_ret_l.
  cbn [truthy isArray andb array_items].
  rewrite map_map.
  rewrite (map_ext _ coerce_dependency
             (fun d => coerce_dependency_idem d)).
  rewrite (set_own_same r "dependencies" _ Hrec Hd).
  cbn [lift]. rewrite bind_ret_l.
  rewrite (set_own_same r "status" _ Hrec Hst).
  cbn [lift]. rewrite bind_ret_l.
  rewrite (set_own_same r "parentTaskId" _ Hrec Hp).
  cbn [lift]. rewrite bind_ret_l.
  reflexivity.
Qed.

Lemma map_subtasks_own :
  forall s p items i evs l,
    map_subtasks s p i items = (evs, Ok l) ->
    map_subtasks s p i l = ([], Ok l).
Proof.
  intros s p items.
  induction items as [|v rest IH]; intros i evs l Hrun.
  - cbn in Hrun. inversion Hrun; subst. reflexivity.
  - cbn [map_subtasks] in Hrun.
    destruct (is_record v) eqn:Hv.
    + destruct (interpolable (id_of v)) eqn:Hid;
        [|rewrite (normalize_subtask_unprintable s p i v Hv Hid),
                  bind_throw in Hrun; discriminate Hrun].
      destruct (normalize_subtask_own s p i v Hv Hid) as [r0 [Hr0 Hown]].
      rewrite Hr0, bind_ok in Hrun.
      destruct (map_subtasks s p (S i) rest) as [evs1 [l1|e1]] eqn:Hrest.
      * rewrite bind_ok in Hrun. cbn in Hrun. inversion Hrun; subst l.
        cbn [map_subtasks].
        rewrite (normalize_subtask_stamped_own s p i r0 Hown).
        rewrite bind_ok, after_nil.
        rewrite (IH (S i) evs1 l1 Hrest), bind_ok, after_nil. reflexivity.
      * rewrite bind_throw in Hrun. cbn in Hrun. discriminate Hrun.
    + destruct (normalize_subtask_not_record s p i v Hv) as [evs0 Hthrow].
      rewrite Hthrow, bind_throw in Hrun. discriminate Hrun.
Qed.

End RenormalizeFacts.

Section ParserExtras.
Import JS AiServices Generation ExtractorFacts.

Variable JSON_parse : string -> option value.

(** X6.  Whatever text it is given and whatever [JSON.parse] makes of it,
    [parseSubtasksFromText] returns a list and never throws, and the
    record at every position [i] of that list has id [startId + i], status
    [pending], the parent id handed in, and an array of dependencies none
    of which is a string. *)
Theorem X6_every_returned_subtask_is_stamped :
  forall (E : Type) (text : string) (startId N : Z) (parentTaskId : value),
    exists l,
      outcome (parseSubtasksFromText (E:=E) JSON_parse text startId N
                                     parentTaskId) = Ok l
      /\ forall i r, nth_error l i = Some r ->
                     well_stamped startId parentTaskId i r.
Proof.
  intros E text s N p.
  apply StampFacts.parseSubtasksFromText_stamped.
Qed.

(** X7.  One element that is not a record (a number, a string, a boolean
    or [null]) in the parsed array costs the whole reply: the assignment
    to it raises a [TypeError], the records already normalized are
    dropped, the error is logged and the [N] placeholders are returned. *)
Theorem X7_one_bad_element_discards_the_reply :
  forall (E : Type) (text : string) (startId N : Z) (parentTaskId : value)
         (items : list value),
    subtasks_parsed JSON_parse text items ->
    forallb is_record items = false ->
    exists evs,
      parseSubtasksFromText (E:=E) JSON_parse text startId N parentTaskId
      = ((evs ++ [ Log LError (ErrorParsingSubtasks TypeError);
                   Log LWarn (Text "Creating fallback subtasks") ])%list,
         Ok (fallback_loop startId parentTaskId (Z.to_nat N) 0 [])).
Proof.
  intros E text s N p items Hparsed Hbad.
  destruct (StampFacts.parse_subtasks_not_record JSON_parse text s N p items
              Hparsed Hbad) as [evs Hrun].
  exists evs. apply parseSubtasksFromText_throw, Hrun.
Qed.

End ParserExtras.

(** X8.  The normalization of subtasks is idempotent: when the callback
    of [subtasks.map] has gone through a list without raising, going
    through its result again with the same offset and parent returns it
    unchanged and logs no correction. *)
Theorem X8_normalization_is_idempotent :
  forall (startId : Z) (parentTaskId : JS.value) (items : list JS.value)
         (evs : list AiServices.event) (l : list JS.value),
    AiServices.map_subtasks startId parentTaskId 0 items
    = (evs, AiServices.Ok l) ->
    AiServices.map_subtasks startId parentTaskId 0 l
    = ([], AiServices.Ok l).
Proof.
  intros s p items evs l Hrun.
  exact (RenormalizeFacts.map_subtasks_own s p items 0 evs l Hrun).
Qed.

Lemma X7_witness :
  AiServices.subtasks_parsed Json.JSON_parse Scenarios.mixed_array_text
    [JS.VObj [("id", JS.VNum (JS.NInt 1)); ("title", JS.VStr "first")];
     JS.VNull]
  /\ AiServices.outcome
       (AiServices.parseSubtasksFromText (E:=unit) Json.JSON_parse
          Scenarios.mixed_array_text 1 2 (JS.VNum (JS.NInt 5)))
     = AiServices.Ok
         (AiServices.fallback_loop 1 (JS.VNum (JS.NInt 5)) 2 0 []).
Proof.
  assert (Hparsed :
    AiServices.subtasks_parsed Json.JSON_parse Scenarios.mixed_array_text
      [JS.VObj [("id", JS.VNum (JS.NInt 1)); ("title", JS.VStr "first")];
       JS.VNull]).
  { split; [reflexivity|]. exists []. reflexivity. }
  split; [exact Hparsed|].
  destruct (X7_one_bad_element_discards_the_reply
              Json.JSON_parse unit Scenarios.mixed_array_text 1 2
              (JS.VNum (JS.NInt 5)) _ Hparsed eq_refl) as [evs Hrun].
  unfold AiServices.outcome. rewrite Hrun. reflexivity.
Defined.

Lemma X8_witness :
  exists evs l,
    AiServices.map_subtasks 4 (JS.VNum (JS.NInt 2)) 0
      Examples.two_subtasks_items = (evs, AiServices.Ok l)
    /\ AiServices.map_subtasks 4 (JS.VNum (JS.NInt 2)) 0 l
       = ([], AiServices.Ok l).
Proof.
  eexists. eexists. split; [vm_compute; reflexivity|].
  eapply (X8_normalization_is_idempotent 4 (JS.VNum (JS.NInt 2))
            Examples.two_subtasks_items).
  vm_compute. reflexivity.
Defined.

(* ===================================================================== *)
(** * The gateway: what a request and a call always do *)
(* ===================================================================== *)

Module RequestFacts.
Import JS AiServices Generation ExtractorFacts GatewayFacts.

Lemma console_errors_app :
  forall a b,
    console_errors (a ++ b) = (console_errors a ++ console_errors b)%list.
Proof. intros a b. unfold console_errors. apply flat_map_app. Qed.

Section WithEnvironment.

Variable JSON_parse : string -> option value.
Variable ToString : value -> string.
Variable PROJECT_NAME : option string.
Variable today : string.

(** The ladder always ends with a value: a parse or the placeholders. *)
Lemma parse_response_total :
  forall E text numTasks prdPath,
    exists evs v,
      parse_response (E:=E) JSON_parse PROJECT_NAME today text numTasks
                     prdPath = (evs, Ok v)
      /\ console_errors evs = []
      /\ (v = fallback_tasks PROJECT_NAME today numTasks prdPath
          \/ exists t, JSON_parse t = Some v).
Proof.
  intros E text N path. unfold parse_response.
  destruct (JSON_parse text) as [w|] eqn:Hw.
  { exists [], w. repeat split. right. exists text. exact Hw. }
  destruct ((0 <=? indexOf text "{")%Z && (0 <=? lastIndexOf text "}")%Z
            && (indexOf text "{" <? lastIndexOf text "}")%Z).
  - destruct (JSON_parse (substring text (indexOf text "{")
                                    (lastIndexOf text "}" + 1)))
      as [w|] eqn:Hs.
    + eexists. exists w. split; [reflexivity|]. split; [reflexivity|].
      right. eexists. exact Hs.
    + eexists. eexists. split; [reflexivity|]. split; [reflexivity|].
      left. reflexivity.
  - eexists. eexists. split; [reflexivity|]. split; [reflexivity|].
    left. reflexivity.
Qed.

Lemma handleStreamingRequest_buffered :
  forall numTasks prdPath body,
    handleStreamingRequest JSON_parse ToString PROJECT_NAME today
                           numTasks prdPath (Buffered body)
    = after [Log LInfo (Text "Response received, processing...")]
            (parse_response JSON_parse PROJECT_NAME today
               (processOllamaResponse
                  (assemble_buffered JSON_parse ToString body))
               numTasks prdPath).
Proof.
  intros N path body.
  unfold handleStreamingRequest. rewrite bind_ret_l.
  unfold emit. rewrite bind_ok. reflexivity.
Qed.

Lemma handleStreamingRequest_streamed :
  forall numTasks prdPath chunks,
    handleStreamingRequest JSON_parse ToString PROJECT_NAME today
                           numTasks prdPath (Streamed chunks)
    = after [Log LInfo (Text "Response received, processing...")]
            (parse_response JSON_parse PROJECT_NAME today
               (processOllamaResponse
                  (assemble_streamed JSON_parse ToString chunks))
               numTasks prdPath).
Proof.
  intros N path chunks.
  unfold handleStreamingRequest. rewrite bind_ret_l.
  unfold emit. rewrite bind_ok. reflexivity.
Qed.

Lemma handleStreamingRequest_failure :
  forall numTasks prdPath response e,
    failure_of response = Some e ->
    handleStreamingRequest JSON_parse ToString PROJECT_NAME today
                           numTasks prdPath response
    = ([], Throw e).
Proof.
  intros N path response e He.
  destruct response; cbn in He; inversion He; subst; reflexivity.
Qed.

Lemma handleStreamingRequest_answered :
  forall numTasks prdPath response,
    failure_of response = None ->
    exists evs v,
      handleStreamingRequest JSON_parse ToString PROJECT_NAME today
                             numTasks prdPath response
      = (Log LInfo (Text "Response received, processing...") :: evs, Ok v)
      /\ console_errors evs = []
      /\ (v = fallback_tasks PROJECT_NAME today numTasks prdPath
          \/ exists t, JSON_parse t = Some v).
Proof.
  intros N path response Hf.
  destruct response as [e|st b|e|body|chunks|e]; try discriminate Hf.
  - destruct (parse_response_total error
                (processOllamaResponse
                   (assemble_buffered JSON_parse ToString body)) N path)
      as [evs [v [Hrun [Hc Hv]]]].
    exists evs, v. split; [|split; assumption].
    rewrite handleStreamingRequest_buffered, Hrun. reflexivity.
  - destruct (parse_response_total error
                (processOllamaResponse
                   (assemble_streamed JSON_parse ToString chunks)) N path)
      as [evs [v [Hrun [Hc Hv]]]].
    exists evs, v. split; [|split; assumption].
    rewrite handleStreamingRequest_streamed, Hrun. reflexivity.
Qed.

Lemma handleStreamingRequest_silent :
  forall numTasks prdPath response evs r,
    handleStreamingRequest JSON_parse ToString PROJECT_NAME today
                           numTasks prdPath response = (evs, r) ->
    console_errors evs = [].
Proof.
  intros N path response evs r Hrun.
  destruct (failure_of response) as [e|] eqn:Hf.
  - rewrite (handleStreamingRequest_failure N path response e Hf) in Hrun.
    inversion Hrun; reflexivity.
  - destruct (handleStreamingRequest_answered N path response Hf)
      as [evs' [v [Hrun' [Hc _]]]].
    rewrite Hrun' in Hrun. inversion Hrun; subst. exact Hc.
Qed.

End WithEnvironment.
End RequestFacts.

Section GatewayExtras.
Import JS AiServices Generation ExtractorFacts GatewayFacts RequestFacts.

Variable JSON_parse : string -> option value.
Variable ToString : value -> string.
Variable OLLAMA_API_URL OLLAMA_MODEL : string.
Variable PROJECT_NAME : option string.
Variable today : string.

(** The message a failed call throws is the one it has printed, and it
    prints nothing else; a call that ends on a [TypeError] has printed
    nothing. *)
Lemma callClaude_prints :
  forall budget numTasks prdPath net retryCount,
    2 - retryCount <= budget ->
    let run := callClaude JSON_parse ToString OLLAMA_API_URL OLLAMA_MODEL
                          PROJECT_NAME today numTasks prdPath net retryCount in
    match outcome run with
    | Ok _ => console_errors (events run) = []
    | Throw (UserError userMessage) =>
        console_errors (events run) = [userMessage]
    | Throw MessageTypeError => console_errors (events run) = []
    end.
Proof.
  induction budget as [|budget IH]; intros N path net r Hb; cbv zeta;
    destruct (handleStreamingRequest JSON_parse ToString PROJECT_NAME today
                N path (net 0)) as [evs [v|e]] eqn:Hreq;
    pose proof (handleStreamingRequest_silent _ _ _ _ _ _ _ _ _ Hreq) as Hs;
    try (rewrite (callClaude_ok _ _ _ _ _ _ _ _ _ _ _ _ Hreq);
         unfold events, outcome; cbn [fst snd];
         change (Log LInfo (Text "Calling Ollama...") :: evs)
           with ([Log LInfo (Text "Calling Ollama...")] ++ evs)%list;
         rewrite console_errors_app, Hs; reflexivity);
    (destruct (handleOllamaError OLLAMA_API_URL OLLAMA_MODEL e)
       as [m|] eqn:Hm;
     [|rewrite (callClaude_raise _ _ _ _ _ _ _ _ _ _ _ _ Hreq Hm);
       unfold events, outcome; cbn [fst snd];
       change (Log LInfo (Text "Calling Ollama...") :: evs)
         with ([Log LInfo (Text "Calling Ollama...")] ++ evs)%list;
       rewrite console_errors_app, Hs; reflexivity]);
    destruct (decide_retry r e) eqn:Hd;
    try (rewrite (callClaude_give_up _ _ _ _ _ _ _ _ _ _ _ _ _ Hreq Hm Hd);
         unfold events, outcome; cbn [fst snd];
         change (Log LInfo (Text "Calling Ollama...") :: evs ++ ?l)%list
           with ([Log LInfo (Text "Calling Ollama...")] ++ evs ++ l)%list;
         rewrite !console_errors_app, Hs; reflexivity);
    try (rewrite (callClaude_condition_raises _ _ _ _ _ _ _ _ _ _ _ _ _
                    Hreq Hm Hd);
         unfold events, outcome; cbn [fst snd];
         change (Log LInfo (Text "Calling Ollama...") :: evs ++ ?l)%list
           with ([Log LInfo (Text "Calling Ollama...")] ++ evs ++ l)%list;
         rewrite !console_errors_app, Hs; reflexivity).
  - apply decide_retry_Retry in Hd. lia.
  - pose proof Hd as Hd'. apply decide_retry_Retry in Hd'.
    destruct Hd' as [Hr _].
    rewrite (callClaude_retry _ _ _ _ _ _ _ _ _ _ _ _ _ Hreq Hm Hd).
    assert (Hb' : 2 - (r + 1) <= budget) by lia.
    specialize (IH N path (fun n => net (S n)) (r + 1) Hb').
    cbv zeta in IH.
    unfold after, events, outcome in *. cbn [fst snd].
    change (Log LInfo (Text "Calling Ollama...") :: evs ++ ?l)%list
      with ([Log LInfo (Text "Calling Ollama...")] ++ evs ++ l)%list.
    rewrite !console_errors_app, Hs.
    destruct (snd (callClaude _ _ _ _ _ _ _ _ _ _)) as [v|[m'|]];
      rewrite IH; reflexivity.
Qed.

(** X9.  When the first two requests of a call fail with an error that
    the retry condition accepts and the third request fails too, the call
    gives up after having slept 5000 ms and then 10000 ms and issued three
    requests.  If [handleOllamaError] makes a user message of the third
    error, the call throws that message and prints it, and only it, with
    [console.error]; if the message of the third error is a value on which
    [toLowerCase] cannot be called, the call throws that [TypeError] and
    prints nothing. *)
Theorem X9_three_failures_exhaust_the_retries :
  forall (numTasks : Z) (prdPath : string) (net : nat -> fetch_outcome)
         (e1 e2 e3 : error),
    outcome (handleStreamingRequest JSON_parse ToString PROJECT_NAME today
               numTasks prdPath (net 0)) = Throw e1 ->
    retryable e1 = Some true ->
    outcome (handleStreamingRequest JSON_parse ToString PROJECT_NAME today
               numTasks prdPath (net 1)) = Throw e2 ->
    retryable e2 = Some true ->
    outcome (handleStreamingRequest JSON_parse ToString PROJECT_NAME today
               numTasks prdPath (net 2)) = Throw e3 ->
    let run := callClaude JSON_parse ToString OLLAMA_API_URL OLLAMA_MODEL
                          PROJECT_NAME today numTasks prdPath net 0 in
    sleeps (events run) = [5000; 10000]%Z
    /\ attempts (events run) = 3
    /\ match handleOllamaError OLLAMA_API_URL OLLAMA_MODEL e3 with
       | Some userMessage =>
           outcome run = Throw (UserError userMessage)
           /\ console_errors (events run) = [userMessage]
       | None =>
           outcome run = Throw MessageTypeError
           /\ console_errors (events run) = []
       end.
Proof.
  intros N path net e1 e2 e3 H1 He1 H2 He2 H3 run.
  destruct (retryable_handled OLLAMA_API_URL OLLAMA_MODEL e1 true He1)
    as [m1 Hm1].
  destruct (retryable_handled OLLAMA_API_URL OLLAMA_MODEL e2 true He2)
    as [m2 Hm2].
  destruct (handleStreamingRequest JSON_parse ToString PROJECT_NAME today
              N path (net 0)) as [evs1 r1] eqn:R1.
  destruct (handleStreamingRequest JSON_parse ToString PROJECT_NAME today
              N path (net 1)) as [evs2 r2] eqn:R2.
  destruct (handleStreamingRequest JSON_parse ToString PROJECT_NAME today
              N path (net 2)) as [evs3 r3] eqn:R3.
  unfold outcome in H1, H2, H3. cbn [snd] in H1, H2, H3. subst r1 r2 r3.
  destruct (request_quiet _ _ _ _ _ _ _ _ _ R1) as [S1 A1].
  destruct (request_quiet _ _ _ _ _ _ _ _ _ R2) as [S2 A2].
  destruct (request_quiet _ _ _ _ _ _ _ _ _ R3) as [S3 A3].
  assert (L0 : 0 < 2) by lia. assert (L1 : 0 + 1 < 2) by lia.
  assert (L2 : 2 <= 0 + 1 + 1) by lia.
  assert (Hstart : run
    = after (([Log LInfo (Text "Calling Ollama...")] ++ evs1
              ++ [ Log LError (Text m1);
                   Log LInfo (WaitingBeforeRetry 5 1); Sleep 5000 ])
             ++ ([Log LInfo (Text "Calling Ollama...")] ++ evs2
                 ++ [ Log LError (Text m2);
                      Log LInfo (WaitingBeforeRetry 10 2); Sleep 10000 ]))
            (callClaude JSON_parse ToString OLLAMA_API_URL OLLAMA_MODEL
                        PROJECT_NAME today N path
                        (fun n => net (S (S n))) (0 + 1 + 1))).
  { unfold run.
    rewrite (callClaude_retry JSON_parse ToString OLLAMA_API_URL OLLAMA_MODEL
               PROJECT_NAME today N path net 0 evs1 e1 m1 R1 Hm1
               (proj2 (decide_retry_Retry 0 e1) (conj L0 He1))).
    rewrite (callClaude_retry JSON_parse ToString OLLAMA_API_URL OLLAMA_MODEL
               PROJECT_NAME today N path (fun n => net (S n)) (0 + 1)
               evs2 e2 m2 R2 Hm2
               (proj2 (decide_retry_Retry (0 + 1) e2) (conj L1 He2))).
    unfold after. cbn [fst snd]. rewrite <- app_assoc. reflexivity. }
  pose proof (callClaude_prints 2 N path net 0 ltac:(lia)) as Hp.
  cbv zeta in Hp. fold run in Hp.
  destruct (handleOllamaError OLLAMA_API_URL OLLAMA_MODEL e3)
    as [m3|] eqn:Hm3.
  - assert (Hrun : run
      = (((([Log LInfo (Text "Calling Ollama...")] ++ evs1
            ++ [ Log LError (Text m1);
                 Log LInfo (WaitingBeforeRetry 5 1); Sleep 5000 ])
           ++ ([Log LInfo (Text "Calling Ollama...")] ++ evs2
               ++ [ Log LError (Text m2);
                    Log LInfo (WaitingBeforeRetry 10 2); Sleep 10000 ]))
          ++ [Log LInfo (Text "Calling Ollama...")] ++ evs3
          ++ [Log LError (Text m3); ConsoleError m3])%list,
         Throw (UserError m3))).
    { rewrite Hstart.
      rewrite (callClaude_give_up JSON_parse ToString OLLAMA_API_URL
                 OLLAMA_MODEL PROJECT_NAME today N path
                 (fun n => net (S (S n))) (0 + 1 + 1) evs3 e3 m3 R3 Hm3
                 (decide_retry_spent (0 + 1 + 1) e3 L2)).
      reflexivity. }
    assert (Ho : outcome run = Throw (UserError m3))
      by (rewrite Hrun; reflexivity).
    rewrite Ho in Hp.
    split; [|split; [|split; [exact Ho | exact Hp]]].
    + rewrite Hrun. unfold events. cbn [fst].
      rewrite !sleeps_app, S1, S2, S3. reflexivity.
    + rewrite Hrun. unfold events. cbn [fst].
      rewrite !attempts_app, A1, A2, A3. reflexivity.
  - assert (Hrun : run
      = (((([Log LInfo (Text "Calling Ollama...")] ++ evs1
            ++ [ Log LError (Text m1);
                 Log LInfo (WaitingBeforeRetry 5 1); Sleep 5000 ])
           ++ ([Log LInfo (Text "Calling Ollama...")] ++ evs2
               ++ [ Log LError (Text m2);
                    Log LInfo (WaitingBeforeRetry 10 2); Sleep 10000 ]))
          ++ [Log LInfo (Text "Calling Ollama...")] ++ evs3)%list,
         Throw MessageTypeError)).
    { rewrite Hstart.
      rewrite (callClaude_raise JSON_parse ToString OLLAMA_API_URL
                 OLLAMA_MODEL PROJECT_NAME today N path
                 (fun n => net (S (S n))) (0 + 1 + 1) evs3 e3 R3 Hm3).
      reflexivity. }
    assert (Ho : outcome run = Throw MessageTypeError)
      by (rewrite Hrun; reflexivity).
    rewrite Ho in Hp.
    split; [|split; [|split; [exact Ho | exact Hp]]].
    + rewrite Hrun. unfold events. cbn [fst].
      rewrite !sleeps_app, S1, S2, S3. reflexivity.
    + rewrite Hrun. unfold events. cbn [fst].
      rewrite !attempts_app, A1, A2, A3. reflexivity.
Qed.

(** X10.  An error that tells a time-out only by its [type]
    ([request-timeout]), with no such word in its message, is reported as
    a time-out but is not retried: the retry condition does not look at
    [type], so the call fails after one request and no sleep. *)
Theorem X10_typed_timeout_is_not_retried :
  forall (numTasks : Z) (prdPath : string) (net : nat -> fetch_outcome)
         (retryCount : nat) (e : error),
    net 0 = FetchRejects e ->
    etype e = Some "request-timeout" ->
    retryable e = Some false ->
    let run := callClaude JSON_parse ToString OLLAMA_API_URL OLLAMA_MODEL
                          PROJECT_NAME today numTasks prdPath net retryCount in
    outcome run
    = Throw (UserError "The request to Ollama timed out. Your prompt might be too complex or the server is busy.")
    /\ sleeps (events run) = []
    /\ attempts (events run) = 1.
Proof.
  intros N path net r e Hnet Hty Hnr run.
  assert (Hreq : handleStreamingRequest JSON_parse ToString PROJECT_NAME
                   today N path (net 0) = ([], Throw e)).
  { rewrite Hnet. reflexivity. }
  assert (Hd : decide_retry r e = GiveUp).
  { unfold decide_retry. rewrite Hnr. destruct (r <? 2); reflexivity. }
  assert (Hmsg : handleOllamaError OLLAMA_API_URL OLLAMA_MODEL e
                 = Some "The request to Ollama timed out. Your prompt might be too complex or the server is busy.").
  { unfold retryable in Hnr. unfold handleOllamaError.
    destruct (code_is e "ECONNREFUSED" || code_is e "ENOTFOUND");
      [discriminate Hnr|].
    unfold type_is. rewrite Hty. reflexivity. }
  unfold run.
  rewrite (callClaude_give_up JSON_parse ToString OLLAMA_API_URL OLLAMA_MODEL
             PROJECT_NAME today N path net r [] e _ Hreq Hmsg Hd).
  repeat split.
Qed.

(** X11.  Whatever the network does, a call prints with [console.error]
    exactly the message it throws, once, when it throws the error made of
    a user message; it prints nothing when it returns, and nothing when it
    ends on the [TypeError] of a message that is not a string. *)
Theorem X11_the_thrown_message_is_the_one_printed :
  forall (numTasks : Z) (prdPath : string) (net : nat -> fetch_outcome)
         (retryCount : nat),
    let run := callClaude JSON_parse ToString OLLAMA_API_URL OLLAMA_MODEL
                          PROJECT_NAME today numTasks prdPath net retryCount in
    match outcome run with
    | Ok _ => console_errors (events run) = []
    | Throw (UserError userMessage) =>
        console_errors (events run) = [userMessage]
    | Throw MessageTypeError => console_errors (events run) = []
    end.
Proof.
  intros N path net r.
  apply (callClaude_prints (2 - r)). lia.
Qed.

(** X13.  The stages compose: when the lines of a streamed body fall on
    whole fragments, the contents they carry concatenate to a text in
    which every backslash is recognized, and that text is a JSON text,
    [handleStreamingRequest] returns its parse and logs only that the
    response was received; the same holds for the body received in one
    piece. *)
Theorem X13_well_formed_stream_is_parsed :
  forall (numTasks : Z) (prdPath : string) (chunks : list string)
         (v : value),
    line_aligned chunks = true ->
    forallb (text_content JSON_parse)
            (split newline (concat_chunks chunks)) = true ->
    let document :=
      concat_chunks (map (content_of_line JSON_parse)
                         (split newline (concat_chunks chunks))) in
    escapes_recognized document = true ->
    JSON_parse document = Some v ->
    handleStreamingRequest JSON_parse ToString PROJECT_NAME today
                           numTasks prdPath (Streamed chunks)
    = ([Log LInfo (Text "Response received, processing...")], Ok v)
    /\ handleStreamingRequest JSON_parse ToString PROJECT_NAME today
                              numTasks prdPath
                              (Buffered (concat_chunks chunks))
       = ([Log LInfo (Text "Response received, processing...")], Ok v).
Proof.
  intros N path chunks v Hal Htc document Hrec Hv.
  assert (Hbuf : assemble_buffered JSON_parse ToString (concat_chunks chunks)
                 = document).
  { unfold assemble_buffered, nonblank_lines.
    rewrite (AssemblerFacts.append_lines_text JSON_parse ToString _ _ Htc).
    reflexivity. }
  assert (Hstr : assemble_streamed JSON_parse ToString chunks = document).
  { rewrite <- Hbuf. unfold assemble_streamed, assemble_buffered.
    rewrite AssemblerFacts.assemble_streamed_lines,
            AssemblerFacts.aligned_lines by exact Hal.
    reflexivity. }
  destruct (NormalizerFacts.processOllamaResponse_clean document Hrec)
    as [Hclean _].
  split.
  - rewrite handleStreamingRequest_streamed, Hstr, Hclean.
    rewrite (parse_response_returns_parsed JSON_parse error PROJECT_NAME
               today document N path v Hv).
    reflexivity.
  - rewrite handleStreamingRequest_buffered, Hbuf, Hclean.
    rewrite (parse_response_returns_parsed JSON_parse error PROJECT_NAME
               today document N path v Hv).
    reflexivity.
Qed.

End GatewayExtras.

Lemma X9_witness :
  AiServices.retryable Examples.connection_refused = Some true
  /\ AiServices.sleeps
       (AiServices.events
          (AiServices.callClaude Json.JSON_parse Examples.no_conversion
             "http://localhost:11434" "llama3" None "2026-11-01"
             3 "prd.txt" Scenarios.always_refused 0))
     = [5000; 10000]%Z
  /\ AiServices.outcome
       (AiServices.callClaude Json.JSON_parse Examples.no_conversion
          "http://localhost:11434" "llama3" None "2026-11-01"
          3 "prd.txt" Scenarios.always_refused 0)
     = AiServices.Throw
         (AiServices.UserError
            "Could not connect to Ollama server at http://localhost:11434. Make sure Ollama is running.").
Proof.
  split; [reflexivity|].
  destruct (X9_three_failures_exhaust_the_retries
              Json.JSON_parse Examples.no_conversion
              "http://localhost:11434" "llama3" None "2026-11-01"
              3 "prd.txt" Scenarios.always_refused
              Examples.connection_refused Examples.connection_refused
              Examples.connection_refused
              eq_refl eq_refl eq_refl eq_refl eq_refl)
    as [Hsleeps [_ [Hout _]]].
  split; [exact Hsleeps | exact Hout].
Defined.

Lemma X10_witness :
  AiServices.etype Scenarios.typed_timeout = Some "request-timeout"
  /\ AiServices.retryable Scenarios.typed_timeout = Some false
  /\ AiServices.attempts
       (AiServices.events
          (AiServices.callClaude Json.JSON_parse Examples.no_conversion
             "http://localhost:11434" "llama3" None "2026-11-01"
             3 "prd.txt"
             (fun _ => AiServices.FetchRejects Scenarios.typed_timeout) 0))
     = 1.
Proof.
  split; [reflexivity|]. split; [reflexivity|].
  exact (proj2 (proj2 (X10_typed_timeout_is_not_retried
                         Json.JSON_parse Examples.no_conversion
                         "http://localhost:11434" "llama3" None "2026-11-01"
                         3 "prd.txt"
                         (fun _ => AiServices.FetchRejects
                                     Scenarios.typed_timeout)
                         0 Scenarios.typed_timeout
                         eq_refl eq_refl eq_refl))).
Defined.

Lemma X13_witness :
  AiServices.line_aligned Scenarios.document_chunks = true
  /\ AiServices.handleStreamingRequest Json.JSON_parse Examples.no_conversion
       None "2026-11-01" 3 "prd.txt"
       (AiServices.Streamed Scenarios.document_chunks)
     = ([AiServices.Log AiServices.LInfo
           (AiServices.Text "Response received, processing...")],
        AiServices.Ok (JS.VObj [("tasks", JS.VArr [] []);
                                ("metadata", JS.VObj [])])).
Proof.
  split; [reflexivity|].
  exact (proj1 (X13_well_formed_stream_is_parsed
                  Json.JSON_parse Examples.no_conversion None "2026-11-01"
                  3 "prd.txt" Scenarios.document_chunks
                  (JS.VObj [("tasks", JS.VArr [] []);
                            ("metadata", JS.VObj [])])
                  eq_refl eq_refl eq_refl eq_refl)).
Defined.

(* ===================================================================== *)
(** * Subtask generation *)
(* ===================================================================== *)

Module GenerationFacts.
Import JS AiServices Generation ExtractorFacts.

Section WithEnvironment.

Variable JSON_parse : string -> option value.
Variable ToString : value -> string.

(** The tail shared by the two generators: log the completion, then parse. *)
Lemma completed_then_parsed :
  forall (line : string) (text : string) (startId N : Z) (p : value),
    exists evs l,
      (emit (E:=error) (Log LInfo (Text line)) ;;;
       parseSubtasksFromText JSON_parse text startId N p)
      = (Log LInfo (Text line) :: evs, Ok l)
      /\ forall i r, nth_error l i = Some r -> well_stamped startId p i r.
Proof.
  intros line text s N p.
  destruct (StampFacts.parseSubtasksFromText_stamped JSON_parse error
              text s N p) as [l [Hout Hst]].
  destruct (parseSubtasksFromText JSON_parse text s N p) as [evs r] eqn:Hrun.
  unfold outcome in Hout. cbn [snd] in Hout. subst r.
  exists evs, l. split; [|exact Hst].
  unfold emit. rewrite bind_ok. reflexivity.
Qed.

Lemma generateSubtasks_answered :
  forall task N next response,
    failure_of response = None ->
    exists l,
      outcome (generateSubtasks JSON_parse ToString task N next response)
      = Ok l
      /\ forall i r, nth_error l i = Some r ->
           well_stamped next (id task) i r.
Proof.
  intros task N next response Hf.
  assert (Hok : forall text,
    exists l,
      outcome (try_catch
                 (bind (E:=error) (ret text) (fun responseText =>
                    emit (Log LInfo (Text ("Completed generating subtasks for task "
                                           ++ to_text ToString (id task)))) ;;;
                    parseSubtasksFromText JSON_parse
                      (processOllamaResponse responseText) next N (id task)))
                 (fun error =>
                    emit (Log LError (Text ("Error generating subtasks: "
                                            ++ message_text ToString error))) ;;;
                    throw error)) = Ok l
      /\ (forall i r, nth_error l i = Some r ->
            well_stamped next (id task) i r)).
  { intros text. rewrite bind_ret_l.
    destruct (completed_then_parsed
                ("Completed generating subtasks for task "
                 ++ to_text ToString (id task))
                (processOllamaResponse text) next N (id task))
      as [evs [l [Hrun Hst]]].
    rewrite Hrun. exists l. split; [reflexivity | exact Hst]. }
  destruct response as [e|st b|e|body|chunks|e]; try discriminate Hf;
    apply Hok.
Qed.

End WithEnvironment.
End GenerationFacts.

Section GenerationExtras.
Import JS AiServices Generation ExtractorFacts GenerationFacts.

Variable JSON_parse : string -> option value.
Variable ToString : value -> string.
Variable getReader_TypeError : string.




End GenerationExtras.



(* ===================================================================== *)
(** * The stored client, the analysis prompt and the command handler *)
(* ===================================================================== *)

Module StoreFacts.
Import JS AiServices.

Lemma calls_stored :
  forall keys c n,
    calls keys {| perplexity := Some c; constructed := n |}
    = (repeat (Ok c) (List.length keys),
       {| perplexity := Some c; constructed := n |}).
Proof.
  induction keys as [|k keys IH]; intros c n; [reflexivity|].
  cbn [calls getPerplexityClient perplexity]. rewrite IH. reflexivity.
Qed.

Lemma calls_without_key :
  forall bad rest st,
    perplexity st = None ->
    forallb (fun k => negb (key_present k)) bad = true ->
    fst (calls (bad ++ rest) st)
    = (map (fun _ => Throw "PERPLEXITY_API_KEY environment variable is missing. Set it to use research-backed features.") bad
       ++ fst (calls rest st))%list
    /\ snd (calls (bad ++ rest) st) = snd (calls rest st).
Proof.
  induction bad as [|k bad IH]; intros rest st Hst Hbad;
    [split; reflexivity|].
  cbn [forallb] in Hbad. apply andb_prop in Hbad. destruct Hbad as [Hk Hbad].
  apply negb_true_iff in Hk.
  assert (Hcall : getPerplexityClient k st
                  = (Throw "PERPLEXITY_API_KEY environment variable is missing. Set it to use research-backed features.", st)).
  { unfold getPerplexityClient. rewrite Hst.
    destruct k as [k|]; [|reflexivity].
    cbn [key_present] in Hk. apply negb_false_iff in Hk. rewrite Hk.
    reflexivity. }
  destruct (IH rest st Hst Hbad) as [IH1 IH2].
  cbn [List.app calls]. rewrite Hcall.
  destruct (calls (bad ++ rest) st) as [rs st2].
  cbn [fst snd] in *. subst. split; reflexivity.
Qed.

End StoreFacts.

(** X17.  The stored client keeps the key of the first call that found
    one.  In a run from the initial state, the calls made before a key is
    configured throw and store nothing; the first call made with a key
    constructs the client; every later call returns that client, with
    that key, whether the key has since been removed or changed. *)
Theorem X17_client_keeps_the_first_key :
  forall (bad later : list (option string)) (k : string),
    forallb (fun key => negb (AiServices.key_present key)) bad = true ->
    AiServices.key_present (Some k) = true ->
    let c := {| AiServices.apiKey := k;
                AiServices.baseURL := "https://api.perplexity.ai";
                AiServices.oid := 0 |} in
    AiServices.calls (bad ++ Some k :: later)%list AiServices.initial_state
    = ((map (fun _ => AiServices.Throw "PERPLEXITY_API_KEY environment variable is missing. Set it to use research-backed features.") bad
        ++ repeat (AiServices.Ok c) (S (List.length later)))%list,
       {| AiServices.perplexity := Some c; AiServices.constructed := 1 |}).
Proof.
  intros bad later k Hbad Hk c.
  destruct (StoreFacts.calls_without_key bad (Some k :: later)
              AiServices.initial_state eq_refl Hbad) as [H1 H2].
  assert (Hrest : AiServices.calls (Some k :: later) AiServices.initial_state
                  = (repeat (AiServices.Ok c) (S (List.length later)),
                     {| AiServices.perplexity := Some c;
                        AiServices.constructed := 1 |})).
  { cbn [AiServices.calls AiServices.getPerplexityClient
         AiServices.perplexity AiServices.initial_state
         AiServices.constructed].
    cbn [AiServices.key_present] in Hk. apply negb_true_iff in Hk.
    rewrite Hk. rewrite StoreFacts.calls_stored. reflexivity. }
  rewrite Hrest in H1, H2. cbn [fst snd] in H1, H2.
  destruct (AiServices.calls (bad ++ Some k :: later)
              AiServices.initial_state) as [rs st].
  cbn [fst snd] in H1, H2. subst. reflexivity.
Qed.

Lemma X17_witness :
  AiServices.calls [None; Some EmptyString; Some "first"; Some "second"; None]
                   AiServices.initial_state
  = ([ AiServices.Throw "PERPLEXITY_API_KEY environment variable is missing. Set it to use research-backed features.";
       AiServices.Throw "PERPLEXITY_API_KEY environment variable is missing. Set it to use research-backed features.";
       AiServices.Ok {| AiServices.apiKey := "first";
                        AiServices.baseURL := "https://api.perplexity.ai";
                        AiServices.oid := 0 |};
       AiServices.Ok {| AiServices.apiKey := "first";
                        AiServices.baseURL := "https://api.perplexity.ai";
                        AiServices.oid := 0 |};
       AiServices.Ok {| AiServices.apiKey := "first";
                        AiServices.baseURL := "https://api.perplexity.ai";
                        AiServices.oid := 0 |} ],
     {| AiServices.perplexity :=
          Some {| AiServices.apiKey := "first";
                  AiServices.baseURL := "https://api.perplexity.ai";
                  AiServices.oid := 0 |};
        AiServices.constructed := 1 |}).
Proof.
  exact (X17_client_keeps_the_first_key
           [None; Some EmptyString] [Some "second"; None] "first"
           eq_refl eq_refl).
Defined.

Module PromptFacts.
Import JS AiServices Generation.

Lemma prefix_append :
  forall a b, String.prefix a (a ++ b) = true.
Proof.
  induction a as [|c a IH]; intros b; [destruct b; reflexivity|].
  cbn [String.append String.prefix].
  destruct (ascii_dec c c) as [_|Hn]; [apply IH | contradiction Hn; reflexivity].
Qed.

Lemma includes_append_r :
  forall a s sub, includes s sub = true -> includes (a ++ s) sub = true.
Proof.
  induction a as [|c a IH]; intros s sub H; [exact H|].
  cbn [String.append includes]. rewrite (IH s sub H). apply orb_true_r.
Qed.

Lemma includes_middle :
  forall a b c, includes (a ++ b ++ c) b = true.
Proof.
  intros a b c. apply includes_append_r.
  destruct (b ++ c) eqn:Hbc; cbn [includes]; rewrite <- Hbc;
    rewrite prefix_append; reflexivity.
Qed.

Section WithEnvironment.

Variable ToString : value -> string.
Variable JSON_stringify : value -> string.

Lemma interpolate_defined :
  forall v,
    interpolable v = true <-> exists t, interpolate ToString v = Some t.
Proof.
  intros v. unfold interpolate.
  destruct (interpolable v); split.
  - intros _. eexists. reflexivity.
  - intros _. reflexivity.
  - intros H. discriminate H.
  - intros [t H]. discriminate H.
Qed.

Lemma task_block_defined :
  forall task,
    printable_task task = true <->
    exists block, task_block ToString JSON_stringify task = Some block.
Proof.
  intros task. unfold printable_task, task_block, interpolate.
  destruct task as [ | |b|n|s|ps|items ps]; cbn [get];
    try (split; [intros H; discriminate H | intros [block H]; discriminate H]);
    match goal with
    | |- context [interpolable ?i && interpolable ?t && interpolable ?d
                  && interpolable ?dt && interpolable ?p] =>
        destruct (interpolable i), (interpolable t), (interpolable d),
                 (interpolable dt), (interpolable p)
    end; cbn [andb];
    try (split; [intros H; discriminate H | intros [block H]; discriminate H]);
    (split; [intros _; eexists; reflexivity | intros _; reflexivity]).
Qed.

Lemma task_blocks_defined :
  forall tasks,
    forallb printable_task tasks = true <->
    exists blocks, task_blocks ToString JSON_stringify tasks = Some blocks.
Proof.
  induction tasks as [|t rest IH].
  - split; [exists []; reflexivity | reflexivity].
  - cbn [forallb task_blocks]. split.
    + intros H. apply andb_prop in H. destruct H as [Ht Hrest].
      apply task_block_defined in Ht. destruct Ht as [b Hb].
      apply IH in Hrest. destruct Hrest as [bs Hbs].
      rewrite Hb, Hbs. eexists. reflexivity.
    + intros [blocks H].
      destruct (task_block ToString JSON_stringify t) as [b|] eqn:Hb;
        [|discriminate H].
      destruct (task_blocks ToString JSON_stringify rest) as [bs|] eqn:Hbs;
        [|discriminate H].
      apply andb_true_intro. split.
      * apply task_block_defined. exists b. exact Hb.
      * apply IH. exists bs. reflexivity.
Qed.

End WithEnvironment.

(** A task whose id hides [toString] behind a property of its own cannot
    be written, and the prompt is not made; with the number for an id it
    is. *)
Lemma unwritable_id_raises :
  generateComplexityAnalysisPrompt Examples.no_conversion
    Examples.no_conversion 3
    (VObj [("tasks",
            VArr [VObj [("id", VObj [("toString", VNum (NInt 1))]);
                        ("title", VStr "first")]] [])])
  = None
  /\ exists prompt,
       generateComplexityAnalysisPrompt Examples.no_conversion
         Examples.no_conversion 3
         (VObj [("tasks",
                 VArr [VObj [("id", VNum (NInt 1));
                             ("title", VStr "first")]] [])])
       = Some prompt.
Proof. split; [reflexivity | eexists; reflexivity]. Qed.

End PromptFacts.

Section PromptExtras.
Import JS AiServices Generation PromptFacts.

Variable ToString : value -> string.
Variable JSON_stringify : value -> string.
Variable defaultSubtasks : Z.

(** X18.  [generateComplexityAnalysisPrompt] returns a prompt exactly
    when [tasksData.tasks] is an array whose [map] is the method of
    arrays and each of whose elements can be written: the element is
    neither [null] nor [undefined], and its [id], [title], [description],
    [details] and [priority || 'medium'] have a conversion to a string
    (none is an object that hides [toString] behind a property of its
    own, nor an array holding one).  It raises a [TypeError] otherwise.
    The prompt carries the recommended range [number (lo-hi)] with
    [lo = max(3, defaultSubtasks - 1)] and [hi = min(8, defaultSubtasks + 2)]:
    [lo] is at least 3, [hi] at most 8, and [lo <= hi] exactly when
    [defaultSubtasks] lies between 1 and 9. *)
Theorem X18_analysis_prompt_and_its_range :
  forall tasksData : value,
    ((exists prompt,
         generateComplexityAnalysisPrompt ToString JSON_stringify
                                          defaultSubtasks tasksData
         = Some prompt
         /\ includes prompt (prompt_range defaultSubtasks) = true)
     <-> (exists tasks ps,
            get tasksData "tasks" = Some (VArr tasks ps)
            /\ has_own "map" ps = false
            /\ forallb printable_task tasks = true))
    /\ (generateComplexityAnalysisPrompt ToString JSON_stringify
                                         defaultSubtasks tasksData = None
        <-> ~ (exists tasks ps,
                 get tasksData "tasks" = Some (VArr tasks ps)
                 /\ has_own "map" ps = false
                 /\ forallb printable_task tasks = true))
    /\ (3 <= recommended_min defaultSubtasks)%Z
    /\ (recommended_max defaultSubtasks <= 8)%Z
    /\ ((recommended_min defaultSubtasks <= recommended_max defaultSubtasks)%Z
        <-> (1 <= defaultSubtasks <= 9)%Z).
Proof.
  intros tasksData.
  assert (Hiff :
    (exists prompt,
        generateComplexityAnalysisPrompt ToString JSON_stringify
                                         defaultSubtasks tasksData
        = Some prompt
        /\ includes prompt (prompt_range defaultSubtasks) = true)
    <-> (exists tasks ps,
           get tasksData "tasks" = Some (VArr tasks ps)
           /\ has_own "map" ps = false
           /\ forallb printable_task tasks = true)).
  { unfold generateComplexityAnalysisPrompt. split.
    - intros [prompt [Hp _]].
      destruct (get tasksData "tasks") as [[ | | | | | |tasks ps]|];
        try discriminate Hp.
      destruct (has_own "map" ps) eqn:Hmap; [discriminate Hp|].
      exists tasks, ps. split; [reflexivity|]. split; [exact Hmap|].
      apply (task_blocks_defined ToString JSON_stringify).
      destruct (task_blocks ToString JSON_stringify tasks) as [bs|];
        [exists bs; reflexivity | discriminate Hp].
    - intros [tasks [ps [Hget [Hmap Hnn]]]]. rewrite Hget, Hmap.
      apply (task_blocks_defined ToString JSON_stringify) in Hnn.
      destruct Hnn as [bs Hbs]. rewrite Hbs.
      eexists. split; [reflexivity|].
      unfold prompt_tail.
      apply includes_append_r, includes_append_r, includes_middle. }
  split; [exact Hiff|].
  split; [|unfold recommended_min, recommended_max; lia].
  split.
  - intros Hnone Hex. apply Hiff in Hex. destruct Hex as [prompt [Hp _]].
    rewrite Hnone in Hp. discriminate Hp.
  - intros Hno.
    destruct (generateComplexityAnalysisPrompt ToString JSON_stringify
                defaultSubtasks tasksData) as [prompt|] eqn:Hp;
      [|reflexivity].
    exfalso. apply Hno.
    assert (Hsome : exists prompt',
               generateComplexityAnalysisPrompt ToString JSON_stringify
                                                defaultSubtasks tasksData
               = Some prompt'
               /\ includes prompt' (prompt_range defaultSubtasks) = true).
    { revert Hp. unfold generateComplexityAnalysisPrompt.
      destruct (get tasksData "tasks") as [[ | | | | | |tasks ps]|];
        try (intros Hp; discriminate Hp).
      destruct (has_own "map" ps); [intros Hp; discriminate Hp|].
      destruct (task_blocks ToString JSON_stringify tasks) as [bs|];
        [|intros Hp; discriminate Hp].
      intros _. eexists. split; [reflexivity|].
      unfold prompt_tail.
      apply includes_append_r, includes_append_r, includes_middle. }
    rewrite Hp in Hsome. apply Hiff. exact Hsome.
Qed.

End PromptExtras.

Section HandlerExtras.
Import JS AiServices CommandHandler.

(** X19.  [parsePRDHandler] never runs [parsePRD], a name that
    [command-handler.js] neither imports nor defines: every run ends the
    process with exit code 1 after a first line [Error: ...] on the
    standard error.  When Ollama is available, the model ([OLLAMA_MODEL],
    or [llama3]) is available and the PRD file (the input path, by
    default [sample-prd.txt]) exists, the handler prints
    [Error: parsePRD is not defined] and nothing else; when only the file
    is missing it prints [Error: PRD file not found: ] and the path, and
    nothing else. *)
Theorem X19_handler_ends_on_the_undefined_parsePRD :
  forall (opts : options) (env : environment)
         (isOllamaAvailable : result string bool)
         (isModelAvailable : string -> result string bool)
         (existsSync : string -> bool),
    let prdPath := or_else (input opts) "sample-prd.txt" in
    let checked :=
      isOllamaAvailable = Ok true
      /\ isModelAvailable (or_else (OLLAMA_MODEL env) "llama3") = Ok true in
    let run := parsePRDHandler opts env isOllamaAvailable isModelAvailable
                               existsSync in
    snd run = Exits 1
    /\ (exists line rest, fst run = StdErr ("Error: " ++ line) :: rest)
    /\ (checked -> existsSync prdPath = true ->
        fst run = [StdErr "Error: parsePRD is not defined"])
    /\ (checked -> existsSync prdPath = false ->
        fst run = [StdErr ("Error: PRD file not found: " ++ prdPath)])
    /\ (fst run = [StdErr "Error: parsePRD is not defined"] ->
        isOllamaAvailable = Throw "parsePRD is not defined"
        \/ (isOllamaAvailable = Ok true
            /\ (isModelAvailable (or_else (OLLAMA_MODEL env) "llama3")
                = Throw "parsePRD is not defined"
                \/ checked /\ existsSync prdPath = true))).
Proof.
  intros opts env oa ma ex prdPath checked run.
  unfold run, checked, parsePRDHandler, fails, parsePRD_is_not_defined.
  fold prdPath.
  destruct oa as [[|]|msg0]; cbn [fst snd].
  - destruct (ma (or_else (OLLAMA_MODEL env) "llama3")) as [[|]|msg1];
      cbn [fst snd].
    + destruct (ex prdPath) eqn:Hex; cbn [negb fst snd].
      * split; [reflexivity|].
        split; [exists "parsePRD is not defined", []; reflexivity|].
        split; [intros _ _; reflexivity|].
        split; [intros _ H; discriminate H|].
        intros _. right. split; [reflexivity|]. right.
        split; [split; reflexivity | reflexivity].
      * split; [reflexivity|].
        split; [exists ("PRD file not found: " ++ prdPath), []; reflexivity|].
        split; [intros _ H; discriminate H|].
        split; [intros _ _; reflexivity|].
        intros H. exfalso. injection H as H.
        discriminate H.
    + split; [reflexivity|].
      split; [eexists _, _; reflexivity|].
      split; [intros [_ H]; discriminate H|].
      split; [intros [_ H]; discriminate H|].
      intros H. discriminate H.
    + split; [reflexivity|].
      split; [exists msg1, []; reflexivity|].
      split; [intros [_ H]; discriminate H|].
      split; [intros [_ H]; discriminate H|].
      intros H. injection H as H. subst msg1.
      right. split; [reflexivity|]. left. reflexivity.
  - split; [reflexivity|].
    split; [eexists _, _; reflexivity|].
    split; [intros [H _]; discriminate H|].
    split; [intros [H _]; discriminate H|].
    intros H. discriminate H.
  - split; [reflexivity|].
    split; [exists msg0, []; reflexivity|].
    split; [intros [H _]; discriminate H|].
    split; [intros [H _]; discriminate H|].
    intros H. injection H as H. subst msg0. left. reflexivity.
Qed.

End HandlerExtras.

(* ===================================================================== *)
(** * Answers that the gateway takes for something else *)
(* ===================================================================== *)

Section MisreadAnswers.
Import JS AiServices Generation ExtractorFacts GatewayFacts RequestFacts.

Variable JSON_parse : string -> option value.
Variable ToString : value -> string.
Variable OLLAMA_API_URL OLLAMA_MODEL : string.
Variable PROJECT_NAME : option string.
Variable today : string.

Lemma append_lines_no_json :
  forall lines acc,
    (forall line, In line lines -> JSON_parse line = None) ->
    append_lines JSON_parse ToString acc lines = acc.
Proof.
  induction lines as [|l lines IH]; intros acc Hno; [reflexivity|].
  unfold append_lines. cbn [fold_left].
  unfold append_line_content at 2. rewrite (Hno l (or_introl eq_refl)).
  apply IH. intros line Hin. apply Hno. right. exact Hin.
Qed.

(** X20.  An answer with a status that is not a success is retried like
    a transient failure when the error text of its body holds the word
    [timeout] or [network], in any case of letters: the first request of
    a call is followed by the logged user message, the wait of 5000 ms and
    a call that has one retry spent. *)
Theorem X20_http_failure_with_transient_words_is_retried :
  forall (numTasks : Z) (prdPath : string) (net : nat -> fetch_outcome)
         (st : Z) (body_error : string),
    net 0 = NotOk st (VStr body_error) ->
    includes (toLowerCase body_error) "timeout"
    || includes (toLowerCase body_error) "network" = true ->
    exists userMessage,
      handleOllamaError OLLAMA_API_URL OLLAMA_MODEL
                        (http_error st (VStr body_error))
      = Some userMessage
      /\ callClaude JSON_parse ToString OLLAMA_API_URL OLLAMA_MODEL
                    PROJECT_NAME today numTasks prdPath net 0
         = after [ Log LInfo (Text "Calling Ollama...");
                   Log LError (Text userMessage);
                   Log LInfo (WaitingBeforeRetry 5 1);
                   Sleep 5000 ]
                 (callClaude JSON_parse ToString OLLAMA_API_URL OLLAMA_MODEL
                             PROJECT_NAME today numTasks prdPath
                             (fun n => net (S n)) 1).
Proof.
  intros N path net st body Hnet Hwords.
  assert (Hne : String.eqb body EmptyString = false).
  { destruct body; [discriminate Hwords | reflexivity]. }
  assert (Hmsg : message (http_error st (VStr body)) = VStr body).
  { unfold http_error. cbn [message truthy]. rewrite Hne. reflexivity. }
  assert (Hretry : retryable (http_error st (VStr body)) = Some true).
  { apply retryable_signature. right. right.
    exists body. split; [exact Hmsg|].
    apply orb_true_iff in Hwords. exact Hwords. }
  destruct (retryable_handled OLLAMA_API_URL OLLAMA_MODEL _ _ Hretry)
    as [userMessage Hm].
  exists userMessage. split; [exact Hm|].
  assert (Hreq : handleStreamingRequest JSON_parse ToString PROJECT_NAME
                   today N path (net 0)
                 = ([], Throw (http_error st (VStr body)))).
  { rewrite Hnet. reflexivity. }
  assert (L0 : 0 < 2) by lia.
  rewrite (callClaude_retry JSON_parse ToString OLLAMA_API_URL OLLAMA_MODEL
             PROJECT_NAME today N path net 0 [] _ userMessage Hreq Hm
             (proj2 (decide_retry_Retry 0 _) (conj L0 Hretry))).
  reflexivity.
Qed.

(** X21.  A body answered with a success status that holds no line of
    JSON (an empty body, a page of text) is not an error: the text
    assembled is empty, and, the empty text being no JSON text,
    [handleStreamingRequest] returns the fallback document after warning
    of missing JSON markers. *)
Theorem X21_body_without_json_yields_the_fallback :
  forall (numTasks : Z) (prdPath : string) (body : string),
    (forall line, In line (nonblank_lines body) -> JSON_parse line = None) ->
    JSON_parse EmptyString = None ->
    handleStreamingRequest JSON_parse ToString PROJECT_NAME today
                           numTasks prdPath (Buffered body)
    = ([ Log LInfo (Text "Response received, processing...");
         Log LDebug FailedToParseResponse;
         Log LDebug (JsonIndices (-1) (-1));
         Log LWarn (Text "Creating fallback tasks structure due to missing JSON markers") ],
       Ok (fallback_tasks PROJECT_NAME today numTasks prdPath)).
Proof.
  intros N path body Hno Hempty.
  rewrite handleStreamingRequest_buffered.
  unfold assemble_buffered. rewrite (append_lines_no_json _ _ Hno).
  change (processOllamaResponse EmptyString) with EmptyString.
  unfold parse_response. rewrite Hempty. reflexivity.
Qed.

End MisreadAnswers.

Lemma X20_witness :
  JS.includes (JS.toLowerCase "Upstream Timeout") "timeout"
  || JS.includes (JS.toLowerCase "Upstream Timeout") "network" = true
  /\ AiServices.sleeps
       (AiServices.events
          (AiServices.callClaude Json.JSON_parse Examples.no_conversion
             "http://localhost:11434" "llama3" None "2026-11-01"
             3 "prd.txt"
             (fun _ => AiServices.NotOk 504
                         (JS.VStr "Upstream Timeout")) 0))
     = [5000; 10000]%Z.
Proof.
  split; [reflexivity|].
  destruct (X20_http_failure_with_transient_words_is_retried
              Json.JSON_parse Examples.no_conversion
              "http://localhost:11434" "llama3" None "2026-11-01"
              3 "prd.txt"
              (fun _ => AiServices.NotOk 504 (JS.VStr "Upstream Timeout"))
              504 "Upstream Timeout" eq_refl eq_refl)
    as [userMessage [_ Hrun]].
  rewrite Hrun. vm_compute. reflexivity.
Defined.

Lemma X21_witness :
  (forall line,
      In line (AiServices.nonblank_lines Examples.prose_text) ->
      Json.JSON_parse line = None)
  /\ Json.JSON_parse EmptyString = None
  /\ AiServices.outcome
       (AiServices.handleStreamingRequest Json.JSON_parse
          Examples.no_conversion None "2026-11-01" 2 "prd.txt"
          (AiServices.Buffered Examples.prose_text))
     = AiServices.Ok
         (AiServices.fallback_tasks None "2026-11-01" 2 "prd.txt").
Proof.
  assert (Hno : forall line,
             In line (AiServices.nonblank_lines Examples.prose_text) ->
             Json.JSON_parse line = None).
  { intros line [Hl | []]. subst line. reflexivity. }
  split; [exact Hno|]. split; [reflexivity|].
  rewrite (X21_body_without_json_yields_the_fallback
             Json.JSON_parse Examples.no_conversion None "2026-11-01"
             2 "prd.txt" Examples.prose_text Hno eq_refl).
  reflexivity.
Defined.
